(** * Transmission-line geometry (prereise/gather/griddata/transmission/geometry.py)

    A shallow embedding of the three dataclasses [Conductor],
    [ConductorBundle] and [Tower] and of their [__post_init__] methods.

    Numbers.  Python floats are idealised as real numbers: rounding and
    overflow are outside the model.  What is kept is every exception that
    the arithmetic of the module raises on real-valued grounds (division by
    zero, [math.log] of a non-positive number, [math.sqrt] of a negative
    one, an operand that is [None]) and the fact that [float ** float]
    with a negative base and a fractional exponent returns a [complex].  *)

From Stdlib Require Import Reals Lra Lia ZArith String List.
From stdpp Require Import gmap strings.

Local Open Scope R_scope.

(** ** Exceptions and the error monad *)

Inductive exn : Type :=
| ValueError
| NotImplementedError
| ZeroDivisionError
| TypeError.

Inductive result (A : Type) : Type :=
| Ok (v : A)
| Raise (e : exn).

Arguments Ok {A} v.
Arguments Raise {A} e.

Definition bind {A B : Type} (m : result A) (k : A -> result B) : result B :=
  match m with
  | Ok v => k v
  | Raise e => Raise e
  end.

Notation "'let*' x ':=' m 'in' k" := (bind m (fun x => k))
  (at level 10, x name, m at level 100, k at level 200).

(** ** Python numbers *)

Inductive pynum : Type :=
| PyFloat (x : R)
| PyComplex (re im : R).

(** [x / y] on floats. *)
Definition float_div (x y : R) : result R :=
  if Req_EM_T y 0 then Raise ZeroDivisionError else Ok (x / y).

(** [x / n] for a float [x] and an int [n]. *)
Definition float_div_int (x : R) (n : Z) : result R :=
  if (n =? 0)%Z then Raise ZeroDivisionError else Ok (x / IZR n).

(** A float that holds an integral value. *)
Definition is_integral (y : R) : {IZR (Int_part y) = y} + {IZR (Int_part y) <> y} :=
  Req_EM_T (IZR (Int_part y)) y.

(** [x ** y] on floats.  A negative base under a fractional exponent gives
    the complex number of modulus [|x| ** y] and argument [pi * y]. *)
Definition float_pow (x y : R) : result pynum :=
  if Req_EM_T y 0 then Ok (PyFloat 1)
  else if Rlt_dec 0 x then Ok (PyFloat (Rpower x y))
  else if Req_EM_T x 0 then
    if Rlt_dec y 0 then Raise ZeroDivisionError else Ok (PyFloat 0)
  else if is_integral y then
    Ok (PyFloat (if Z.even (Int_part y) then Rpower (- x) y else - Rpower (- x) y))
  else
    Ok (PyComplex (Rpower (- x) y * cos (PI * y)) (Rpower (- x) y * sin (PI * y))).

(** [k * z] for a float [k]. *)
Definition py_scale (k : R) (z : pynum) : pynum :=
  match z with
  | PyFloat x => PyFloat (k * x)
  | PyComplex re im => PyComplex (k * re) (k * im)
  end.

(** [z / w]. *)
Definition py_div (z w : pynum) : result pynum :=
  match z, w with
  | PyFloat x, PyFloat y =>
      let* q := float_div x y in Ok (PyFloat q)
  | PyFloat x, PyComplex c d =>
      if Req_EM_T (c * c + d * d) 0 then Raise ZeroDivisionError
      else Ok (PyComplex (x * c / (c * c + d * d)) (- (x * d) / (c * c + d * d)))
  | PyComplex a b, PyFloat y =>
      if Req_EM_T y 0 then Raise ZeroDivisionError
      else Ok (PyComplex (a / y) (b / y))
  | PyComplex a b, PyComplex c d =>
      if Req_EM_T (c * c + d * d) 0 then Raise ZeroDivisionError
      else Ok (PyComplex ((a * c + b * d) / (c * c + d * d))
                         ((b * c - a * d) / (c * c + d * d)))
  end.

(** [math.sqrt]. *)
Definition math_sqrt (x : R) : result R :=
  if Rlt_dec x 0 then Raise ValueError else Ok (sqrt x).

(** [math.log]: refuses a complex argument, and a float that is not positive. *)
Definition math_log (z : pynum) : result R :=
  match z with
  | PyFloat x => if Rlt_dec 0 x then Ok (ln x) else Raise ValueError
  | PyComplex _ _ => Raise TypeError
  end.

(** [math.prod], which starts from [1]. *)
Definition prod (l : list R) : R := fold_left Rmult l 1.

(** An operand read from an attribute that may hold [None]. *)
Definition operand (o : option R) : result R :=
  match o with
  | Some x => Ok x
  | None => Raise TypeError
  end.

(** ** Module [const]

    [const.py] is not among the sources; the four names geometry.py imports
    from it are taken as parameters. *)
Module const.
Record t : Type := {
  epsilon_0 : R;
  mu_0 : R;
  relative_permeability : gmap string R;
  resistivity : gmap string R
}.
End const.

(** [table[key]] where [key] may be [None], which is a key of no table. *)
Definition getitem (table : gmap string R) (key : option string) : option R :=
  match key with
  | Some k => table !! k
  | None => None
  end.

Definition is_None {A : Type} (o : option A) : bool :=
  match o with
  | None => true
  | Some _ => false
  end.

(** ** Conductor *)
Module Conductor.

(** The five dataclass fields, and the two attributes [permeability] and
    [resistivity] that [__post_init__] sets when it looks them up. *)
Record t : Type := {
  radius : option R;
  material : option string;
  resistance_per_km : option R;
  gmr : option R;
  area : option R;
  permeability : option R;
  resistivity : option R
}.

Section WithConst.
Variable K : const.t.

(** The block [if self.gmr is None: ...] of [__post_init__]. *)
Definition estimate_gmr (self : t) : result t :=
  match gmr self with
  | Some _ => Ok self
  | None =>
      match getitem (const.relative_permeability K) (material self) with
      | None => Raise ValueError
      | Some p =>
          let* r := operand (radius self) in
          Ok {| radius := radius self;
                material := material self;
                resistance_per_km := resistance_per_km self;
                gmr := Some (r * exp (p / 4));
                area := area self;
                permeability := Some p;
                resistivity := resistivity self |}
      end
  end.

(** The block [if self.resistance_per_km is None: ...]. *)
Definition estimate_resistance (self : t) : result t :=
  match resistance_per_km self with
  | Some _ => Ok self
  | None =>
      match getitem (const.resistivity K) (material self) with
      | None => Raise ValueError
      | Some rho =>
          let* a :=
            match area self with
            | Some a => Ok a
            | None => let* r := operand (radius self) in Ok (PI * r ^ 2)
            end in
          let* res := float_div (rho * 1000) a in
          Ok {| radius := radius self;
                material := material self;
                resistance_per_km := Some res;
                gmr := gmr self;
                area := Some a;
                permeability := permeability self;
                resistivity := Some rho |}
      end
  end.

Definition __post_init__ (self : t) : result t :=
  if is_None (gmr self) && (is_None (material self) || is_None (radius self))
  then Raise ValueError
  else if is_None (resistance_per_km self)
            && (is_None (material self) || is_None (radius self))
  then Raise ValueError
  else
    let* self := estimate_gmr self in
    estimate_resistance self.

(** The generated [__init__]. *)
Definition new (radius : option R) (material : option string)
    (resistance_per_km gmr area : option R) : result t :=
  __post_init__ {| radius := radius;
                   material := material;
                   resistance_per_km := resistance_per_km;
                   gmr := gmr;
                   area := area;
                   permeability := None;
                   resistivity := None |}.

End WithConst.
End Conductor.

(** ** ConductorBundle

    A power with an int exponent ([spacing ** 3]) is the real power, which
    raises nothing; [2 ** (1 / 2)] has a positive base and is the float
    [Rpower 2 (1 / 2)]; every other [**] goes through [float_pow]. *)
Module ConductorBundle.

(** The four dataclass fields. *)
Record fields : Type := {
  n : Z;
  spacing : R;
  conductor : Conductor.t;
  layout : string
}.

(** A constructed bundle: the fields and the three attributes that
    [__post_init__] derives from them. *)
Record t : Type := {
  init : fields;
  resistance_per_km : R;
  spacing_L : pynum;
  spacing_C : pynum
}.

Section Methods.
Variable self : fields.

Definition calculate_equivalent_spacing_circular
    (conductor_distance : option R) : result pynum :=
  if (n self =? 3)%Z then
    let* d := operand conductor_distance in
    float_pow (d * spacing self ^ Z.to_nat (n self - 1)) (1 / IZR (n self))
  else if (n self =? 4)%Z then
    let* d := operand conductor_distance in
    float_pow (d * spacing self ^ 3 * Rpower 2 (1 / 2)) (1 / 4)
  else Raise NotImplementedError.

Definition calculate_equivalent_spacing_flat
    (conductor_distance : option R) : result pynum :=
  if (n self =? 3)%Z then
    let* d := operand conductor_distance in
    float_pow (d * 2 * spacing self ^ 2) (1 / 3)
  else if (n self =? 4)%Z then
    let* d := operand conductor_distance in
    float_pow (d * 12 * spacing self ^ 3) (1 / 8)
  else Raise NotImplementedError.

Definition calculate_equivalent_spacing (type : string) : result pynum :=
  let* conductor_distance :=
    if String.eqb type "inductance" then Ok (Conductor.gmr (conductor self))
    else if String.eqb type "capacitance" then Ok (Conductor.radius (conductor self))
    else Raise ValueError in
  if (n self =? 2)%Z then
    let* d := operand conductor_distance in
    float_pow (d * spacing self) (1 / 2)
  else if String.eqb (layout self) "circular" then
    calculate_equivalent_spacing_circular conductor_distance
  else if String.eqb (layout self) "flat" then
    calculate_equivalent_spacing_flat conductor_distance
  else Raise ValueError.

Definition __post_init__ : result t :=
  let* r := operand (Conductor.resistance_per_km (conductor self)) in
  let* resistance_per_km := float_div_int r (n self) in
  let* spacing_L := calculate_equivalent_spacing "inductance" in
  let* spacing_C := calculate_equivalent_spacing "capacitance" in
  Ok {| init := self;
        resistance_per_km := resistance_per_km;
        spacing_L := spacing_L;
        spacing_C := spacing_C |}.

End Methods.
End ConductorBundle.

(** ** PhaseLocations *)
Module PhaseLocations.
Record t : Type := {
  a : R * R;
  b : R * R;
  c : R * R
}.
End PhaseLocations.

(** ** Tower *)
Module Tower.

(** What [calculate_distances] stores; the two dictionaries keep their
    insertion order. *)
Record distances : Type := {
  true_distance : list (string * R);
  reflected_distance : list (string * R);
  equivalent_distance : pynum;
  equivalent_reflected_distance : pynum;
  equivalent_height : pynum
}.

Record t : Type := {
  locations : PhaseLocations.t;
  bundle : ConductorBundle.t;
  circuits : Z;
  freq : R;
  a : R * R;
  b : R * R;
  c : R * R;
  dist : distances;
  resistance : R;
  inductance : R;
  capacitance : R
}.

Definition values (d : list (string * R)) : list R := map snd d.

Definition calculate_distances (a b c : R * R) : result distances :=
  let* t_ab := math_sqrt ((fst a - fst b) ^ 2 + (snd a - snd b) ^ 2) in
  let* t_ac := math_sqrt ((fst a - fst c) ^ 2 + (snd a - snd c) ^ 2) in
  let* t_bc := math_sqrt ((fst b - fst c) ^ 2 + (snd b - snd c) ^ 2) in
  let true_distance := [("ab"%string, t_ab); ("ac"%string, t_ac); ("bc"%string, t_bc)] in
  let* r_ab := math_sqrt ((fst a - fst b) ^ 2 + (snd a + snd b) ^ 2) in
  let* r_ac := math_sqrt ((fst a - fst c) ^ 2 + (snd a + snd c) ^ 2) in
  let* r_bc := math_sqrt ((fst b - fst c) ^ 2 + (snd b + snd c) ^ 2) in
  let reflected_distance :=
    [("ab"%string, r_ab); ("ac"%string, r_ac); ("bc"%string, r_bc)] in
  let* equivalent_distance := float_pow (prod (values true_distance)) (1 / 3) in
  let* equivalent_reflected_distance :=
    float_pow (prod (values reflected_distance)) (1 / 3) in
  let* equivalent_height := float_pow (prod [snd a; snd b; snd c]) (1 / 3) in
  Ok {| true_distance := true_distance;
        reflected_distance := reflected_distance;
        equivalent_distance := equivalent_distance;
        equivalent_reflected_distance := equivalent_reflected_distance;
        equivalent_height := equivalent_height |}.

Section WithConst.
Variable K : const.t.

Definition calculate_inductance_per_km
    (d : distances) (bundle : ConductorBundle.t) : result R :=
  let* q := py_div (equivalent_distance d) (ConductorBundle.spacing_L bundle) in
  let* l := math_log q in
  Ok (const.mu_0 K / (2 * PI) * l).

Definition calculate_shunt_capacitance_per_km
    (d : distances) (bundle : ConductorBundle.t) : result R :=
  let* q := py_div (equivalent_distance d) (ConductorBundle.spacing_C bundle) in
  let* l1 := math_log q in
  let* q' := py_div (equivalent_reflected_distance d)
                    (py_scale 2 (equivalent_height d)) in
  let* l2 := math_log q' in
  float_div (2 * PI * const.epsilon_0 K) (l1 - l2).

Definition __post_init__ (locations : PhaseLocations.t)
    (bundle : ConductorBundle.t) (circuits : Z) (freq : R) : result t :=
  if negb (circuits =? 1)%Z then Raise ValueError
  else
    let a := PhaseLocations.a locations in
    let b := PhaseLocations.b locations in
    let c := PhaseLocations.c locations in
    let* d := calculate_distances a b c in
    let resistance := ConductorBundle.resistance_per_km bundle in
    let* inductance := calculate_inductance_per_km d bundle in
    let* capacitance := calculate_shunt_capacitance_per_km d bundle in
    Ok {| locations := locations;
          bundle := bundle;
          circuits := circuits;
          freq := freq;
          a := a;
          b := b;
          c := c;
          dist := d;
          resistance := resistance;
          inductance := inductance;
          capacitance := capacitance |}.

End WithConst.
End Tower.

(** * Notions of the specification *)

(** The area that the resistance estimate divides by. *)
Definition area_used (rad ar : option R) : option R :=
  match ar with
  | Some a => Some a
  | None =>
      match rad with
      | Some r => Some (PI * r ^ 2)
      | None => None
      end
  end.

(** The resistance is the one supplied, or is estimated from the material. *)
Definition resistance_resolves (K : const.t) (rad : option R) (mat : option string)
    (res ar : option R) (x : R) : Prop :=
  res = Some x \/
  (res = None /\
   exists rho a,
     getitem (const.resistivity K) mat = Some rho /\
     area_used rad ar = Some a /\ a <> 0 /\ x = rho * 1000 / a).

(** The GMR is the one supplied, or is estimated from material and radius. *)
Definition gmr_resolves (K : const.t) (rad : option R) (mat : option string)
    (g : option R) (x : R) : Prop :=
  g = Some x \/
  (g = None /\
   exists p r,
     getitem (const.relative_permeability K) mat = Some p /\
     rad = Some r /\ x = r * exp (p / 4)).

(** The square root as [** (1 / 2)] computes it: the principal root, which
    is imaginary for a negative number. *)
Definition principal_sqrt (x : R) : pynum :=
  if Rle_dec 0 x then PyFloat (sqrt x) else PyComplex 0 (sqrt (- x)).

(** [self] with another layout. *)
Definition with_layout (self : ConductorBundle.fields) (lay : string)
  : ConductorBundle.fields :=
  {| ConductorBundle.n := ConductorBundle.n self;
     ConductorBundle.spacing := ConductorBundle.spacing self;
     ConductorBundle.conductor := ConductorBundle.conductor self;
     ConductorBundle.layout := lay |}.

(** The attribute that [type] selects. *)
Definition conductor_distance (self : ConductorBundle.fields) (type : string) : option R :=
  if String.eqb type "inductance"
  then Conductor.gmr (ConductorBundle.conductor self)
  else Conductor.radius (ConductorBundle.conductor self).

(** The distance between two phases, and the distance from one phase to the
    image of the other under the ground plane (heights added). *)
Definition distance (p q : R * R) : R :=
  sqrt ((fst p - fst q) ^ 2 + (snd p - snd q) ^ 2).

Definition reflected (p q : R * R) : R :=
  sqrt ((fst p - fst q) ^ 2 + (snd p + snd q) ^ 2).

(** The geometric mean of three positive numbers: the cube root of their
    product. *)
Definition geometric_mean (x y z : R) : R := Rpower (x * y * z) (1 / 3).

(** What [** (1 / 3)] returns, by the sign of the base. *)
Definition pow_third (x : R) : pynum :=
  if Rlt_dec 0 x then PyFloat (Rpower x (1 / 3))
  else if Req_EM_T x 0 then PyFloat 0
  else PyComplex (Rpower (- x) (1 / 3) * cos (PI * (1 / 3)))
                 (Rpower (- x) (1 / 3) * sin (PI * (1 / 3))).

(** * Objects of the examples *)

(** An instance of the parameters, for the examples.  test_geometry.py
    builds a conductor from [material="aluminum"] alone, so both tables hold
    that key, and it says that neither holds ["ACSR"]. *)
Definition example_const : const.t :=
  {| const.epsilon_0 := 8854 / 10 ^ 15;
     const.mu_0 := 4 * PI / 10 ^ 7;
     const.relative_permeability := {[ "aluminum"%string := 1 ]};
     const.resistivity := {[ "aluminum"%string := 265 / 10 ^ 10 ]} |}.

(** A solid aluminum conductor of radius 1 cm, built from the material alone. *)
Definition aluminum_conductor : Conductor.t :=
  {| Conductor.radius := Some (1 / 100);
     Conductor.material := Some "aluminum"%string;
     Conductor.resistance_per_km := Some (265 / 10 ^ 10 * 1000 / (PI * (1 / 100) ^ 2));
     Conductor.gmr := Some (1 / 100 * exp (1 / 4));
     Conductor.area := Some (PI * (1 / 100) ^ 2);
     Conductor.permeability := Some 1;
     Conductor.resistivity := Some (265 / 10 ^ 10) |}.

(** The ACSR "Cardinal" conductor of test_geometry.py, with every number
    supplied. *)
Definition cardinal : Conductor.t :=
  {| Conductor.radius := Some (1519 / 100000);
     Conductor.material := Some "ACSR"%string;
     Conductor.resistance_per_km := Some (23 / 1000);
     Conductor.gmr := Some (12253 / 1000000);
     Conductor.area := None;
     Conductor.permeability := None;
     Conductor.resistivity := None |}.

(** Two Cardinal conductors 1.5 ft apart, as in test_geometry.py. *)
Definition cardinal_pair (lay : string) : ConductorBundle.fields :=
  {| ConductorBundle.n := 2;
     ConductorBundle.spacing := 4572 / 10000;
     ConductorBundle.conductor := cardinal;
     ConductorBundle.layout := lay |}.


(** [ConductorBundle(n=5, spacing=0.4572, conductor=cardinal,
    layout="triangular")]: the layout is looked at before the count. *)
Definition five_triangular : ConductorBundle.fields :=
  {| ConductorBundle.n := 5;
     ConductorBundle.spacing := 4572 / 10000;
     ConductorBundle.conductor := cardinal;
     ConductorBundle.layout := "triangular" |}.



(** The bundle that [cardinal_pair "circular"] constructs. *)
Definition cardinal_bundle : ConductorBundle.t :=
  {| ConductorBundle.init := cardinal_pair "circular";
     ConductorBundle.resistance_per_km := 23 / 1000 / 2;
     ConductorBundle.spacing_L := PyFloat (sqrt (12253 / 1000000 * (4572 / 10000)));
     ConductorBundle.spacing_C := PyFloat (sqrt (1519 / 100000 * (4572 / 10000))) |}.

(** Phases 7 m apart in a row, 27 m above ground (the tower of
    test_geometry.py, in round numbers). *)
Definition row_of_phases : PhaseLocations.t :=
  {| PhaseLocations.a := (-7, 27);
     PhaseLocations.b := (0, 27);
     PhaseLocations.c := (7, 27) |}.

(** * Claims that the code refutes, as the specification words them *)

(** C3 in the words of the specification: without a supplied [gmr], a
    material of known permeability makes construction succeed with
    [gmr = radius * exp(permeability / 4)], and a material that the table
    lacks makes it fail with ValueError. *)
Definition C3_as_stated : Prop :=
  forall (K : const.t) (rad : option R) (mat : option string) (res ar : option R),
    (forall p : R,
        getitem (const.relative_permeability K) mat = Some p ->
        exists (c : Conductor.t) (r : R),
          Conductor.new K rad mat res None ar = Ok c /\
          rad = Some r /\ Conductor.gmr c = Some (r * exp (p / 4)))
    /\ (getitem (const.relative_permeability K) mat = None ->
        Conductor.new K rad mat res None ar = Raise ValueError).

(** C4 in the words of the specification: without a supplied
    [resistance_per_km], a material of known resistivity makes construction
    succeed with the area supplied, or [pi * radius ** 2] in its absence, and
    [resistance_per_km = resistivity * 1000 / area]; a material that the
    table lacks makes it fail with ValueError. *)
Definition C4_as_stated : Prop :=
  forall (K : const.t) (rad : option R) (mat : option string) (g ar : option R),
    (forall rho : R,
        getitem (const.resistivity K) mat = Some rho ->
        exists (c : Conductor.t) (a : R),
          Conductor.new K rad mat None g ar = Ok c /\
          (ar = Some a \/ ar = None /\ exists r, rad = Some r /\ a = PI * r ^ 2) /\
          Conductor.area c = Some a /\
          Conductor.resistance_per_km c = Some (rho * 1000 / a))
    /\ (getitem (const.resistivity K) mat = None ->
        Conductor.new K rad mat None g ar = Raise ValueError).

(** C6 in the words of the specification: over a constructed conductor, a
    count outside {2, 3, 4} makes construction fail with NotImplementedError
    under every layout string. *)
Definition C6_as_stated : Prop :=
  forall (self : ConductorBundle.fields) (res : R),
    Conductor.resistance_per_km (ConductorBundle.conductor self) = Some res ->
    ConductorBundle.n self <> 2%Z ->
    ConductorBundle.n self <> 3%Z ->
    ConductorBundle.n self <> 4%Z ->
    ConductorBundle.__post_init__ self = Raise NotImplementedError.


(** * Transformations of the inputs *)

(** The same lengths in another unit: [k] times the radius and the GMR. *)
Definition scale_conductor (k : R) (c : Conductor.t) : Conductor.t :=
  {| Conductor.radius := option_map (Rmult k) (Conductor.radius c);
     Conductor.material := Conductor.material c;
     Conductor.resistance_per_km := Conductor.resistance_per_km c;
     Conductor.gmr := option_map (Rmult k) (Conductor.gmr c);
     Conductor.area := Conductor.area c;
     Conductor.permeability := Conductor.permeability c;
     Conductor.resistivity := Conductor.resistivity c |}.

(** ... and [k] times the spacing. *)
Definition scale_fields (k : R) (self : ConductorBundle.fields)
  : ConductorBundle.fields :=
  {| ConductorBundle.n := ConductorBundle.n self;
     ConductorBundle.spacing := k * ConductorBundle.spacing self;
     ConductorBundle.conductor := scale_conductor k (ConductorBundle.conductor self);
     ConductorBundle.layout := ConductorBundle.layout self |}.

(** A function applied to the three phase positions. *)
Definition map_locations (f : R * R -> R * R) (l : PhaseLocations.t)
  : PhaseLocations.t :=
  {| PhaseLocations.a := f (PhaseLocations.a l);
     PhaseLocations.b := f (PhaseLocations.b l);
     PhaseLocations.c := f (PhaseLocations.c l) |}.

(** The tower moved sideways by [dx], seen from the other side, and measured
    in another unit. *)
Definition shift (dx : R) (p : R * R) : R * R := (fst p + dx, snd p).

Definition mirror (p : R * R) : R * R := (- fst p, snd p).

Definition scale_point (k : R) (p : R * R) : R * R := (k * fst p, k * snd p).

(** The phases under other names: [a] and [b] exchanged, [b] and [c]
    exchanged. *)
Definition exchange_ab (l : PhaseLocations.t) : PhaseLocations.t :=
  {| PhaseLocations.a := PhaseLocations.b l;
     PhaseLocations.b := PhaseLocations.a l;
     PhaseLocations.c := PhaseLocations.c l |}.

Definition exchange_bc (l : PhaseLocations.t) : PhaseLocations.t :=
  {| PhaseLocations.a := PhaseLocations.a l;
     PhaseLocations.b := PhaseLocations.c l;
     PhaseLocations.c := PhaseLocations.b l |}.

(** Two tower constructions that end alike: the same exception, or two
    towers with the same equivalent distances, resistance, inductance and
    capacitance. *)
Definition same_line_constants (r1 r2 : result Tower.t) : Prop :=
  match r1, r2 with
  | Ok t1, Ok t2 =>
      Tower.equivalent_distance (Tower.dist t1)
      = Tower.equivalent_distance (Tower.dist t2) /\
      Tower.equivalent_reflected_distance (Tower.dist t1)
      = Tower.equivalent_reflected_distance (Tower.dist t2) /\
      Tower.equivalent_height (Tower.dist t1)
      = Tower.equivalent_height (Tower.dist t2) /\
      Tower.resistance t1 = Tower.resistance t2 /\
      Tower.inductance t1 = Tower.inductance t2 /\
      Tower.capacitance t1 = Tower.capacitance t2
  | Raise e1, Raise e2 => e1 = e2
  | _, _ => False
  end.

(** A conductor without a radius, which construction accepts when both
    numbers are supplied. *)
Definition no_radius : Conductor.t :=
  {| Conductor.radius := None;
     Conductor.material := None;
     Conductor.resistance_per_km := Some (23 / 1000);
     Conductor.gmr := Some (12253 / 1000000);
     Conductor.area := None;
     Conductor.permeability := None;
     Conductor.resistivity := None |}.

(** The configurations for which an equivalent spacing is computed: two
    conductors in any layout, three or four in a circular or flat one. *)
Definition supported (self : ConductorBundle.fields) : Prop :=
  ConductorBundle.n self = 2%Z \/
  ((ConductorBundle.n self = 3%Z \/ ConductorBundle.n self = 4%Z) /\
   (ConductorBundle.layout self = "circular"%string \/
    ConductorBundle.layout self = "flat"%string)).

(** The five formulas as real numbers, for a positive conductor distance [d]
    and a positive spacing [s]. *)
Definition spacing_formula (n : Z) (layout : string) (d s : R) : R :=
  if (n =? 2)%Z then Rpower (d * s) (1 / 2)
  else if String.eqb layout "circular" then
    if (n =? 3)%Z then Rpower (d * s ^ 2) (1 / 3)
    else Rpower (d * s ^ 3 * Rpower 2 (1 / 2)) (1 / 4)
  else
    if (n =? 3)%Z then Rpower (d * 2 * s ^ 2) (1 / 3)
    else Rpower (d * 12 * s ^ 3) (1 / 8).

(** * Facts about the arithmetic *)

Section Arithmetic.

Lemma bind_Ok {A B : Type} (m : result A) (k : A -> result B) (w : B) :
  bind m k = Ok w -> exists v, m = Ok v /\ k v = Ok w.
Proof.
  destruct m as [v|e]; simpl; intros H; [exists v; auto | discriminate].
Qed.

Lemma float_div_Ok (x y q : R) :
  float_div x y = Ok q -> y <> 0 /\ q = x / y.
Proof.
  unfold float_div. destruct (Req_EM_T y 0); intros H; inversion H; auto.
Qed.

Lemma float_div_nonzero (x y : R) :
  y <> 0 -> float_div x y = Ok (x / y).
Proof.
  intros Hy. unfold float_div. destruct (Req_EM_T y 0); [contradiction | reflexivity].
Qed.

Lemma float_div_zero (x : R) : float_div x 0 = Raise ZeroDivisionError.
Proof.
  unfold float_div. destruct (Req_EM_T 0 0); [reflexivity | contradiction].
Qed.

(** A float strictly between 0 and 1 holds no integral value. *)
Lemma fraction_not_integral (y : R) :
  0 < y < 1 -> IZR (Int_part y) <> y.
Proof.
  intros [H0 H1] E. rewrite <- E in H0, H1.
  apply lt_IZR in H0. apply lt_IZR in H1. lia.
Qed.

(** [x ** y] for a fractional exponent, by the sign of the base. *)
Lemma float_pow_fraction (x y : R) :
  0 < y < 1 ->
  float_pow x y =
    Ok (if Rlt_dec 0 x then PyFloat (Rpower x y)
        else if Req_EM_T x 0 then PyFloat 0
        else PyComplex (Rpower (- x) y * cos (PI * y))
                       (Rpower (- x) y * sin (PI * y))).
Proof.
  intros Hy. unfold float_pow.
  destruct (Req_EM_T y 0) as [E|_]; [lra|].
  destruct (Rlt_dec 0 x); [reflexivity|].
  destruct (Req_EM_T x 0).
  - destruct (Rlt_dec y 0); [lra | reflexivity].
  - unfold is_integral. destruct (Req_EM_T (IZR (Int_part y)) y) as [E|_].
    + exfalso. exact (fraction_not_integral y Hy E).
    + reflexivity.
Qed.

Lemma float_pow_positive (x y : R) :
  0 < x -> 0 < y < 1 -> float_pow x y = Ok (PyFloat (Rpower x y)).
Proof.
  intros Hx Hy. rewrite float_pow_fraction by exact Hy.
  destruct (Rlt_dec 0 x); [reflexivity | contradiction].
Qed.

Lemma math_log_Ok (z : pynum) (l : R) :
  math_log z = Ok l -> exists x, z = PyFloat x /\ 0 < x /\ l = ln x.
Proof.
  destruct z as [x|re im]; simpl; [|discriminate].
  destruct (Rlt_dec 0 x); intros H; inversion H. exists x. auto.
Qed.

Lemma math_log_positive (x : R) : 0 < x -> math_log (PyFloat x) = Ok (ln x).
Proof.
  intros Hx. simpl. destruct (Rlt_dec 0 x); [reflexivity | contradiction].
Qed.

(** A quotient that [math.log] accepts is a quotient of two floats. *)
Lemma py_div_float (z w : pynum) (q : R) :
  py_div z w = Ok (PyFloat q) ->
  exists x y, z = PyFloat x /\ w = PyFloat y /\ y <> 0 /\ q = x / y.
Proof.
  destruct z as [x|a b], w as [y|c d]; simpl.
  - unfold float_div. destruct (Req_EM_T y 0); simpl; intros H; inversion H.
    exists x, y. auto.
  - destruct (Req_EM_T _ 0); discriminate.
  - destruct (Req_EM_T y 0); discriminate.
  - destruct (Req_EM_T _ 0); discriminate.
Qed.

Lemma py_div_floats (x y : R) :
  y <> 0 -> py_div (PyFloat x) (PyFloat y) = Ok (PyFloat (x / y)).
Proof.
  intros Hy. simpl. rewrite float_div_nonzero by exact Hy. reflexivity.
Qed.

Lemma math_sqrt_sum_squares (u v : R) :
  math_sqrt (u ^ 2 + v ^ 2) = Ok (sqrt (u ^ 2 + v ^ 2)).
Proof.
  unfold math_sqrt. destruct (Rlt_dec (u ^ 2 + v ^ 2) 0) as [H|_]; [|reflexivity].
  exfalso. pose proof (pow2_ge_0 u). pose proof (pow2_ge_0 v). lra.
Qed.

Lemma prod3 (x y z : R) : prod [x; y; z] = x * y * z.
Proof. unfold prod. simpl. ring. Qed.


Lemma Rpower_half_sq (x : R) : 0 < x -> Rpower x (1 / 2) * Rpower x (1 / 2) = x.
Proof.
  intros Hx. rewrite <- Rpower_plus.
  replace (1 / 2 + 1 / 2) with 1 by lra. apply Rpower_1. exact Hx.
Qed.

Lemma Rpower_third_cubed (x : R) : 0 < x -> Rpower x (1 / 3) ^ 3 = x.
Proof.
  intros Hx. simpl. rewrite Rmult_1_r. rewrite <- !Rpower_plus.
  replace (1 / 3 + (1 / 3 + 1 / 3)) with 1 by lra. apply Rpower_1. exact Hx.
Qed.

End Arithmetic.

(** * Conductor *)

Lemma example_permeability_aluminum :
  getitem (const.relative_permeability example_const) (Some "aluminum"%string) = Some 1.
Proof. simpl. apply lookup_singleton_eq. Qed.

Lemma example_resistivity_aluminum :
  getitem (const.resistivity example_const) (Some "aluminum"%string)
  = Some (265 / 10 ^ 10).
Proof. simpl. apply lookup_singleton_eq. Qed.

Lemma example_permeability_ACSR :
  getitem (const.relative_permeability example_const) (Some "ACSR"%string) = None.
Proof. simpl. apply lookup_singleton_ne. discriminate. Qed.

Section ConductorFacts.
Variable K : const.t.

(** With a radius and a material of known permeability, the GMR block
    stores the estimate and hands over to the resistance block. *)
Lemma new_estimates_gmr (r p : R) (mat : option string) (res ar : option R) :
  getitem (const.relative_permeability K) mat = Some p ->
  Conductor.new K (Some r) mat res None ar =
  Conductor.estimate_resistance K
    {| Conductor.radius := Some r;
       Conductor.material := mat;
       Conductor.resistance_per_km := res;
       Conductor.gmr := Some (r * exp (p / 4));
       Conductor.area := ar;
       Conductor.permeability := Some p;
       Conductor.resistivity := None |}.
Proof.
  intros Hp. destruct mat as [m|]; [|discriminate].
  unfold Conductor.new, Conductor.__post_init__, Conductor.estimate_gmr.
  cbn [Conductor.gmr Conductor.material Conductor.radius
       Conductor.resistance_per_km is_None andb orb].
  rewrite Bool.andb_false_r. rewrite Hp. reflexivity.
Qed.

Lemma new_unknown_permeability (rad : option R) (mat : option string)
    (res ar : option R) :
  getitem (const.relative_permeability K) mat = None ->
  Conductor.new K rad mat res None ar = Raise ValueError.
Proof.
  intros Hp.
  unfold Conductor.new, Conductor.__post_init__, Conductor.estimate_gmr.
  destruct mat as [m|], rad as [r|], res as [x|]; simpl in *;
    try reflexivity; rewrite Hp; reflexivity.
Qed.

Lemma new_unknown_resistivity (rad : option R) (mat : option string)
    (g ar : option R) :
  getitem (const.resistivity K) mat = None ->
  Conductor.new K rad mat None g ar = Raise ValueError.
Proof.
  intros Hp.
  unfold Conductor.new, Conductor.__post_init__, Conductor.estimate_gmr,
    Conductor.estimate_resistance.
  destruct mat as [m|], rad as [r|], g as [x|]; simpl in *; try reflexivity.
  - rewrite Hp. reflexivity.
  - destruct (const.relative_permeability K !! m); simpl; [|reflexivity].
    rewrite Hp. reflexivity.
Qed.

Lemma new_without_radius (mat : option string) (res g ar : option R) :
  res = None \/ g = None ->
  Conductor.new K None mat res g ar = Raise ValueError.
Proof.
  unfold Conductor.new, Conductor.__post_init__.
  destruct mat, res, g; simpl; intros [H|H]; try discriminate; reflexivity.
Qed.

(** What a successful construction leaves in the object. *)
Lemma new_Ok (rad : option R) (mat : option string) (res g ar : option R)
    (c : Conductor.t) :
  Conductor.new K rad mat res g ar = Ok c ->
  exists gv rv,
    Conductor.gmr c = Some gv /\ Conductor.resistance_per_km c = Some rv /\
    gmr_resolves K rad mat g gv /\ resistance_resolves K rad mat res ar rv /\
    Conductor.radius c = rad /\ Conductor.material c = mat /\
    (res <> None -> Conductor.area c = ar) /\
    (res = None -> Conductor.area c = area_used rad ar).
Proof.
  unfold Conductor.new, Conductor.__post_init__, Conductor.estimate_gmr,
    Conductor.estimate_resistance, gmr_resolves, resistance_resolves.
  destruct g as [gv|], res as [rv|], mat as [m|], rad as [r|];
    cbn [Conductor.gmr Conductor.material Conductor.radius Conductor.area
         Conductor.resistance_per_km is_None andb orb bind operand getitem];
    try discriminate.
  all: try (intros H; inversion H; subst; clear H; simpl;
            exists gv, rv; repeat split; auto; congruence).
  - (* gmr supplied, resistance estimated *)
    destruct (const.resistivity K !! m) as [rho|] eqn:Hrho; [|discriminate].
    destruct ar as [a|]; cbn [bind]; intros H; apply bind_Ok in H;
      destruct H as (q & Hq & H); apply float_div_Ok in Hq; destruct Hq as [Ha ->];
      inversion H; subst; clear H; simpl;
      eexists _, _; repeat split; eauto; try congruence;
      right; split; auto; eexists _, _; repeat split; eauto.
  - (* gmr estimated, resistance supplied *)
    destruct (const.relative_permeability K !! m) as [p|] eqn:Hp; [|discriminate].
    cbn [bind Conductor.resistance_per_km].
    intros H; inversion H; subst; clear H; simpl.
    eexists _, _; repeat split; eauto; try congruence.
    right; split; auto. eexists _, _; repeat split; eauto.
  - (* both estimated *)
    destruct (const.relative_permeability K !! m) as [p|] eqn:Hp; [|discriminate].
    cbn [bind Conductor.resistance_per_km Conductor.material Conductor.area
         Conductor.radius getitem].
    destruct (const.resistivity K !! m) as [rho|] eqn:Hrho; [|discriminate].
    destruct ar as [a|]; cbn [bind operand]; intros H; apply bind_Ok in H;
      destruct H as (q & Hq & H); apply float_div_Ok in Hq; destruct Hq as [Ha ->];
      inversion H; subst; clear H; simpl;
      eexists _, _; repeat split; eauto; try congruence;
      right; split; auto; eexists _, _; repeat split; eauto.
Qed.

End ConductorFacts.

Section ConductorResistance.
Variable K : const.t.

(** With a radius and a material, a supplied GMR passes both guards. *)
Lemma new_keeps_gmr (r g : R) (m : string) (res ar : option R) :
  Conductor.new K (Some r) (Some m) res (Some g) ar =
  Conductor.estimate_resistance K
    {| Conductor.radius := Some r;
       Conductor.material := Some m;
       Conductor.resistance_per_km := res;
       Conductor.gmr := Some g;
       Conductor.area := ar;
       Conductor.permeability := None;
       Conductor.resistivity := None |}.
Proof.
  unfold Conductor.new, Conductor.__post_init__, Conductor.estimate_gmr.
  destruct res; reflexivity.
Qed.

Lemma estimate_resistance_Ok (self : Conductor.t) (rho a : R) :
  Conductor.resistance_per_km self = None ->
  getitem (const.resistivity K) (Conductor.material self) = Some rho ->
  area_used (Conductor.radius self) (Conductor.area self) = Some a ->
  a <> 0 ->
  Conductor.estimate_resistance K self =
  Ok {| Conductor.radius := Conductor.radius self;
        Conductor.material := Conductor.material self;
        Conductor.resistance_per_km := Some (rho * 1000 / a);
        Conductor.gmr := Conductor.gmr self;
        Conductor.area := Some a;
        Conductor.permeability := Conductor.permeability self;
        Conductor.resistivity := Some rho |}.
Proof.
  intros Hres Hrho Ha Hne. unfold Conductor.estimate_resistance.
  rewrite Hres, Hrho. unfold area_used in Ha.
  destruct (Conductor.area self) as [a'|].
  - inversion Ha; subst. cbn [bind]. rewrite float_div_nonzero by exact Hne.
    reflexivity.
  - destruct (Conductor.radius self) as [r|]; [|discriminate].
    inversion Ha; subst. cbn [bind operand].
    rewrite float_div_nonzero by exact Hne. reflexivity.
Qed.

(** A zero area stops the estimate at the division. *)
Lemma estimate_resistance_zero_area (self : Conductor.t) (rho : R) :
  Conductor.resistance_per_km self = None ->
  getitem (const.resistivity K) (Conductor.material self) = Some rho ->
  area_used (Conductor.radius self) (Conductor.area self) = Some 0 ->
  Conductor.estimate_resistance K self = Raise ZeroDivisionError.
Proof.
  intros Hres Hrho Ha. unfold Conductor.estimate_resistance.
  rewrite Hres, Hrho. unfold area_used in Ha.
  destruct (Conductor.area self) as [a'|].
  - inversion Ha; subst. cbn [bind]. rewrite float_div_zero. reflexivity.
  - destruct (Conductor.radius self) as [r|]; [|discriminate].
    injection Ha as E. change (PI * r ^ 2 = 0) in E.
    cbn [bind operand]. rewrite E, float_div_zero. reflexivity.
Qed.

End ConductorResistance.

(** ** The claims on Conductor *)

(** C9.  With both [gmr] and [resistance_per_km] supplied, construction
    succeeds whatever the radius, material and area are; the object holds
    the five arguments as given, neither lookup attribute is set, and the
    outcome is the same under every pair of tables. *)
Theorem C9_supplied_values_kept :
  forall (K : const.t) (rad : option R) (mat : option string) (res g : R)
         (ar : option R),
    Conductor.new K rad mat (Some res) (Some g) ar =
    Ok {| Conductor.radius := rad;
          Conductor.material := mat;
          Conductor.resistance_per_km := Some res;
          Conductor.gmr := Some g;
          Conductor.area := ar;
          Conductor.permeability := None;
          Conductor.resistivity := None |}
    /\ forall K' : const.t,
         Conductor.new K' rad mat (Some res) (Some g) ar =
         Conductor.new K rad mat (Some res) (Some g) ar.
Proof.
  intros. split; [|intros K']; reflexivity.
Qed.

(** C8.  After a successful construction [gmr] and [resistance_per_km] hold
    floats, each the supplied value or the estimate; and construction raises
    ValueError whenever [gmr] is missing and cannot be estimated (no radius,
    no material, or a material of unknown permeability), and likewise for
    the resistance. *)
Theorem C8_resolved_or_rejected :
  forall (K : const.t) (rad : option R) (mat : option string)
         (res g ar : option R),
    (forall c : Conductor.t,
        Conductor.new K rad mat res g ar = Ok c ->
        exists gv rv : R,
          Conductor.gmr c = Some gv /\ Conductor.resistance_per_km c = Some rv /\
          gmr_resolves K rad mat g gv /\ resistance_resolves K rad mat res ar rv)
    /\ (g = None ->
        rad = None \/ getitem (const.relative_permeability K) mat = None ->
        Conductor.new K rad mat res g ar = Raise ValueError)
    /\ (res = None ->
        rad = None \/ getitem (const.resistivity K) mat = None ->
        Conductor.new K rad mat res g ar = Raise ValueError).
Proof.
  intros K rad mat res g ar. split; [|split].
  - intros c Hc. destruct (new_Ok K _ _ _ _ _ _ Hc) as (gv & rv & H1 & H2 & H3 & H4 & _).
    exists gv, rv. auto.
  - intros -> [-> | Hp].
    + apply new_without_radius. auto.
    + apply new_unknown_permeability. exact Hp.
  - intros -> [-> | Hp].
    + apply new_without_radius. auto.
    + apply new_unknown_resistivity. exact Hp.
Qed.

Lemma new_aluminum_conductor :
  Conductor.new example_const (Some (1 / 100)) (Some "aluminum"%string)
    None None None = Ok aluminum_conductor.
Proof.
  rewrite (new_estimates_gmr example_const (1 / 100) 1)
    by exact example_permeability_aluminum.
  rewrite (estimate_resistance_Ok example_const _ (265 / 10 ^ 10) (PI * (1 / 100) ^ 2)).
  - reflexivity.
  - reflexivity.
  - exact example_resistivity_aluminum.
  - reflexivity.
  - pose proof PI_RGT_0. nra.
Qed.

Lemma C8_resolved_or_rejected_witness :
  (exists c : Conductor.t,
      Conductor.new example_const (Some (1 / 100)) (Some "aluminum"%string)
        None None None = Ok c /\
      exists gv rv : R,
        Conductor.gmr c = Some gv /\ Conductor.resistance_per_km c = Some rv /\
        gmr_resolves example_const (Some (1 / 100)) (Some "aluminum"%string) None gv /\
        resistance_resolves example_const (Some (1 / 100))
          (Some "aluminum"%string) None None rv)
  /\ Conductor.new example_const (Some (1 / 100)) (Some "ACSR"%string)
       None None None = Raise ValueError.
Proof.
  destruct (C8_resolved_or_rejected example_const (Some (1 / 100))
              (Some "aluminum"%string) None None None) as (Hok & _ & _).
  destruct (C8_resolved_or_rejected example_const (Some (1 / 100))
              (Some "ACSR"%string) None None None) as (_ & Hgmr & _).
  split.
  - exists aluminum_conductor. split.
    + exact new_aluminum_conductor.
    + apply Hok. exact new_aluminum_conductor.
  - apply Hgmr.
    + reflexivity.
    + right. exact example_permeability_ACSR.
Defined.

(** [Conductor(radius=0.0, material="aluminum")]: the permeability is
    known, and the resistance estimate divides by the area [pi * 0 ** 2]. *)
Lemma new_zero_radius :
  Conductor.new example_const (Some 0) (Some "aluminum"%string) None None None
  = Raise ZeroDivisionError.
Proof.
  rewrite (new_estimates_gmr example_const 0 1) by exact example_permeability_aluminum.
  apply (estimate_resistance_zero_area example_const _ (265 / 10 ^ 10)).
  - reflexivity.
  - exact example_resistivity_aluminum.
  - simpl. f_equal. ring.
Qed.

(** [Conductor(radius=None, material="aluminum", resistance_per_km=0.023)]
    is stopped by the first guard: the estimate needs a radius. *)
Lemma new_gmr_without_radius :
  Conductor.new example_const None (Some "aluminum"%string) (Some (23 / 1000))
    None None = Raise ValueError.
Proof. reflexivity. Qed.

Lemma C3_counterexample :
  Conductor.new example_const (Some 0) (Some "aluminum"%string) None None None
  = Raise ZeroDivisionError
  /\ Conductor.new example_const None (Some "aluminum"%string) (Some (23 / 1000))
       None None = Raise ValueError
  /\ ~ C3_as_stated.
Proof.
  split; [exact new_zero_radius|]. split; [exact new_gmr_without_radius|].
  intros H.
  destruct (H example_const (Some 0) (Some "aluminum"%string) None None) as [Hok _].
  destruct (Hok 1 example_permeability_aluminum) as (c & r & Hc & _).
  rewrite new_zero_radius in Hc. discriminate.
Qed.

(** C3, amended.  Without a supplied [gmr]: when the material has a known
    permeability and a radius is given, every successful construction has
    [gmr = radius * exp(permeability / 4)] and has stored the permeability,
    and construction does succeed, with that GMR, as soon as the resistance
    resolves (it is supplied, or the material has a known resistivity and the
    area used is not zero); when the table lacks the material, construction
    raises ValueError. *)
Theorem C3_gmr_estimate :
  forall (K : const.t) (rad : option R) (mat : option string) (res ar : option R),
    (forall p r : R,
        getitem (const.relative_permeability K) mat = Some p ->
        rad = Some r ->
        (forall c : Conductor.t,
            Conductor.new K rad mat res None ar = Ok c ->
            Conductor.gmr c = Some (r * exp (p / 4)) /\
            Conductor.permeability c = Some p)
        /\ (forall x : R,
               resistance_resolves K rad mat res ar x ->
               exists c : Conductor.t,
                 Conductor.new K rad mat res None ar = Ok c /\
                 Conductor.gmr c = Some (r * exp (p / 4)) /\
                 Conductor.resistance_per_km c = Some x))
    /\ (getitem (const.relative_permeability K) mat = None ->
        Conductor.new K rad mat res None ar = Raise ValueError).
Proof.
  intros K rad mat res ar. split.
  - intros p r Hp ->. rewrite (new_estimates_gmr K r p) by exact Hp. split.
    + intros c. unfold Conductor.estimate_resistance.
      cbn [Conductor.resistance_per_km Conductor.material Conductor.area
           Conductor.radius Conductor.gmr Conductor.permeability Conductor.resistivity].
      destruct res as [x|].
      * intros H; inversion H; subst; simpl; auto.
      * destruct (getitem (const.resistivity K) mat); [|discriminate].
        intros H. apply bind_Ok in H. destruct H as (a & _ & H).
        apply bind_Ok in H. destruct H as (q & _ & H).
        inversion H; subst; simpl; auto.
    + intros x [-> | (-> & rho & a & Hrho & Ha & Hne & ->)].
      * eexists. split; [reflexivity|]. simpl. auto.
      * rewrite (estimate_resistance_Ok K _ rho a); auto.
        eexists. split; [reflexivity|]. simpl. auto.
  - apply new_unknown_permeability.
Qed.

Lemma C3_gmr_estimate_witness :
  exists c : Conductor.t,
    Conductor.new example_const (Some (1 / 100)) (Some "aluminum"%string)
      None None None = Ok c /\
    Conductor.gmr c = Some (1 / 100 * exp (1 / 4)) /\
    Conductor.permeability c = Some 1.
Proof.
  destruct (C3_gmr_estimate example_const (Some (1 / 100))
              (Some "aluminum"%string) None None) as [Hknown _].
  destruct (Hknown 1 (1 / 100) example_permeability_aluminum eq_refl) as [Hgmr _].
  exists aluminum_conductor. split.
  - exact new_aluminum_conductor.
  - apply Hgmr. exact new_aluminum_conductor.
Defined.

(** [Conductor(radius=None, material="aluminum", gmr=0.01, area=0.001)]
    is stopped by the second guard, which asks for a radius even though the
    area is given. *)
Lemma new_area_without_radius :
  Conductor.new example_const None (Some "aluminum"%string) None
    (Some (1 / 100)) (Some (1 / 1000)) = Raise ValueError.
Proof. reflexivity. Qed.

(** [Conductor(radius=0.01, material="aluminum", gmr=0.01, area=0.0)]:
    the estimate divides by the area. *)
Lemma new_zero_area :
  Conductor.new example_const (Some (1 / 100)) (Some "aluminum"%string) None
    (Some (1 / 100)) (Some 0) = Raise ZeroDivisionError.
Proof.
  rewrite new_keeps_gmr.
  apply (estimate_resistance_zero_area example_const _ (265 / 10 ^ 10)).
  - reflexivity.
  - exact example_resistivity_aluminum.
  - reflexivity.
Qed.

Lemma C4_counterexample :
  Conductor.new example_const None (Some "aluminum"%string) None
    (Some (1 / 100)) (Some (1 / 1000)) = Raise ValueError
  /\ Conductor.new example_const (Some (1 / 100)) (Some "aluminum"%string) None
       (Some (1 / 100)) (Some 0) = Raise ZeroDivisionError
  /\ ~ C4_as_stated.
Proof.
  split; [exact new_area_without_radius|]. split; [exact new_zero_area|].
  intros H.
  destruct (H example_const None (Some "aluminum"%string)
              (Some (1 / 100)) (Some (1 / 1000))) as [Hok _].
  destruct (Hok _ example_resistivity_aluminum) as (c & a & Hc & _).
  rewrite new_area_without_radius in Hc. discriminate.
Qed.

(** C4, amended.  Without a supplied [resistance_per_km]: when the material
    has a known resistivity, a radius is given, the GMR resolves and the area
    used (the one supplied, else [pi * radius ** 2]) is not zero,
    construction succeeds, stores that area and
    [resistance_per_km = resistivity * 1000 / area]; every successful
    construction has this shape; and when the table lacks the material,
    construction raises ValueError. *)
Theorem C4_resistance_estimate :
  forall (K : const.t) (rad : option R) (mat : option string) (g ar : option R),
    (forall rho r a gv : R,
        getitem (const.resistivity K) mat = Some rho ->
        rad = Some r ->
        area_used rad ar = Some a ->
        a <> 0 ->
        gmr_resolves K rad mat g gv ->
        exists c : Conductor.t,
          Conductor.new K rad mat None g ar = Ok c /\
          Conductor.area c = Some a /\
          Conductor.resistance_per_km c = Some (rho * 1000 / a) /\
          Conductor.resistivity c = Some rho /\
          Conductor.gmr c = Some gv)
    /\ (forall c : Conductor.t,
           Conductor.new K rad mat None g ar = Ok c ->
           exists rho a : R,
             getitem (const.resistivity K) mat = Some rho /\
             area_used rad ar = Some a /\
             Conductor.area c = Some a /\
             Conductor.resistance_per_km c = Some (rho * 1000 / a))
    /\ (getitem (const.resistivity K) mat = None ->
        Conductor.new K rad mat None g ar = Raise ValueError).
Proof.
  intros K rad mat g ar. split; [|split].
  - intros rho r a gv Hrho -> Ha Hne Hg.
    destruct mat as [m|]; [|discriminate].
    destruct Hg as [-> | (-> & p & r' & Hp & Hr & ->)].
    + rewrite new_keeps_gmr. rewrite (estimate_resistance_Ok K _ rho a); auto.
      eexists. split; [reflexivity|]. simpl. auto.
    + inversion Hr; subst r'. rewrite (new_estimates_gmr K r p) by exact Hp.
      rewrite (estimate_resistance_Ok K _ rho a); auto.
      eexists. split; [reflexivity|]. simpl. auto.
  - intros c Hc.
    destruct (new_Ok K _ _ _ _ _ _ Hc)
      as (gv & rv & _ & Hrv & _ & Hres & _ & _ & _ & Harea).
    destruct Hres as [E | (_ & rho & a & Hrho & Ha & Hne & ->)]; [discriminate|].
    exists rho, a. repeat split; auto. rewrite Harea by reflexivity. exact Ha.
  - apply new_unknown_resistivity.
Qed.

Lemma C4_resistance_estimate_witness :
  exists c : Conductor.t,
    Conductor.new example_const (Some (1 / 100)) (Some "aluminum"%string)
      None None None = Ok c /\
    Conductor.area c = Some (PI * (1 / 100) ^ 2) /\
    Conductor.resistance_per_km c
    = Some (265 / 10 ^ 10 * 1000 / (PI * (1 / 100) ^ 2)) /\
    Conductor.resistivity c = Some (265 / 10 ^ 10) /\
    Conductor.gmr c = Some (1 / 100 * exp (1 / 4)).
Proof.
  destruct (C4_resistance_estimate example_const (Some (1 / 100))
              (Some "aluminum"%string) None None) as [Hknown _].
  apply (Hknown (265 / 10 ^ 10) (1 / 100) (PI * (1 / 100) ^ 2)
           (1 / 100 * exp (1 / 4))).
  - exact example_resistivity_aluminum.
  - reflexivity.
  - reflexivity.
  - pose proof PI_RGT_0. nra.
  - right. split; [reflexivity|]. exists 1, (1 / 100).
    split; [exact example_permeability_aluminum|]. split; reflexivity.
Defined.

(** * ConductorBundle *)

Lemma half_is_inv2 : 1 / 2 = / 2.
Proof. lra. Qed.

Lemma float_pow_half (x : R) : float_pow x (1 / 2) = Ok (principal_sqrt x).
Proof.
  rewrite float_pow_fraction by lra. unfold principal_sqrt. f_equal.
  destruct (Rlt_dec 0 x) as [Hpos|Hnpos].
  - destruct (Rle_dec 0 x); [|lra].
    rewrite half_is_inv2, Rpower_sqrt by exact Hpos. reflexivity.
  - destruct (Req_EM_T x 0) as [->|Hne].
    + destruct (Rle_dec 0 0); [|lra]. rewrite sqrt_0. reflexivity.
    + destruct (Rle_dec 0 x); [lra|].
      replace (PI * (1 / 2)) with (PI / 2) by lra.
      rewrite cos_PI2, sin_PI2, Rmult_0_r, Rmult_1_r.
      rewrite half_is_inv2, Rpower_sqrt by lra. reflexivity.
Qed.

Section BundleFacts.
Variable self : ConductorBundle.fields.

Lemma spacing_two (type : string) :
  ConductorBundle.n self = 2%Z ->
  type = "inductance"%string \/ type = "capacitance"%string ->
  ConductorBundle.calculate_equivalent_spacing self type =
  let* d := operand (conductor_distance self type) in
  Ok (principal_sqrt (d * ConductorBundle.spacing self)).
Proof.
  intros Hn Hty. unfold ConductorBundle.calculate_equivalent_spacing.
  rewrite Hn. unfold conductor_distance.
  destruct Hty as [-> | ->]; cbn [String.eqb Ascii.eqb Bool.eqb bind Z.eqb Pos.eqb].
  - destruct (Conductor.gmr (ConductorBundle.conductor self)) as [d|];
      cbn [bind operand]; [apply float_pow_half | reflexivity].
  - destruct (Conductor.radius (ConductorBundle.conductor self)) as [d|];
      cbn [bind operand]; [apply float_pow_half | reflexivity].
Qed.

(** With neither 2, 3 nor 4 conductors the dispatch ends in an error that
    the layout selects. *)
Lemma spacing_unsupported (type : string) :
  ConductorBundle.n self <> 2%Z ->
  ConductorBundle.n self <> 3%Z ->
  ConductorBundle.n self <> 4%Z ->
  type = "inductance"%string \/ type = "capacitance"%string ->
  ConductorBundle.calculate_equivalent_spacing self type =
  if String.eqb (ConductorBundle.layout self) "circular" then Raise NotImplementedError
  else if String.eqb (ConductorBundle.layout self) "flat" then Raise NotImplementedError
  else Raise ValueError.
Proof.
  intros H2 H3 H4 Hty.
  unfold ConductorBundle.calculate_equivalent_spacing,
    ConductorBundle.calculate_equivalent_spacing_circular,
    ConductorBundle.calculate_equivalent_spacing_flat.
  apply Z.eqb_neq in H2, H3, H4. rewrite H2, H3, H4.
  destruct Hty as [-> | ->]; reflexivity.
Qed.

End BundleFacts.

(** A bundle of two conductors is always built when the conductor has its
    three numbers. *)
Lemma bundle_of_two (self : ConductorBundle.fields) (res g r : R) :
  ConductorBundle.n self = 2%Z ->
  Conductor.resistance_per_km (ConductorBundle.conductor self) = Some res ->
  Conductor.gmr (ConductorBundle.conductor self) = Some g ->
  Conductor.radius (ConductorBundle.conductor self) = Some r ->
  ConductorBundle.__post_init__ self =
  Ok {| ConductorBundle.init := self;
        ConductorBundle.resistance_per_km := res / 2;
        ConductorBundle.spacing_L := principal_sqrt (g * ConductorBundle.spacing self);
        ConductorBundle.spacing_C := principal_sqrt (r * ConductorBundle.spacing self) |}.
Proof.
  intros Hn Hres Hg Hr. unfold ConductorBundle.__post_init__.
  rewrite !spacing_two by auto. unfold conductor_distance.
  rewrite Hres, Hn, Hg, Hr. reflexivity.
Qed.

Lemma new_cardinal :
  Conductor.new example_const (Some (1519 / 100000)) (Some "ACSR"%string)
    (Some (23 / 1000)) (Some (12253 / 1000000)) None = Ok cardinal.
Proof. reflexivity. Qed.

(** C5.  A bundle built with [n = 2] has
    [spacing_L = sqrt(conductor.gmr * spacing)] and
    [spacing_C = sqrt(conductor.radius * spacing)], the root being the one
    that [** (1 / 2)] returns; and under any other layout string the bundle
    is built as well, with the same two spacings and the same resistance. *)
Theorem C5_two_conductors_ignore_layout :
  forall (self : ConductorBundle.fields) (b : ConductorBundle.t),
    ConductorBundle.n self = 2%Z ->
    ConductorBundle.__post_init__ self = Ok b ->
    exists g r : R,
      Conductor.gmr (ConductorBundle.conductor self) = Some g /\
      Conductor.radius (ConductorBundle.conductor self) = Some r /\
      ConductorBundle.spacing_L b = principal_sqrt (g * ConductorBundle.spacing self) /\
      ConductorBundle.spacing_C b = principal_sqrt (r * ConductorBundle.spacing self) /\
      (0 <= g * ConductorBundle.spacing self ->
       ConductorBundle.spacing_L b = PyFloat (sqrt (g * ConductorBundle.spacing self))) /\
      (0 <= r * ConductorBundle.spacing self ->
       ConductorBundle.spacing_C b = PyFloat (sqrt (r * ConductorBundle.spacing self))) /\
      forall lay : string,
      exists b' : ConductorBundle.t,
        ConductorBundle.__post_init__ (with_layout self lay) = Ok b' /\
        ConductorBundle.spacing_L b' = ConductorBundle.spacing_L b /\
        ConductorBundle.spacing_C b' = ConductorBundle.spacing_C b /\
        ConductorBundle.resistance_per_km b' = ConductorBundle.resistance_per_km b.
Proof.
  intros self b Hn Hb.
  unfold ConductorBundle.__post_init__ in Hb.
  rewrite !spacing_two in Hb by auto. unfold conductor_distance in Hb.
  cbn [String.eqb Ascii.eqb Bool.eqb] in Hb.
  destruct (Conductor.resistance_per_km (ConductorBundle.conductor self))
    as [res|] eqn:Hres; [|discriminate].
  destruct (Conductor.gmr (ConductorBundle.conductor self)) as [g|] eqn:Hg.
  2:{ rewrite Hn in Hb. discriminate. }
  destruct (Conductor.radius (ConductorBundle.conductor self)) as [r|] eqn:Hr.
  2:{ rewrite Hn in Hb. discriminate. }
  rewrite Hn in Hb. inversion Hb; subst b; clear Hb.
  exists g, r. cbn [ConductorBundle.spacing_L ConductorBundle.spacing_C
                    ConductorBundle.resistance_per_km].
  repeat split.
  - intros H. unfold principal_sqrt. destruct (Rle_dec 0 _); [reflexivity | contradiction].
  - intros H. unfold principal_sqrt. destruct (Rle_dec 0 _); [reflexivity | contradiction].
  - intros lay. eexists. split.
    + apply (bundle_of_two (with_layout self lay) res g r); assumption.
    + simpl. auto.
Qed.

Lemma C5_two_conductors_ignore_layout_witness :
  exists b : ConductorBundle.t,
    ConductorBundle.__post_init__ (cardinal_pair "flat") = Ok b /\
    ConductorBundle.spacing_L b = PyFloat (sqrt (12253 / 1000000 * (4572 / 10000))) /\
    ConductorBundle.spacing_C b = PyFloat (sqrt (1519 / 100000 * (4572 / 10000))) /\
    exists b' : ConductorBundle.t,
      ConductorBundle.__post_init__ (cardinal_pair "circular") = Ok b' /\
      ConductorBundle.spacing_L b' = ConductorBundle.spacing_L b /\
      ConductorBundle.spacing_C b' = ConductorBundle.spacing_C b.
Proof.
  pose proof (bundle_of_two (cardinal_pair "flat") (23 / 1000)
                (12253 / 1000000) (1519 / 100000)
                eq_refl eq_refl eq_refl eq_refl) as Hb.
  destruct (C5_two_conductors_ignore_layout (cardinal_pair "flat") _ eq_refl Hb)
    as (g & r & Hg & Hr & _ & _ & HL & HC & Hlay).
  injection Hg as <-. injection Hr as <-.
  eexists. split; [exact Hb|]. split; [|split].
  - apply HL. simpl. lra.
  - apply HC. simpl. lra.
  - destruct (Hlay "circular"%string) as (b' & Hb' & HL' & HC' & _).
    exists b'. auto.
Defined.

Lemma five_triangular_unknown_layout :
  ConductorBundle.__post_init__ five_triangular = Raise ValueError.
Proof.
  unfold ConductorBundle.__post_init__.
  rewrite spacing_unsupported; simpl; auto; lia.
Qed.

Lemma C6_counterexample :
  ConductorBundle.__post_init__ five_triangular = Raise ValueError
  /\ ~ C6_as_stated.
Proof.
  split; [exact five_triangular_unknown_layout|].
  intros H.
  assert (E : ConductorBundle.__post_init__ five_triangular = Raise NotImplementedError).
  { apply (H five_triangular (23 / 1000)); simpl; [reflexivity | lia | lia | lia]. }
  rewrite five_triangular_unknown_layout in E. discriminate.
Qed.

(** C6, amended.  A count outside {2, 3, 4} never yields a bundle.  Over a
    conductor that has its resistance and for a count other than 0, the
    error is NotImplementedError when the layout is "circular" or "flat",
    and the ValueError of an unknown layout for every other string. *)
Theorem C6_unsupported_count :
  forall self : ConductorBundle.fields,
    ConductorBundle.n self <> 2%Z ->
    ConductorBundle.n self <> 3%Z ->
    ConductorBundle.n self <> 4%Z ->
    (forall b : ConductorBundle.t, ConductorBundle.__post_init__ self <> Ok b)
    /\ (forall res : R,
           Conductor.resistance_per_km (ConductorBundle.conductor self) = Some res ->
           ConductorBundle.n self <> 0%Z ->
           (ConductorBundle.layout self = "circular"%string \/
            ConductorBundle.layout self = "flat"%string ->
            ConductorBundle.__post_init__ self = Raise NotImplementedError)
           /\ (ConductorBundle.layout self <> "circular"%string ->
               ConductorBundle.layout self <> "flat"%string ->
               ConductorBundle.__post_init__ self = Raise ValueError)).
Proof.
  intros self H2 H3 H4.
  assert (Hsp := spacing_unsupported self "inductance" H2 H3 H4 (or_introl eq_refl)).
  split.
  - intros b Hb. unfold ConductorBundle.__post_init__ in Hb.
    apply bind_Ok in Hb. destruct Hb as (r & _ & Hb).
    apply bind_Ok in Hb. destruct Hb as (q & _ & Hb).
    apply bind_Ok in Hb. destruct Hb as (sl & Hsl & _).
    rewrite Hsp in Hsl.
    destruct (String.eqb _ "circular"); [discriminate|].
    destruct (String.eqb _ "flat"); discriminate.
  - intros res Hres H0. unfold ConductorBundle.__post_init__.
    rewrite Hres. cbn [bind operand]. unfold float_div_int.
    apply Z.eqb_neq in H0. rewrite H0. cbn [bind]. rewrite Hsp. split.
    + intros [E | E]; rewrite E; reflexivity.
    + intros Hc Hf. apply String.eqb_neq in Hc, Hf. rewrite Hc, Hf. reflexivity.
Qed.

Lemma C6_unsupported_count_witness :
  (forall b : ConductorBundle.t, ConductorBundle.__post_init__ five_triangular <> Ok b)
  /\ ConductorBundle.__post_init__ (with_layout five_triangular "flat")
     = Raise NotImplementedError
  /\ ConductorBundle.__post_init__ five_triangular = Raise ValueError.
Proof.
  assert (H2 : 5%Z <> 2%Z) by lia.
  assert (H3 : 5%Z <> 3%Z) by lia.
  assert (H4 : 5%Z <> 4%Z) by lia.
  assert (H0 : 5%Z <> 0%Z) by lia.
  destruct (C6_unsupported_count five_triangular H2 H3 H4) as [Hnone Herr].
  destruct (C6_unsupported_count (with_layout five_triangular "flat") H2 H3 H4)
    as [_ Hflat].
  split; [exact Hnone|]. split.
  - apply (Hflat (23 / 1000) eq_refl H0). right. reflexivity.
  - apply (Herr (23 / 1000) eq_refl H0); discriminate.
Defined.

(** ** Circular against flat *)

Section Layouts.



Variable self : ConductorBundle.fields.

(** The dispatch of [calculate_equivalent_spacing] for a count other than 2. *)
Lemma spacing_by_layout (type : string) :
  ConductorBundle.n self <> 2%Z ->
  type = "inductance"%string \/ type = "capacitance"%string ->
  ConductorBundle.calculate_equivalent_spacing (with_layout self "circular") type
  = ConductorBundle.calculate_equivalent_spacing_circular self
      (conductor_distance self type)
  /\ ConductorBundle.calculate_equivalent_spacing (with_layout self "flat") type
     = ConductorBundle.calculate_equivalent_spacing_flat self
         (conductor_distance self type).
Proof.
  intros Hn Hty. apply Z.eqb_neq in Hn.
  unfold ConductorBundle.calculate_equivalent_spacing, conductor_distance.
  cbn [with_layout ConductorBundle.n ConductorBundle.layout
       ConductorBundle.conductor].
  rewrite Hn. destruct Hty as [-> | ->]; split; reflexivity.
Qed.

Variable d : R.
Hypothesis d_pos : 0 < d.
Hypothesis spacing_pos : 0 < ConductorBundle.spacing self.

Lemma circular_three :
  ConductorBundle.n self = 3%Z ->
  ConductorBundle.calculate_equivalent_spacing_circular self (Some d)
  = Ok (PyFloat (Rpower (d * ConductorBundle.spacing self ^ 2) (1 / 3))).
Proof.
  intros Hn. unfold ConductorBundle.calculate_equivalent_spacing_circular.
  rewrite Hn. cbn [Z.eqb Pos.eqb bind operand].
  change (Z.to_nat (3 - 1)) with 2%nat.
  apply float_pow_positive; [|lra].
  apply Rmult_lt_0_compat; [exact d_pos | apply pow_lt; exact spacing_pos].
Qed.

Lemma flat_three :
  ConductorBundle.n self = 3%Z ->
  ConductorBundle.calculate_equivalent_spacing_flat self (Some d)
  = Ok (PyFloat (Rpower (d * 2 * ConductorBundle.spacing self ^ 2) (1 / 3))).
Proof.
  intros Hn. unfold ConductorBundle.calculate_equivalent_spacing_flat.
  rewrite Hn. cbn [Z.eqb Pos.eqb bind operand].
  apply float_pow_positive; [|lra].
  apply Rmult_lt_0_compat; [lra | apply pow_lt; exact spacing_pos].
Qed.

Lemma circular_four :
  ConductorBundle.n self = 4%Z ->
  ConductorBundle.calculate_equivalent_spacing_circular self (Some d)
  = Ok (PyFloat (Rpower (d * ConductorBundle.spacing self ^ 3 * Rpower 2 (1 / 2))
                        (1 / 4))).
Proof.
  intros Hn. unfold ConductorBundle.calculate_equivalent_spacing_circular.
  rewrite Hn. cbn [Z.eqb Pos.eqb bind operand].
  apply float_pow_positive; [|lra].
  apply Rmult_lt_0_compat; [|unfold Rpower; apply exp_pos].
  apply Rmult_lt_0_compat; [exact d_pos | apply pow_lt; exact spacing_pos].
Qed.

Lemma flat_four :
  ConductorBundle.n self = 4%Z ->
  ConductorBundle.calculate_equivalent_spacing_flat self (Some d)
  = Ok (PyFloat (Rpower (d * 12 * ConductorBundle.spacing self ^ 3) (1 / 8))).
Proof.
  intros Hn. unfold ConductorBundle.calculate_equivalent_spacing_flat.
  rewrite Hn. cbn [Z.eqb Pos.eqb bind operand].
  apply float_pow_positive; [|lra].
  apply Rmult_lt_0_compat; [lra | apply pow_lt; exact spacing_pos].
Qed.



End Layouts.






(** * Tower *)

Lemma geometric_mean_cubed (x y z : R) :
  0 < x * y * z -> geometric_mean x y z ^ 3 = x * y * z.
Proof. apply Rpower_third_cubed. Qed.

Lemma float_pow_third (x : R) : float_pow x (1 / 3) = Ok (pow_third x).
Proof. apply float_pow_fraction. lra. Qed.

Lemma pow_third_positive (x : R) : 0 < x -> pow_third x = PyFloat (Rpower x (1 / 3)).
Proof.
  intros Hx. unfold pow_third. destruct (Rlt_dec 0 x); [reflexivity | contradiction].
Qed.

(** A cube root that is a positive float comes from a positive base. *)
Lemma pow_third_float_positive (x v : R) :
  pow_third x = PyFloat v -> 0 < v -> 0 < x /\ v = Rpower x (1 / 3).
Proof.
  unfold pow_third. destruct (Rlt_dec 0 x).
  - intros H _. inversion H. auto.
  - destruct (Req_EM_T x 0); intros H Hv; inversion H. lra.
Qed.

Lemma distance_nonneg (p q : R * R) : 0 <= distance p q.
Proof. apply sqrt_pos. Qed.

Lemma reflected_nonneg (p q : R * R) : 0 <= reflected p q.
Proof. apply sqrt_pos. Qed.

(** [calculate_distances] raises nothing. *)
Lemma calculate_distances_total (a b c : R * R) :
  Tower.calculate_distances a b c =
  Ok {| Tower.true_distance :=
          [("ab"%string, distance a b); ("ac"%string, distance a c);
           ("bc"%string, distance b c)];
        Tower.reflected_distance :=
          [("ab"%string, reflected a b); ("ac"%string, reflected a c);
           ("bc"%string, reflected b c)];
        Tower.equivalent_distance :=
          pow_third (distance a b * distance a c * distance b c);
        Tower.equivalent_reflected_distance :=
          pow_third (reflected a b * reflected a c * reflected b c);
        Tower.equivalent_height := pow_third (snd a * snd b * snd c) |}.
Proof.
  unfold Tower.calculate_distances.
  rewrite !math_sqrt_sum_squares. cbn [bind Tower.values map snd].
  rewrite !prod3, !float_pow_third. reflexivity.
Qed.

Section TowerFacts.
Variable K : const.t.

Lemma inductance_Ok (d : Tower.distances) (bundle : ConductorBundle.t) (l : R) :
  Tower.calculate_inductance_per_km K d bundle = Ok l ->
  exists ed sL : R,
    Tower.equivalent_distance d = PyFloat ed /\
    ConductorBundle.spacing_L bundle = PyFloat sL /\
    sL <> 0 /\ 0 < ed / sL /\
    l = const.mu_0 K / (2 * PI) * ln (ed / sL).
Proof.
  unfold Tower.calculate_inductance_per_km. intros H.
  apply bind_Ok in H. destruct H as (q & Hq & H).
  apply bind_Ok in H. destruct H as (lq & Hlq & H).
  apply math_log_Ok in Hlq. destruct Hlq as (x & -> & Hx & ->).
  apply py_div_float in Hq. destruct Hq as (ed & sL & Hed & HsL & Hne & ->).
  inversion H. exists ed, sL. auto.
Qed.

Lemma capacitance_Ok (d : Tower.distances) (bundle : ConductorBundle.t) (cap : R) :
  Tower.calculate_shunt_capacitance_per_km K d bundle = Ok cap ->
  exists ed sC er eh : R,
    Tower.equivalent_distance d = PyFloat ed /\
    ConductorBundle.spacing_C bundle = PyFloat sC /\
    Tower.equivalent_reflected_distance d = PyFloat er /\
    Tower.equivalent_height d = PyFloat eh /\
    sC <> 0 /\ eh <> 0 /\ 0 < ed / sC /\ 0 < er / (2 * eh) /\
    ln (ed / sC) - ln (er / (2 * eh)) <> 0 /\
    cap = 2 * PI * const.epsilon_0 K / (ln (ed / sC) - ln (er / (2 * eh))).
Proof.
  unfold Tower.calculate_shunt_capacitance_per_km. intros H.
  apply bind_Ok in H. destruct H as (q & Hq & H).
  apply bind_Ok in H. destruct H as (l1 & Hl1 & H).
  apply bind_Ok in H. destruct H as (q' & Hq' & H).
  apply bind_Ok in H. destruct H as (l2 & Hl2 & H).
  apply math_log_Ok in Hl1. destruct Hl1 as (x & -> & Hx & ->).
  apply math_log_Ok in Hl2. destruct Hl2 as (x' & -> & Hx' & ->).
  apply py_div_float in Hq. destruct Hq as (ed & sC & Hed & HsC & Hne & ->).
  apply py_div_float in Hq'. destruct Hq' as (er & y & Her & Hy & Hne' & ->).
  apply float_div_Ok in H. destruct H as [Hden ->].
  destruct (Tower.equivalent_height d) as [eh|re im] eqn:Heh; [|discriminate].
  simpl in Hy. injection Hy as <-.
  exists ed, sC, er, eh. repeat split; auto. lra.
Qed.

(** What a constructed tower holds. *)
Lemma tower_Ok (locations : PhaseLocations.t) (bundle : ConductorBundle.t)
    (circuits : Z) (freq : R) (t : Tower.t) :
  Tower.__post_init__ K locations bundle circuits freq = Ok t ->
  circuits = 1%Z /\
  Tower.calculate_distances (PhaseLocations.a locations)
    (PhaseLocations.b locations) (PhaseLocations.c locations) = Ok (Tower.dist t) /\
  Tower.resistance t = ConductorBundle.resistance_per_km bundle /\
  Tower.calculate_inductance_per_km K (Tower.dist t) bundle = Ok (Tower.inductance t) /\
  Tower.calculate_shunt_capacitance_per_km K (Tower.dist t) bundle
  = Ok (Tower.capacitance t) /\
  Tower.freq t = freq.
Proof.
  unfold Tower.__post_init__.
  destruct (circuits =? 1)%Z eqn:Hc; [|discriminate]. cbn [negb].
  apply Z.eqb_eq in Hc. intros H.
  apply bind_Ok in H. destruct H as (d & Hd & H).
  apply bind_Ok in H. destruct H as (l & Hl & H).
  apply bind_Ok in H. destruct H as (cap & Hcap & H).
  inversion H; subst t; clear H. simpl. repeat split; auto.
Qed.

(** The three equivalent distances of a constructed tower are the
    geometric means, taken of positive products. *)
Lemma tower_geometry (locations : PhaseLocations.t) (bundle : ConductorBundle.t)
    (circuits : Z) (freq : R) (t : Tower.t) :
  Tower.__post_init__ K locations bundle circuits freq = Ok t ->
  let a := PhaseLocations.a locations in
  let b := PhaseLocations.b locations in
  let c := PhaseLocations.c locations in
  0 < distance a b * distance a c * distance b c /\
  0 < reflected a b * reflected a c * reflected b c /\
  0 < snd a * snd b * snd c /\
  Tower.equivalent_distance (Tower.dist t)
  = PyFloat (geometric_mean (distance a b) (distance a c) (distance b c)) /\
  Tower.equivalent_reflected_distance (Tower.dist t)
  = PyFloat (geometric_mean (reflected a b) (reflected a c) (reflected b c)) /\
  Tower.equivalent_height (Tower.dist t)
  = PyFloat (geometric_mean (snd a) (snd b) (snd c)).
Proof.
  intros Ht a b c. subst a b c.
  destruct (tower_Ok _ _ _ _ _ Ht) as (_ & Hd & _ & _ & Hcap & _).
  rewrite calculate_distances_total in Hd. injection Hd as Hd.
  apply capacitance_Ok in Hcap.
  destruct Hcap as (ed & sC & er & eh & Hed & HsC & Her & Heh & Hne & Hne'
                    & Hq & Hq' & _).
  rewrite <- Hd in Hed, Her, Heh. simpl in Hed, Her, Heh.
  set (P := distance _ _ * distance _ _ * distance _ _) in *.
  set (Q := reflected _ _ * reflected _ _ * reflected _ _) in *.
  set (H := snd _ * snd _ * snd _) in *.
  assert (HP : 0 <= P).
  { unfold P. repeat apply Rmult_le_pos; apply distance_nonneg. }
  assert (HQ : 0 <= Q).
  { unfold Q. repeat apply Rmult_le_pos; apply reflected_nonneg. }
  assert (Heh_pos : 0 < eh).
  { unfold pow_third in Heh. destruct (Rlt_dec 0 H).
    - injection Heh as <-. unfold Rpower. apply exp_pos.
    - destruct (Req_EM_T H 0); [|discriminate]. injection Heh as <-. lra. }
  assert (Her_pos : 0 < er).
  { unfold pow_third in Her. destruct (Rlt_dec 0 Q).
    - injection Her as <-. unfold Rpower. apply exp_pos.
    - destruct (Req_EM_T Q 0); [|lra]. injection Her as <-.
      unfold Rdiv in Hq'. rewrite Rmult_0_l in Hq'. lra. }
  assert (Hed_pos : 0 < ed).
  { unfold pow_third in Hed. destruct (Rlt_dec 0 P).
    - injection Hed as <-. unfold Rpower. apply exp_pos.
    - destruct (Req_EM_T P 0); [|lra]. injection Hed as <-.
      unfold Rdiv in Hq. rewrite Rmult_0_l in Hq. lra. }
  destruct (pow_third_float_positive _ _ Hed Hed_pos) as [HP' ->].
  destruct (pow_third_float_positive _ _ Her Her_pos) as [HQ' ->].
  destruct (pow_third_float_positive _ _ Heh Heh_pos) as [HH' ->].
  rewrite <- Hd. simpl. fold P Q H.
  rewrite !pow_third_positive by assumption.
  unfold geometric_mean. repeat split; assumption.
Qed.

End TowerFacts.

Section TowerBuilt.
Variable K : const.t.

(** Sufficient conditions for a tower to be built. *)
Lemma tower_built (locations : PhaseLocations.t) (bundle : ConductorBundle.t)
    (freq sL sC : R) :
  let a := PhaseLocations.a locations in
  let b := PhaseLocations.b locations in
  let c := PhaseLocations.c locations in
  let ed := geometric_mean (distance a b) (distance a c) (distance b c) in
  let er := geometric_mean (reflected a b) (reflected a c) (reflected b c) in
  let eh := geometric_mean (snd a) (snd b) (snd c) in
  ConductorBundle.spacing_L bundle = PyFloat sL ->
  ConductorBundle.spacing_C bundle = PyFloat sC ->
  0 < sL -> 0 < sC ->
  0 < distance a b * distance a c * distance b c ->
  0 < reflected a b * reflected a c * reflected b c ->
  0 < snd a * snd b * snd c ->
  ed / sC <> er / (2 * eh) ->
  exists t : Tower.t,
    Tower.__post_init__ K locations bundle 1 freq = Ok t.
Proof.
  intros a b c ed er eh HsL HsC HsLpos HsCpos HP HQ HH Hne.
  assert (Hed : 0 < ed) by (unfold ed, geometric_mean, Rpower; apply exp_pos).
  assert (Her : 0 < er) by (unfold er, geometric_mean, Rpower; apply exp_pos).
  assert (Heh : 0 < eh) by (unfold eh, geometric_mean, Rpower; apply exp_pos).
  assert (Hq1 : 0 < ed / sL) by (apply Rdiv_lt_0_compat; assumption).
  assert (Hq2 : 0 < ed / sC) by (apply Rdiv_lt_0_compat; assumption).
  assert (Hq3 : 0 < er / (2 * eh)) by (apply Rdiv_lt_0_compat; lra).
  assert (Hden : ln (ed / sC) - ln (er / (2 * eh)) <> 0).
  { intros E. apply Hne. apply ln_inv; [assumption | assumption | lra]. }
  unfold Tower.__post_init__. cbn [Z.eqb Pos.eqb negb].
  fold a b c. rewrite calculate_distances_total. cbn [bind].
  unfold Tower.calculate_inductance_per_km, Tower.calculate_shunt_capacitance_per_km.
  cbn [Tower.equivalent_distance Tower.equivalent_reflected_distance
       Tower.equivalent_height].
  rewrite !pow_third_positive by assumption.
  rewrite HsL, HsC. cbn [py_scale].
  fold (geometric_mean (distance a b) (distance a c) (distance b c)).
  fold (geometric_mean (reflected a b) (reflected a c) (reflected b c)).
  fold (geometric_mean (snd a) (snd b) (snd c)).
  fold ed er eh.
  rewrite !py_div_floats by lra. cbn [bind].
  rewrite !math_log_positive by assumption. cbn [bind].
  rewrite float_div_nonzero by exact Hden. cbn [bind].
  eexists. reflexivity.
Qed.

End TowerBuilt.

(** ** The tower of the examples *)

Lemma new_cardinal_bundle :
  ConductorBundle.__post_init__ (cardinal_pair "circular") = Ok cardinal_bundle.
Proof.
  rewrite (bundle_of_two _ (23 / 1000) (12253 / 1000000) (1519 / 100000))
    by reflexivity.
  unfold cardinal_bundle, principal_sqrt. simpl.
  destruct (Rle_dec 0 _); [|lra]. destruct (Rle_dec 0 _); [|lra]. reflexivity.
Qed.

Section ExampleTower.

Lemma Rpower_one (e : R) : Rpower 1 e = 1.
Proof. unfold Rpower. rewrite ln_1, Rmult_0_r. apply exp_0. Qed.

Lemma Rpower_cube_third (x : R) : 0 < x -> Rpower (x * x * x) (1 / 3) = x.
Proof.
  intros Hx.
  rewrite <- (Rpower_1 x Hx) at 1 2 3. rewrite <- !Rpower_plus, Rpower_mult.
  replace ((1 + 1 + 1) * (1 / 3)) with 1 by lra. apply Rpower_1. exact Hx.
Qed.

Lemma sqrt_between (x lo hi : R) :
  0 <= lo -> lo * lo <= x <= hi * hi -> 0 <= hi -> lo <= sqrt x <= hi.
Proof.
  intros Hlo [H1 H2] Hhi. split.
  - rewrite <- (sqrt_square lo Hlo). apply sqrt_le_1_alt. exact H1.
  - rewrite <- (sqrt_square hi Hhi). apply sqrt_le_1_alt. exact H2.
Qed.

Lemma product_between (x y z hi : R) :
  1 <= x <= hi -> 1 <= y <= hi -> 1 <= z <= hi ->
  1 <= x * y * z <= hi * hi * hi.
Proof.
  intros Hx Hy Hz.
  assert (Hxy : 1 <= x * y <= hi * hi) by nra.
  nra.
Qed.

Let a := PhaseLocations.a row_of_phases.
Let b := PhaseLocations.b row_of_phases.
Let c := PhaseLocations.c row_of_phases.

Lemma row_distances :
  1 <= distance a b <= 14 /\ 1 <= distance a c <= 14 /\ 1 <= distance b c <= 14.
Proof.
  unfold distance, a, b, c. simpl.
  repeat split; apply (sqrt_between _ 1 14); lra.
Qed.

Lemma row_reflected :
  1 <= reflected a b <= 56 /\ 1 <= reflected a c <= 56 /\ 1 <= reflected b c <= 56.
Proof.
  unfold reflected, a, b, c. simpl.
  repeat split; apply (sqrt_between _ 1 56); lra.
Qed.

Lemma row_capacitive_spacing :
  0 < sqrt (1519 / 100000 * (4572 / 10000)) <= 1 / 2.
Proof.
  split.
  - apply sqrt_lt_R0. lra.
  - apply (sqrt_between _ 0 (1 / 2)); lra.
Qed.

Lemma row_tower_built (freq : R) :
  exists t : Tower.t,
    Tower.__post_init__ example_const row_of_phases cardinal_bundle 1 freq = Ok t.
Proof.
  destruct row_distances as (Hab & Hac & Hbc).
  destruct row_reflected as (Rab & Rac & Rbc).
  destruct row_capacitive_spacing as [HsC HsC'].
  destruct (product_between _ _ _ 14 Hab Hac Hbc) as [HP _].
  destruct (product_between _ _ _ 56 Rab Rac Rbc) as [HQ HQ'].
  apply (tower_built example_const row_of_phases cardinal_bundle freq
           (sqrt (12253 / 1000000 * (4572 / 10000)))
           (sqrt (1519 / 100000 * (4572 / 10000))));
    change (PhaseLocations.a row_of_phases) with a;
    change (PhaseLocations.b row_of_phases) with b;
    change (PhaseLocations.c row_of_phases) with c.
  - reflexivity.
  - reflexivity.
  - apply sqrt_lt_R0. lra.
  - exact HsC.
  - lra.
  - lra.
  - unfold a, b, c. simpl. lra.
  - unfold geometric_mean.
    replace (snd a * snd b * snd c) with (27 * 27 * 27) by (unfold a, b, c; simpl; ring).
    rewrite (Rpower_cube_third 27) by lra.
    set (ed := Rpower (distance a b * distance a c * distance b c) (1 / 3)).
    set (er := Rpower (reflected a b * reflected a c * reflected b c) (1 / 3)).
    set (sC := sqrt (1519 / 100000 * (4572 / 10000))) in *.
    assert (Hed : 1 <= ed).
    { apply Rle_trans with (Rpower 1 (1 / 3)); [rewrite Rpower_one; lra|].
      apply Rle_Rpower_l; lra. }
    assert (Her : er <= 56).
    { apply Rle_trans with (Rpower (56 * 56 * 56) (1 / 3));
        [|rewrite Rpower_cube_third; lra].
      apply Rle_Rpower_l; lra. }
    assert (Hleft : 2 <= ed / sC).
    { apply Rle_trans with (1 / sC).
      - apply Rle_trans with (1 / (1 / 2)); [lra|].
        unfold Rdiv. apply Rmult_le_compat_l; [lra|].
        apply Rinv_le_contravar; lra.
      - unfold Rdiv. apply Rmult_le_compat_r; [|exact Hed].
        left. apply Rinv_0_lt_compat. exact HsC. }
    assert (Hright : er / (2 * 27) < 2).
    { apply Rle_lt_trans with (56 / (2 * 27)); [|lra].
      unfold Rdiv. apply Rmult_le_compat_r; [lra | exact Her]. }
    lra.
Qed.

End ExampleTower.

(** ** The claims on Tower *)

Lemma positive_divisor (x y : R) : 0 < x -> 0 < x / y -> 0 < y.
Proof.
  intros Hx Hq. destruct (Rlt_dec 0 y) as [Hy|Hy]; [exact Hy|].
  exfalso. destruct (Req_EM_T y 0) as [->|Hne].
  - unfold Rdiv in Hq. rewrite Rinv_0, Rmult_0_r in Hq. lra.
  - assert (Hinv : / y < 0) by (apply Rinv_lt_0_compat; lra).
    unfold Rdiv in Hq. nra.
Qed.

(** C1.  In a constructed tower the three products (of the true distances,
    of the reflected distances, of the heights) are positive, the reflected
    distances are the Euclidean distances with the heights added, the
    equivalent distances and height are the cube roots of the products, and
    [capacitance = 2 pi epsilon_0 /
      (ln(equivalent_distance / spacing_C)
       - ln(equivalent_reflected_distance / (2 equivalent_height)))]. *)
Theorem C1_shunt_capacitance :
  forall (K : const.t) (locations : PhaseLocations.t) (bundle : ConductorBundle.t)
         (circuits : Z) (freq : R) (t : Tower.t),
    Tower.__post_init__ K locations bundle circuits freq = Ok t ->
    let a := PhaseLocations.a locations in
    let b := PhaseLocations.b locations in
    let c := PhaseLocations.c locations in
    let ed := geometric_mean (distance a b) (distance a c) (distance b c) in
    let er := geometric_mean (reflected a b) (reflected a c) (reflected b c) in
    let eh := geometric_mean (snd a) (snd b) (snd c) in
    exists sC : R,
      ConductorBundle.spacing_C bundle = PyFloat sC /\ 0 < sC /\
      0 < distance a b * distance a c * distance b c /\
      0 < reflected a b * reflected a c * reflected b c /\
      0 < snd a * snd b * snd c /\
      Tower.reflected_distance (Tower.dist t)
      = [("ab"%string, reflected a b); ("ac"%string, reflected a c);
         ("bc"%string, reflected b c)] /\
      Tower.equivalent_distance (Tower.dist t) = PyFloat ed /\
      Tower.equivalent_reflected_distance (Tower.dist t) = PyFloat er /\
      Tower.equivalent_height (Tower.dist t) = PyFloat eh /\
      Tower.capacitance t
      = 2 * PI * const.epsilon_0 K / (ln (ed / sC) - ln (er / (2 * eh))).
Proof.
  intros K locations bundle circuits freq t Ht a b c ed er eh.
  destruct (tower_geometry K _ _ _ _ _ Ht) as (HP & HQ & HH & Hed & Her & Heh).
  destruct (tower_Ok K _ _ _ _ _ Ht) as (_ & Hd & _ & _ & Hcap & _).
  apply capacitance_Ok in Hcap.
  destruct Hcap as (ed' & sC & er' & eh' & Hed' & HsC & Her' & Heh' & _ & _ & Hq & _ & _ & ->).
  fold a b c in HP, HQ, HH, Hed, Her, Heh. fold ed in Hed. fold er in Her. fold eh in Heh.
  rewrite Hed in Hed'. rewrite Her in Her'. rewrite Heh in Heh'.
  injection Hed' as <-. injection Her' as <-. injection Heh' as <-.
  rewrite calculate_distances_total in Hd. injection Hd as Hd.
  exists sC. repeat split; try assumption.
  - apply (positive_divisor ed); [|exact Hq].
    unfold ed, geometric_mean, Rpower. apply exp_pos.
  - rewrite <- Hd. reflexivity.
Qed.

Lemma C1_shunt_capacitance_witness :
  exists t : Tower.t,
    Tower.__post_init__ example_const row_of_phases cardinal_bundle 1 60 = Ok t /\
    let a := PhaseLocations.a row_of_phases in
    let b := PhaseLocations.b row_of_phases in
    let c := PhaseLocations.c row_of_phases in
    let ed := geometric_mean (distance a b) (distance a c) (distance b c) in
    let er := geometric_mean (reflected a b) (reflected a c) (reflected b c) in
    let eh := geometric_mean (snd a) (snd b) (snd c) in
    exists sC : R,
      ConductorBundle.spacing_C cardinal_bundle = PyFloat sC /\ 0 < sC /\
      0 < distance a b * distance a c * distance b c /\
      0 < reflected a b * reflected a c * reflected b c /\
      0 < snd a * snd b * snd c /\
      Tower.reflected_distance (Tower.dist t)
      = [("ab"%string, reflected a b); ("ac"%string, reflected a c);
         ("bc"%string, reflected b c)] /\
      Tower.equivalent_distance (Tower.dist t) = PyFloat ed /\
      Tower.equivalent_reflected_distance (Tower.dist t) = PyFloat er /\
      Tower.equivalent_height (Tower.dist t) = PyFloat eh /\
      Tower.capacitance t
      = 2 * PI * const.epsilon_0 example_const / (ln (ed / sC) - ln (er / (2 * eh))).
Proof.
  destruct (row_tower_built 60) as [t Ht].
  exists t. split.
  - exact Ht.
  - exact (C1_shunt_capacitance example_const row_of_phases cardinal_bundle 1 60 t Ht).
Defined.

(** C2.  In a constructed tower the true distances are the Euclidean
    distances between the phases, the equivalent distance is the cube root
    of their (positive) product,
    [inductance = mu_0 / (2 pi) * ln(equivalent_distance / spacing_L)], and
    the resistance is the bundle's [resistance_per_km]. *)
Theorem C2_inductance_and_resistance :
  forall (K : const.t) (locations : PhaseLocations.t) (bundle : ConductorBundle.t)
         (circuits : Z) (freq : R) (t : Tower.t),
    Tower.__post_init__ K locations bundle circuits freq = Ok t ->
    let a := PhaseLocations.a locations in
    let b := PhaseLocations.b locations in
    let c := PhaseLocations.c locations in
    let ed := geometric_mean (distance a b) (distance a c) (distance b c) in
    exists sL : R,
      ConductorBundle.spacing_L bundle = PyFloat sL /\ 0 < sL /\
      0 < distance a b * distance a c * distance b c /\
      Tower.true_distance (Tower.dist t)
      = [("ab"%string, distance a b); ("ac"%string, distance a c);
         ("bc"%string, distance b c)] /\
      Tower.equivalent_distance (Tower.dist t) = PyFloat ed /\
      Tower.inductance t = const.mu_0 K / (2 * PI) * ln (ed / sL) /\
      Tower.resistance t = ConductorBundle.resistance_per_km bundle.
Proof.
  intros K locations bundle circuits freq t Ht a b c ed.
  destruct (tower_geometry K _ _ _ _ _ Ht) as (HP & _ & _ & Hed & _ & _).
  destruct (tower_Ok K _ _ _ _ _ Ht) as (_ & Hd & Hres & Hind & _ & _).
  apply inductance_Ok in Hind.
  destruct Hind as (ed' & sL & Hed' & HsL & _ & Hq & ->).
  fold a b c in HP, Hed. fold ed in Hed.
  rewrite Hed in Hed'. injection Hed' as <-.
  rewrite calculate_distances_total in Hd. injection Hd as Hd.
  exists sL. repeat split; try assumption.
  - apply (positive_divisor ed); [|exact Hq].
    unfold ed, geometric_mean, Rpower. apply exp_pos.
  - rewrite <- Hd. reflexivity.
Qed.

Lemma C2_inductance_and_resistance_witness :
  exists t : Tower.t,
    Tower.__post_init__ example_const row_of_phases cardinal_bundle 1 60 = Ok t /\
    let a := PhaseLocations.a row_of_phases in
    let b := PhaseLocations.b row_of_phases in
    let c := PhaseLocations.c row_of_phases in
    let ed := geometric_mean (distance a b) (distance a c) (distance b c) in
    exists sL : R,
      ConductorBundle.spacing_L cardinal_bundle = PyFloat sL /\ 0 < sL /\
      0 < distance a b * distance a c * distance b c /\
      Tower.true_distance (Tower.dist t)
      = [("ab"%string, distance a b); ("ac"%string, distance a c);
         ("bc"%string, distance b c)] /\
      Tower.equivalent_distance (Tower.dist t) = PyFloat ed /\
      Tower.inductance t = const.mu_0 example_const / (2 * PI) * ln (ed / sL) /\
      Tower.resistance t = ConductorBundle.resistance_per_km cardinal_bundle.
Proof.
  destruct (row_tower_built 60) as [t Ht].
  exists t. split.
  - exact Ht.
  - exact (C2_inductance_and_resistance example_const row_of_phases
             cardinal_bundle 1 60 t Ht).
Defined.

(** C10.  Two constructions that differ in [freq] alone end alike: both
    raise the same exception, or both build a tower, with the same
    distances, resistance, inductance and capacitance, each tower keeping
    the [freq] it was given. *)
Theorem C10_freq_has_no_influence :
  forall (K : const.t) (locations : PhaseLocations.t) (bundle : ConductorBundle.t)
         (circuits : Z) (freq1 freq2 : R),
    match Tower.__post_init__ K locations bundle circuits freq1,
          Tower.__post_init__ K locations bundle circuits freq2 with
    | Ok t1, Ok t2 =>
        Tower.dist t1 = Tower.dist t2 /\
        Tower.resistance t1 = Tower.resistance t2 /\
        Tower.inductance t1 = Tower.inductance t2 /\
        Tower.capacitance t1 = Tower.capacitance t2 /\
        Tower.freq t1 = freq1 /\ Tower.freq t2 = freq2
    | Raise e1, Raise e2 => e1 = e2
    | _, _ => False
    end.
Proof.
  intros K locations bundle circuits freq1 freq2.
  unfold Tower.__post_init__.
  destruct (negb (circuits =? 1)%Z); [reflexivity|].
  destruct (Tower.calculate_distances _ _ _) as [d|e]; cbn [bind]; [|reflexivity].
  destruct (Tower.calculate_inductance_per_km K d bundle) as [l|e]; cbn [bind];
    [|reflexivity].
  destruct (Tower.calculate_shunt_capacitance_per_km K d bundle) as [cap|e];
    cbn [bind]; [|reflexivity].
  simpl. repeat split.
Qed.


(** * Further properties of Conductor *)

(** X1.  A constructed conductor passes [__post_init__] again unchanged,
    under any tables: both numbers are set, so neither guard nor estimate
    applies any more. *)
Theorem X1_constructed_conductor_is_stable :
  forall (K K' : const.t) (rad : option R) (mat : option string)
         (res g ar : option R) (c : Conductor.t),
    Conductor.new K rad mat res g ar = Ok c ->
    Conductor.__post_init__ K' c = Ok c.
Proof.
  intros K K' rad mat res g ar c Hc.
  destruct (new_Ok K _ _ _ _ _ _ Hc) as (gv & rv & Hg & Hr & _).
  unfold Conductor.__post_init__, Conductor.estimate_gmr.
  rewrite Hg, Hr. cbn [is_None andb bind].
  unfold Conductor.estimate_resistance. rewrite Hr. reflexivity.
Qed.

Lemma X1_constructed_conductor_is_stable_witness :
  Conductor.__post_init__ example_const aluminum_conductor = Ok aluminum_conductor.
Proof.
  exact (X1_constructed_conductor_is_stable example_const example_const
           _ _ _ _ _ _ new_aluminum_conductor).
Defined.

(** X2.  Two conductors of one material and radius, both with an estimated
    resistance: resistance times area is the same number,
    [resistivity * 1000], for both, so under a positive resistivity the one
    with the smaller positive area has the larger resistance (the solid
    conductor of test_conductor against its strands). *)
Theorem X2_resistance_inverse_to_area :
  forall (K : const.t) (rad : option R) (mat : option string)
         (g ar1 ar2 : option R) (c1 c2 : Conductor.t),
    Conductor.new K rad mat None g ar1 = Ok c1 ->
    Conductor.new K rad mat None g ar2 = Ok c2 ->
    exists rho a1 a2 r1 r2 : R,
      getitem (const.resistivity K) mat = Some rho /\
      Conductor.area c1 = Some a1 /\ Conductor.area c2 = Some a2 /\
      Conductor.resistance_per_km c1 = Some r1 /\
      Conductor.resistance_per_km c2 = Some r2 /\
      r1 * a1 = rho * 1000 /\ r2 * a2 = rho * 1000 /\
      (0 < rho -> 0 < a1 < a2 -> r2 < r1).
Proof.
  intros K rad mat g ar1 ar2 c1 c2 H1 H2.
  destruct (new_Ok K _ _ _ _ _ _ H1)
    as (gv1 & r1 & _ & Hr1 & _ & Hres1 & _ & _ & _ & Harea1).
  destruct (new_Ok K _ _ _ _ _ _ H2)
    as (gv2 & r2 & _ & Hr2 & _ & Hres2 & _ & _ & _ & Harea2).
  destruct Hres1 as [E | (_ & rho & a1 & Hrho & Ha1 & Hne1 & ->)]; [discriminate|].
  destruct Hres2 as [E | (_ & rho' & a2 & Hrho' & Ha2 & Hne2 & ->)]; [discriminate|].
  rewrite Hrho in Hrho'. injection Hrho' as <-.
  exists rho, a1, a2, (rho * 1000 / a1), (rho * 1000 / a2).
  rewrite Harea1, Harea2 by reflexivity.
  repeat split; try assumption.
  - field. exact Hne1.
  - field. exact Hne2.
  - intros Hrho_pos [Hpos Hlt].
    unfold Rdiv. apply Rmult_lt_compat_l; [lra|].
    apply Rinv_lt_contravar; [nra | exact Hlt].
Qed.

Lemma X2_resistance_inverse_to_area_witness :
  exists c1 c2 : Conductor.t,
    Conductor.new example_const (Some (1 / 100)) (Some "aluminum"%string)
      None None (Some (1 / 10000)) = Ok c1 /\
    Conductor.new example_const (Some (1 / 100)) (Some "aluminum"%string)
      None None None = Ok c2 /\
    exists rho a1 a2 r1 r2 : R,
      getitem (const.resistivity example_const) (Some "aluminum"%string) = Some rho /\
      Conductor.area c1 = Some a1 /\ Conductor.area c2 = Some a2 /\
      Conductor.resistance_per_km c1 = Some r1 /\
      Conductor.resistance_per_km c2 = Some r2 /\
      r1 * a1 = rho * 1000 /\ r2 * a2 = rho * 1000 /\
      (0 < rho -> 0 < a1 < a2 -> r2 < r1).
Proof.
  assert (H1 : exists c1, Conductor.new example_const (Some (1 / 100))
                 (Some "aluminum"%string) None None (Some (1 / 10000)) = Ok c1).
  { rewrite (new_estimates_gmr example_const (1 / 100) 1)
      by exact example_permeability_aluminum.
    rewrite (estimate_resistance_Ok example_const _ (265 / 10 ^ 10) (1 / 10000)).
    - eexists. reflexivity.
    - reflexivity.
    - exact example_resistivity_aluminum.
    - reflexivity.
    - lra. }
  destruct H1 as [c1 H1].
  exists c1, aluminum_conductor. split; [exact H1|]. split; [exact new_aluminum_conductor|].
  exact (X2_resistance_inverse_to_area example_const _ _ _ _ _ _ _
           H1 new_aluminum_conductor).
Defined.

(** X3.  The estimated GMR is [radius * exp(permeability / 4)] with a plus
    sign in the exponent: for a positive radius it is positive, and it is
    larger than the radius for a positive permeability, equal to it for
    permeability 0, smaller for a negative one. *)
Theorem X3_estimated_gmr_against_radius :
  forall (K : const.t) (r p : R) (mat : option string) (res ar : option R)
         (c : Conductor.t),
    getitem (const.relative_permeability K) mat = Some p ->
    Conductor.new K (Some r) mat res None ar = Ok c ->
    0 < r ->
    exists gv : R,
      Conductor.gmr c = Some gv /\ 0 < gv /\
      (0 < p -> r < gv) /\ (p = 0 -> gv = r) /\ (p < 0 -> gv < r).
Proof.
  intros K r p mat res ar c Hp Hc Hr.
  destruct (new_Ok K _ _ _ _ _ _ Hc) as (gv & rv & Hg & _ & Hres & _).
  destruct Hres as [E | (_ & p' & r' & Hp' & Hr' & ->)]; [discriminate|].
  rewrite Hp in Hp'. injection Hp' as <-. injection Hr' as <-.
  exists (r * exp (p / 4)). split; [exact Hg|].
  pose proof (exp_pos (p / 4)) as Hexp.
  split; [apply Rmult_lt_0_compat; assumption|]. repeat split.
  - intros Hpos. assert (1 < exp (p / 4)).
    { rewrite <- exp_0. apply exp_increasing. lra. }
    nra.
  - intros ->. replace (0 / 4) with 0 by lra. rewrite exp_0. ring.
  - intros Hneg. assert (exp (p / 4) < 1).
    { rewrite <- exp_0. apply exp_increasing. lra. }
    nra.
Qed.

Lemma X3_estimated_gmr_against_radius_witness :
  exists gv : R,
    Conductor.gmr aluminum_conductor = Some gv /\ 0 < gv /\
    (0 < 1 -> 1 / 100 < gv) /\ (1 = 0 -> gv = 1 / 100) /\ (1 < 0 -> gv < 1 / 100).
Proof.
  apply (X3_estimated_gmr_against_radius example_const (1 / 100) 1
           (Some "aluminum"%string) None None aluminum_conductor).
  - exact example_permeability_aluminum.
  - exact new_aluminum_conductor.
  - lra.
Defined.

(** X4.  The outcomes of constructing a conductor, with floats idealised as
    real numbers (no overflow, no underflow, no rounding).  Call the GMR
    resolvable when it is supplied, or a radius is given and the material
    has a known permeability; the resistance likewise, with the resistivity.
    A success means that both are resolvable and that an estimated
    resistance did not divide by a zero area; a ValueError means that one of
    them is not resolvable; a ZeroDivisionError means that both are
    resolvable and the area of an estimated resistance is zero; TypeError
    and NotImplementedError are never raised.  The three conditions exclude
    one another and leave no case out, so over the real numbers each outcome
    occurs exactly under its condition. *)
Theorem X4_conductor_outcomes :
  forall (K : const.t) (rad : option R) (mat : option string)
         (res g ar : option R),
    let gmr_ok :=
      g <> None \/
      (rad <> None /\ getitem (const.relative_permeability K) mat <> None) in
    let res_ok :=
      res <> None \/
      (rad <> None /\ getitem (const.resistivity K) mat <> None) in
    match Conductor.new K rad mat res g ar with
    | Ok _ => gmr_ok /\ res_ok /\ (res = None -> area_used rad ar <> Some 0)
    | Raise ValueError => ~ (gmr_ok /\ res_ok)
    | Raise ZeroDivisionError =>
        gmr_ok /\ res_ok /\ res = None /\ area_used rad ar = Some 0
    | Raise _ => False
    end.
Proof.
  intros K rad mat res g ar gmr_ok res_ok. subst gmr_ok res_ok.
  unfold Conductor.new, Conductor.__post_init__, Conductor.estimate_gmr,
    Conductor.estimate_resistance, float_div.
  destruct g as [gv|], res as [rv|], mat as [m|], rad as [r|], ar as [a|];
    cbn [Conductor.gmr Conductor.material Conductor.radius Conductor.area
         Conductor.resistance_per_km is_None andb orb bind operand getitem
         area_used];
    try (destruct (const.relative_permeability K !! m) as [p|] eqn:Hp);
    cbn [Conductor.gmr Conductor.material Conductor.radius Conductor.area
         Conductor.resistance_per_km is_None andb orb bind operand getitem
         area_used];
    try (destruct (const.resistivity K !! m) as [rho|] eqn:Hrho);
    cbn [bind operand];
    try match goal with
        | |- context [Req_EM_T ?x 0] => destruct (Req_EM_T x 0)
        end;
    cbn [bind];
    intuition (try discriminate; try congruence).
Qed.

(** * Further properties of ConductorBundle *)

Section BundleOutcomes.
Variable self : ConductorBundle.fields.

Lemma float_pow_fraction_total (x y : R) :
  0 < y < 1 -> exists v : pynum, float_pow x y = Ok v.
Proof. intros Hy. rewrite float_pow_fraction by exact Hy. eexists. reflexivity. Qed.

(** Where a spacing is computed, the configuration is supported and the
    conductor has the number that [type] selects. *)
Lemma spacing_Ok (type : string) (v : pynum) :
  type = "inductance"%string \/ type = "capacitance"%string ->
  ConductorBundle.calculate_equivalent_spacing self type = Ok v ->
  supported self /\ exists d : R, conductor_distance self type = Some d.
Proof.
  intros Hty. unfold supported.
  destruct (Z.eq_dec (ConductorBundle.n self) 2%Z) as [H2|H2].
  - rewrite (spacing_two self type H2 Hty).
    destruct (conductor_distance self type) as [d|]; [|discriminate].
    intros _. split; [left; exact H2 | exists d; reflexivity].
  - unfold ConductorBundle.calculate_equivalent_spacing,
      ConductorBundle.calculate_equivalent_spacing_circular,
      ConductorBundle.calculate_equivalent_spacing_flat, conductor_distance.
    apply Z.eqb_neq in H2. rewrite H2.
    destruct (String.eqb_spec (ConductorBundle.layout self) "circular") as [Hc|Hc];
      [|destruct (String.eqb_spec (ConductorBundle.layout self) "flat") as [Hf|Hf]].
    all: destruct (Z.eqb_spec (ConductorBundle.n self) 3%Z) as [H3|H3];
      [|destruct (Z.eqb_spec (ConductorBundle.n self) 4%Z) as [H4|H4]].
    all: destruct Hty as [-> | ->]; cbn [String.eqb Ascii.eqb Bool.eqb bind];
      try discriminate.
    all: match goal with
         | |- bind (operand ?o) _ = _ -> _ =>
             destruct o as [d|]; [|discriminate]; intros _; split;
             [right; auto | exists d; reflexivity]
         end.
Qed.

(** In a supported configuration the spacing is computed, whatever the sign
    of the numbers. *)
Lemma spacing_supported (type : string) (d : R) :
  type = "inductance"%string \/ type = "capacitance"%string ->
  supported self ->
  conductor_distance self type = Some d ->
  exists v : pynum, ConductorBundle.calculate_equivalent_spacing self type = Ok v.
Proof.
  intros Hty Hsup Hd. destruct Hsup as [H2 | [Hn Hlay]].
  - rewrite (spacing_two self type H2 Hty), Hd. eexists. reflexivity.
  - unfold ConductorBundle.calculate_equivalent_spacing,
      ConductorBundle.calculate_equivalent_spacing_circular,
      ConductorBundle.calculate_equivalent_spacing_flat.
    unfold conductor_distance in Hd.
    assert (H2 : (ConductorBundle.n self =? 2)%Z = false)
      by (apply Z.eqb_neq; lia).
    rewrite H2.
    destruct Hty as [-> | ->]; cbn [String.eqb Ascii.eqb Bool.eqb bind] in *;
      rewrite Hd; destruct Hlay as [-> | ->]; destruct Hn as [-> | ->];
      cbn [String.eqb Ascii.eqb Bool.eqb Z.eqb Pos.eqb bind operand];
      apply float_pow_fraction_total; simpl; lra.
Qed.

Lemma spacing_unknown_layout (type : string) :
  type = "inductance"%string \/ type = "capacitance"%string ->
  ConductorBundle.n self <> 2%Z ->
  ConductorBundle.layout self <> "circular"%string ->
  ConductorBundle.layout self <> "flat"%string ->
  ConductorBundle.calculate_equivalent_spacing self type = Raise ValueError.
Proof.
  intros Hty H2 Hc Hf. unfold ConductorBundle.calculate_equivalent_spacing.
  apply Z.eqb_neq in H2. apply String.eqb_neq in Hc, Hf. rewrite H2, Hc, Hf.
  destruct Hty as [-> | ->]; reflexivity.
Qed.

(** For positive numbers the spacing is the float of the table. *)
Lemma spacing_value (type : string) (d : R) :
  type = "inductance"%string \/ type = "capacitance"%string ->
  supported self ->
  conductor_distance self type = Some d ->
  0 < d -> 0 < ConductorBundle.spacing self ->
  ConductorBundle.calculate_equivalent_spacing self type
  = Ok (PyFloat (spacing_formula (ConductorBundle.n self) (ConductorBundle.layout self)
                   d (ConductorBundle.spacing self))).
Proof.
  intros Hty Hsup Hd Hdpos Hspos. unfold spacing_formula.
  destruct Hsup as [H2 | [Hn Hlay]].
  - rewrite (spacing_two self type H2 Hty), Hd, H2. cbn [bind operand Z.eqb Pos.eqb].
    rewrite <- float_pow_half. apply float_pow_positive; [|lra].
    apply Rmult_lt_0_compat; assumption.
  - assert (H2 : ConductorBundle.n self <> 2%Z) by lia.
    assert (E : with_layout self (ConductorBundle.layout self) = self)
      by (destruct self; reflexivity).
    destruct (spacing_by_layout self type H2 Hty) as [Hcirc Hflat].
    apply Z.eqb_neq in H2. rewrite H2.
    destruct Hlay as [Hl | Hl]; rewrite Hl in E |- *;
      cbn [String.eqb Ascii.eqb Bool.eqb].
    + rewrite E in Hcirc. rewrite Hcirc, Hd.
      destruct Hn as [Hn | Hn]; rewrite Hn; cbn [Z.eqb Pos.eqb].
      * apply circular_three; assumption.
      * apply circular_four; assumption.
    + rewrite E in Hflat. rewrite Hflat, Hd.
      destruct Hn as [Hn | Hn]; rewrite Hn; cbn [Z.eqb Pos.eqb].
      * apply flat_three; assumption.
      * apply flat_four; assumption.
Qed.

End BundleOutcomes.

Section BundleBuilt.
Variable self : ConductorBundle.fields.

Lemma supported_nonzero : supported self -> ConductorBundle.n self <> 0%Z.
Proof. unfold supported. lia. Qed.

(** What a constructed bundle holds. *)
Lemma bundle_Ok (b : ConductorBundle.t) :
  ConductorBundle.__post_init__ self = Ok b ->
  ConductorBundle.init b = self /\
  ConductorBundle.n self <> 0%Z /\
  (exists r : R,
      Conductor.resistance_per_km (ConductorBundle.conductor self) = Some r /\
      ConductorBundle.resistance_per_km b = r / IZR (ConductorBundle.n self)) /\
  ConductorBundle.calculate_equivalent_spacing self "inductance"
  = Ok (ConductorBundle.spacing_L b) /\
  ConductorBundle.calculate_equivalent_spacing self "capacitance"
  = Ok (ConductorBundle.spacing_C b).
Proof.
  unfold ConductorBundle.__post_init__. intros H.
  apply bind_Ok in H. destruct H as (r & Hr & H).
  apply bind_Ok in H. destruct H as (q & Hq & H).
  apply bind_Ok in H. destruct H as (sl & Hsl & H).
  apply bind_Ok in H. destruct H as (sc & Hsc & H).
  inversion H; subst b; clear H. cbn [ConductorBundle.init
    ConductorBundle.resistance_per_km ConductorBundle.spacing_L
    ConductorBundle.spacing_C].
  unfold float_div_int in Hq.
  destruct (Z.eqb_spec (ConductorBundle.n self) 0%Z) as [H0|H0]; [discriminate|].
  injection Hq as <-.
  destruct (Conductor.resistance_per_km (ConductorBundle.conductor self))
    as [r'|]; [|discriminate].
  injection Hr as ->.
  repeat split; try assumption. exists r. split; reflexivity.
Qed.

(** With positive numbers, a supported configuration is built, and holds
    the floats of the table. *)
Lemma bundle_built (res g r : R) :
  supported self ->
  Conductor.resistance_per_km (ConductorBundle.conductor self) = Some res ->
  Conductor.gmr (ConductorBundle.conductor self) = Some g ->
  Conductor.radius (ConductorBundle.conductor self) = Some r ->
  0 < g -> 0 < r -> 0 < ConductorBundle.spacing self ->
  ConductorBundle.__post_init__ self =
  Ok {| ConductorBundle.init := self;
        ConductorBundle.resistance_per_km := res / IZR (ConductorBundle.n self);
        ConductorBundle.spacing_L :=
          PyFloat (spacing_formula (ConductorBundle.n self)
                     (ConductorBundle.layout self) g (ConductorBundle.spacing self));
        ConductorBundle.spacing_C :=
          PyFloat (spacing_formula (ConductorBundle.n self)
                     (ConductorBundle.layout self) r (ConductorBundle.spacing self)) |}.
Proof.
  intros Hsup Hres Hg Hr Hgpos Hrpos Hspos.
  unfold ConductorBundle.__post_init__. rewrite Hres. cbn [bind operand].
  unfold float_div_int.
  destruct (Z.eqb_spec (ConductorBundle.n self) 0%Z) as [H0|H0];
    [exfalso; exact (supported_nonzero Hsup H0)|].
  cbn [bind].
  rewrite (spacing_value self "inductance" g), (spacing_value self "capacitance" r);
    auto.
Qed.

End BundleBuilt.

(** X5.  What every constructed bundle satisfies: it keeps its four fields,
    its configuration is supported (two conductors, or three or four in a
    circular or flat layout), its conductor has a resistance, a GMR and a
    radius, and its resistance is the conductor's divided by the count. *)
Theorem X5_constructed_bundle_invariant :
  forall (self : ConductorBundle.fields) (b : ConductorBundle.t),
    ConductorBundle.__post_init__ self = Ok b ->
    ConductorBundle.init b = self /\
    supported self /\
    exists res g r : R,
      Conductor.resistance_per_km (ConductorBundle.conductor self) = Some res /\
      Conductor.gmr (ConductorBundle.conductor self) = Some g /\
      Conductor.radius (ConductorBundle.conductor self) = Some r /\
      ConductorBundle.resistance_per_km b = res / IZR (ConductorBundle.n self).
Proof.
  intros self b Hb.
  destruct (bundle_Ok self b Hb) as (Hinit & _ & (res & Hres & Hq) & HL & HC).
  destruct (spacing_Ok self _ _ (or_introl eq_refl) HL) as (Hsup & g & Hg).
  destruct (spacing_Ok self _ _ (or_intror eq_refl) HC) as (_ & r & Hr).
  split; [exact Hinit|]. split; [exact Hsup|].
  exists res, g, r. auto.
Qed.

Lemma X5_constructed_bundle_invariant_witness :
  ConductorBundle.init cardinal_bundle = cardinal_pair "circular" /\
  supported (cardinal_pair "circular") /\
  exists res g r : R,
    Conductor.resistance_per_km cardinal = Some res /\
    Conductor.gmr cardinal = Some g /\
    Conductor.radius cardinal = Some r /\
    ConductorBundle.resistance_per_km cardinal_bundle = res / IZR 2.
Proof.
  exact (X5_constructed_bundle_invariant (cardinal_pair "circular") cardinal_bundle
           new_cardinal_bundle).
Defined.

Section BundleErrors.
Variable self : ConductorBundle.fields.

(** In a supported configuration a missing number is a [None] operand. *)
Lemma spacing_missing_operand (type : string) :
  type = "inductance"%string \/ type = "capacitance"%string ->
  supported self ->
  conductor_distance self type = None ->
  ConductorBundle.calculate_equivalent_spacing self type = Raise TypeError.
Proof.
  intros Hty Hsup Hd. destruct Hsup as [H2 | [Hn Hlay]].
  - rewrite (spacing_two self type H2 Hty), Hd. reflexivity.
  - unfold ConductorBundle.calculate_equivalent_spacing,
      ConductorBundle.calculate_equivalent_spacing_circular,
      ConductorBundle.calculate_equivalent_spacing_flat.
    unfold conductor_distance in Hd.
    assert (H2 : (ConductorBundle.n self =? 2)%Z = false)
      by (apply Z.eqb_neq; lia).
    rewrite H2.
    destruct Hty as [-> | ->]; cbn [String.eqb Ascii.eqb Bool.eqb bind] in *;
      rewrite Hd; destruct Hlay as [-> | ->]; destruct Hn as [-> | ->];
      reflexivity.
Qed.

Lemma supported_dec : supported self \/ ~ supported self.
Proof.
  unfold supported.
  destruct (Z.eq_dec (ConductorBundle.n self) 2%Z);
    destruct (Z.eq_dec (ConductorBundle.n self) 3%Z);
    destruct (Z.eq_dec (ConductorBundle.n self) 4%Z);
    destruct (string_dec (ConductorBundle.layout self) "circular");
    destruct (string_dec (ConductorBundle.layout self) "flat");
    tauto.
Qed.

End BundleErrors.

(** X7.  The outcomes of constructing a bundle over a conductor that has
    its three numbers, with floats idealised as real numbers (no overflow,
    no rounding).  A success means a supported configuration; a
    ZeroDivisionError means [n = 0]; a ValueError means a count other than 0
    and 2 with a layout that is neither "circular" nor "flat"; a
    NotImplementedError means a count outside {0, 2, 3, 4} with one of those
    two layouts; TypeError is never raised.  The four conditions exclude one
    another and leave no case out, so over the real numbers each outcome
    occurs exactly under its condition. *)
Theorem X7_bundle_outcomes :
  forall (self : ConductorBundle.fields) (res g r : R),
    Conductor.resistance_per_km (ConductorBundle.conductor self) = Some res ->
    Conductor.gmr (ConductorBundle.conductor self) = Some g ->
    Conductor.radius (ConductorBundle.conductor self) = Some r ->
    let n := ConductorBundle.n self in
    let known_layout :=
      ConductorBundle.layout self = "circular"%string \/
      ConductorBundle.layout self = "flat"%string in
    match ConductorBundle.__post_init__ self with
    | Ok _ => supported self
    | Raise ZeroDivisionError => n = 0%Z
    | Raise ValueError => n <> 0%Z /\ n <> 2%Z /\ ~ known_layout
    | Raise NotImplementedError =>
        n <> 0%Z /\ n <> 2%Z /\ n <> 3%Z /\ n <> 4%Z /\ known_layout
    | Raise TypeError => False
    end.
Proof.
  intros self res g r Hres Hg Hr n known_layout. subst n known_layout.
  unfold ConductorBundle.__post_init__. rewrite Hres. cbn [bind operand].
  unfold float_div_int.
  destruct (Z.eqb_spec (ConductorBundle.n self) 0%Z) as [H0|H0]; [exact H0|].
  cbn [bind].
  destruct (supported_dec self) as [Hsup | Hnsup].
  - destruct (spacing_supported self "inductance" g (or_introl eq_refl) Hsup Hg)
      as [vL ->].
    destruct (spacing_supported self "capacitance" r (or_intror eq_refl) Hsup Hr)
      as [vC ->].
    exact Hsup.
  - unfold supported in Hnsup.
    assert (H2 : ConductorBundle.n self <> 2%Z) by tauto.
    destruct (string_dec (ConductorBundle.layout self) "circular") as [Hc|Hc];
      [|destruct (string_dec (ConductorBundle.layout self) "flat") as [Hf|Hf]].
    + assert (H3 : ConductorBundle.n self <> 3%Z) by tauto.
      assert (H4 : ConductorBundle.n self <> 4%Z) by tauto.
      rewrite (spacing_unsupported self "inductance" H2 H3 H4 (or_introl eq_refl)).
      rewrite Hc. cbn [String.eqb Ascii.eqb Bool.eqb bind]. tauto.
    + assert (H3 : ConductorBundle.n self <> 3%Z) by tauto.
      assert (H4 : ConductorBundle.n self <> 4%Z) by tauto.
      rewrite (spacing_unsupported self "inductance" H2 H3 H4 (or_introl eq_refl)).
      rewrite Hf. cbn [String.eqb Ascii.eqb Bool.eqb bind]. tauto.
    + rewrite (spacing_unknown_layout self "inductance" (or_introl eq_refl) H2 Hc Hf).
      cbn [bind]. tauto.
Qed.

Lemma X7_bundle_outcomes_witness :
  match ConductorBundle.__post_init__ five_triangular with
  | Ok _ => supported five_triangular
  | Raise ZeroDivisionError => 5%Z = 0%Z
  | Raise ValueError =>
      5%Z <> 0%Z /\ 5%Z <> 2%Z /\
      ~ ("triangular"%string = "circular"%string \/
         "triangular"%string = "flat"%string)
  | Raise NotImplementedError =>
      5%Z <> 0%Z /\ 5%Z <> 2%Z /\ 5%Z <> 3%Z /\ 5%Z <> 4%Z /\
      ("triangular"%string = "circular"%string \/
       "triangular"%string = "flat"%string)
  | Raise TypeError => False
  end.
Proof.
  exact (X7_bundle_outcomes five_triangular (23 / 1000) (12253 / 1000000)
           (1519 / 100000) eq_refl eq_refl eq_refl).
Defined.

(** X8.  A conductor that construction has accepted can be bundled, in a
    supported configuration, exactly when it has a radius: with a radius a
    bundle is built; without one (both numbers were supplied) the bundle
    raises TypeError, at the spacing for capacitance. *)
Theorem X8_bundling_needs_a_radius :
  forall (K : const.t) (rad : option R) (mat : option string)
         (res g ar : option R) (c : Conductor.t) (self : ConductorBundle.fields),
    Conductor.new K rad mat res g ar = Ok c ->
    ConductorBundle.conductor self = c ->
    supported self ->
    (rad <> None -> exists b : ConductorBundle.t,
        ConductorBundle.__post_init__ self = Ok b)
    /\ (rad = None -> ConductorBundle.__post_init__ self = Raise TypeError).
Proof.
  intros K rad mat res g ar c self Hc Hself Hsup.
  destruct (new_Ok K _ _ _ _ _ _ Hc) as (gv & rv & Hg & Hr & _ & _ & Hrad & _).
  subst c.
  assert (H0 := supported_nonzero self Hsup). apply Z.eqb_neq in H0.
  unfold ConductorBundle.__post_init__. rewrite Hr. cbn [bind operand].
  unfold float_div_int. rewrite H0. cbn [bind].
  destruct (spacing_supported self "inductance" gv (or_introl eq_refl) Hsup Hg)
    as [vL ->].
  cbn [bind]. split.
  - intros Hsome. destruct rad as [r|]; [|contradiction].
    destruct (spacing_supported self "capacitance" r (or_intror eq_refl) Hsup Hrad)
      as [vC ->].
    eexists. reflexivity.
  - intros ->.
    rewrite (spacing_missing_operand self "capacitance" (or_intror eq_refl) Hsup Hrad).
    reflexivity.
Qed.

Lemma X8_bundling_needs_a_radius_witness :
  (exists b : ConductorBundle.t,
      ConductorBundle.__post_init__ (cardinal_pair "flat") = Ok b)
  /\ ConductorBundle.__post_init__
       {| ConductorBundle.n := 2;
          ConductorBundle.spacing := 4572 / 10000;
          ConductorBundle.conductor := no_radius;
          ConductorBundle.layout := "circular" |} = Raise TypeError.
Proof.
  split.
  - apply (X8_bundling_needs_a_radius example_const (Some (1519 / 100000))
             (Some "ACSR"%string) (Some (23 / 1000)) (Some (12253 / 1000000)) None
             cardinal (cardinal_pair "flat") new_cardinal eq_refl).
    + left. reflexivity.
    + discriminate.
  - apply (X8_bundling_needs_a_radius example_const None None
             (Some (23 / 1000)) (Some (12253 / 1000000)) None no_radius
             {| ConductorBundle.n := 2;
                ConductorBundle.spacing := 4572 / 10000;
                ConductorBundle.conductor := no_radius;
                ConductorBundle.layout := "circular" |} eq_refl eq_refl).
    + left. reflexivity.
    + reflexivity.
Defined.

(** ** The five formulas as functions of the lengths *)

Section SpacingFormula.

Lemma Rpower_lt_iff (x y e : R) :
  0 < x -> 0 < y -> 0 < e -> (x < y <-> Rpower x e < Rpower y e).
Proof.
  intros Hx Hy He. split.
  - intros Hlt. apply Rlt_Rpower_l; lra.
  - intros Hlt. destruct (Rlt_dec x y) as [H|H]; [exact H|].
    exfalso. assert (Hle : Rpower y e <= Rpower x e) by (apply Rle_Rpower_l; lra).
    lra.
Qed.

Lemma Rpower_of_pow (k e : R) (m : nat) :
  0 < k -> Rpower (k ^ m) e = Rpower k (INR m * e).
Proof.
  intros Hk. rewrite <- (Rpower_pow m k Hk). apply Rpower_mult.
Qed.

(** The root of [k ^ m] times a positive number. *)
Lemma Rpower_scaled (k x e : R) (m : nat) :
  0 < k -> 0 < x ->
  Rpower (k ^ m * x) e = Rpower k (INR m * e) * Rpower x e.
Proof.
  intros Hk Hx. rewrite <- Rpower_of_pow by exact Hk.
  apply eq_sym, Rpower_mult_distr; [apply pow_lt; exact Hk | exact Hx].
Qed.

Lemma spacing_formula_positive (n : Z) (layout : string) (d s : R) :
  0 < spacing_formula n layout d s.
Proof.
  unfold spacing_formula.
  destruct (n =? 2)%Z; [unfold Rpower; apply exp_pos|].
  destruct (String.eqb layout "circular"); destruct (n =? 3)%Z;
    unfold Rpower; apply exp_pos.
Qed.

Lemma spacing_formula_increasing (n : Z) (layout : string) (d1 d2 s : R) :
  0 < d1 -> 0 < d2 -> 0 < s ->
  (d1 < d2 <-> spacing_formula n layout d1 s < spacing_formula n layout d2 s).
Proof.
  intros H1 H2 Hs. unfold spacing_formula.
  assert (Hs2 : 0 < s ^ 2) by (apply pow_lt; exact Hs).
  assert (Hs3 : 0 < s ^ 3) by (apply pow_lt; exact Hs).
  assert (Hr2 : 0 < Rpower 2 (1 / 2)) by (unfold Rpower; apply exp_pos).
  assert (Hc : 0 < s ^ 3 * Rpower 2 (1 / 2)) by (apply Rmult_lt_0_compat; assumption).
  destruct (n =? 2)%Z;
    [|destruct (String.eqb layout "circular"); destruct (n =? 3)%Z].
  - rewrite <- Rpower_lt_iff; [|nra|nra|lra]. split; intros H; nra.
  - rewrite <- Rpower_lt_iff; [|nra|nra|lra]. split; intros H; nra.
  - rewrite !(Rmult_assoc _ (s ^ 3)).
    rewrite <- Rpower_lt_iff; [|nra|nra|lra]. split; intros H; nra.
  - rewrite <- Rpower_lt_iff; [|nra|nra|lra]. split; intros H; nra.
  - rewrite <- Rpower_lt_iff; [|nra|nra|lra]. split; intros H; nra.
Qed.

(** With two conductors, and with three on a circle, the equivalent spacing
    lies between the conductor distance and the spacing. *)
Lemma spacing_formula_between (n : Z) (d s : R) :
  n = 2%Z \/ n = 3%Z -> 0 < d <= s ->
  d <= spacing_formula n "circular" d s <= s.
Proof.
  intros Hn [Hd Hds]. unfold spacing_formula.
  destruct Hn as [-> | ->]; cbn [Z.eqb Pos.eqb String.eqb Ascii.eqb Bool.eqb].
  - assert (E : forall x, 0 < x -> Rpower (x * x) (1 / 2) = x).
    { intros x Hx. rewrite <- Rpower_mult_distr by assumption.
      apply Rpower_half_sq. exact Hx. }
    split.
    + rewrite <- (E d Hd) at 1. apply Rle_Rpower_l; [lra | nra].
    + rewrite <- (E s) at 2 by lra. apply Rle_Rpower_l; [lra | nra].
  - assert (Hdd : 0 < d * d) by nra.
    assert (Hss : d * d <= s * s) by nra.
    assert (Hlo : d * d * d <= d * s ^ 2).
    { rewrite Rmult_assoc. apply Rmult_le_compat_l; [lra|]. simpl. lra. }
    assert (Hhi : d * s ^ 2 <= s * s * s).
    { rewrite (Rmult_assoc s). apply Rmult_le_compat; [lra | simpl; nra | lra | simpl; lra]. }
    split.
    + rewrite <- (Rpower_cube_third d Hd) at 1. apply Rle_Rpower_l; [lra|].
      split; [nra | exact Hlo].
    + rewrite <- (Rpower_cube_third s) at 2 by lra.
      apply Rle_Rpower_l; [lra|]. split; [|exact Hhi].
      apply Rmult_lt_0_compat; [lra | apply pow_lt; lra].
Qed.

(** Every length multiplied by [k]: the equivalent spacing is multiplied by
    [k], except in the last formula (four conductors in a flat layout), where
    it is multiplied by [sqrt k]. *)
Lemma spacing_formula_scaled (n : Z) (layout : string) (k d s : R) :
  0 < k -> 0 < d -> 0 < s ->
  spacing_formula n layout (k * d) (k * s)
  = (if (n =? 2)%Z then k
     else if String.eqb layout "circular" then k
     else if (n =? 3)%Z then k else sqrt k)
    * spacing_formula n layout d s.
Proof.
  intros Hk Hd Hs. unfold spacing_formula.
  assert (Hs2 : 0 < s ^ 2) by (apply pow_lt; exact Hs).
  assert (Hs3 : 0 < s ^ 3) by (apply pow_lt; exact Hs).
  assert (Hr2 : 0 < Rpower 2 (1 / 2)) by (unfold Rpower; apply exp_pos).
  assert (Hc : 0 < s ^ 3 * Rpower 2 (1 / 2)) by (apply Rmult_lt_0_compat; assumption).
  assert (E1 : forall m e, INR m * e = 1 -> Rpower k (INR m * e) = k).
  { intros m e ->. apply Rpower_1. exact Hk. }
  destruct (n =? 2)%Z;
    [|destruct (String.eqb layout "circular"); destruct (n =? 3)%Z].
  - replace (k * d * (k * s)) with (k ^ 2 * (d * s)) by ring.
    rewrite Rpower_scaled by nra. rewrite E1 by (simpl; lra). reflexivity.
  - replace (k * d * (k * s) ^ 2) with (k ^ 3 * (d * s ^ 2)) by ring.
    rewrite Rpower_scaled by nra. rewrite E1 by (simpl; lra). reflexivity.
  - replace (k * d * (k * s) ^ 3 * Rpower 2 (1 / 2))
      with (k ^ 4 * (d * s ^ 3 * Rpower 2 (1 / 2))) by ring.
    rewrite Rpower_scaled by nra. rewrite E1 by (simpl; lra). reflexivity.
  - replace (k * d * 2 * (k * s) ^ 2) with (k ^ 3 * (d * 2 * s ^ 2)) by ring.
    rewrite Rpower_scaled by nra. rewrite E1 by (simpl; lra). reflexivity.
  - replace (k * d * 12 * (k * s) ^ 3) with (k ^ 4 * (d * 12 * s ^ 3)) by ring.
    rewrite Rpower_scaled by nra.
    replace (INR 4 * (1 / 8)) with (/ 2) by (simpl; lra).
    rewrite Rpower_sqrt by exact Hk. reflexivity.
Qed.

End SpacingFormula.

(** The shape of a bundle constructed from positive numbers. *)
Lemma bundle_positive_shape (self : ConductorBundle.fields) (b : ConductorBundle.t)
    (g r : R) :
  ConductorBundle.__post_init__ self = Ok b ->
  Conductor.gmr (ConductorBundle.conductor self) = Some g ->
  Conductor.radius (ConductorBundle.conductor self) = Some r ->
  0 < g -> 0 < r -> 0 < ConductorBundle.spacing self ->
  supported self /\
  ConductorBundle.spacing_L b
  = PyFloat (spacing_formula (ConductorBundle.n self) (ConductorBundle.layout self)
               g (ConductorBundle.spacing self)) /\
  ConductorBundle.spacing_C b
  = PyFloat (spacing_formula (ConductorBundle.n self) (ConductorBundle.layout self)
               r (ConductorBundle.spacing self)) /\
  exists res : R,
    Conductor.resistance_per_km (ConductorBundle.conductor self) = Some res /\
    ConductorBundle.resistance_per_km b = res / IZR (ConductorBundle.n self).
Proof.
  intros Hb Hg Hr Hgpos Hrpos Hspos.
  destruct (bundle_Ok self b Hb) as (_ & _ & (res & Hres & Hq) & HL & _).
  destruct (spacing_Ok self _ _ (or_introl eq_refl) HL) as (Hsup & _).
  rewrite (bundle_built self res g r Hsup Hres Hg Hr Hgpos Hrpos Hspos) in Hb.
  injection Hb as <-. cbn [ConductorBundle.spacing_L ConductorBundle.spacing_C
                           ConductorBundle.resistance_per_km].
  repeat split; try assumption. exists res. split; [assumption | reflexivity].
Qed.

(** X9.  A bundle constructed from a positive GMR, radius and spacing has
    positive floats for [spacing_L] and [spacing_C], and they are ordered as
    the GMR and the radius are: [spacing_L < spacing_C] exactly when
    [gmr < radius]. *)
Theorem X9_spacings_positive_and_ordered :
  forall (self : ConductorBundle.fields) (b : ConductorBundle.t) (g r : R),
    ConductorBundle.__post_init__ self = Ok b ->
    Conductor.gmr (ConductorBundle.conductor self) = Some g ->
    Conductor.radius (ConductorBundle.conductor self) = Some r ->
    0 < g -> 0 < r -> 0 < ConductorBundle.spacing self ->
    exists sL sC : R,
      ConductorBundle.spacing_L b = PyFloat sL /\
      ConductorBundle.spacing_C b = PyFloat sC /\
      0 < sL /\ 0 < sC /\ (g < r <-> sL < sC).
Proof.
  intros self b g r Hb Hg Hr Hgpos Hrpos Hspos.
  destruct (bundle_positive_shape self b g r Hb Hg Hr Hgpos Hrpos Hspos)
    as (_ & HL & HC & _).
  eexists _, _. split; [exact HL|]. split; [exact HC|].
  split; [apply spacing_formula_positive|]. split; [apply spacing_formula_positive|].
  apply spacing_formula_increasing; assumption.
Qed.

Lemma X9_spacings_positive_and_ordered_witness :
  exists sL sC : R,
    ConductorBundle.spacing_L cardinal_bundle = PyFloat sL /\
    ConductorBundle.spacing_C cardinal_bundle = PyFloat sC /\
    0 < sL /\ 0 < sC /\ (12253 / 1000000 < 1519 / 100000 <-> sL < sC).
Proof.
  apply (X9_spacings_positive_and_ordered (cardinal_pair "circular") cardinal_bundle
           (12253 / 1000000) (1519 / 100000) new_cardinal_bundle eq_refl eq_refl).
  - lra.
  - lra.
  - simpl. lra.
Defined.

(** X10.  In a bundle of two conductors, and in a circular bundle of three,
    each equivalent spacing lies between the conductor distance it is
    computed from and the spacing of the bundle, when the former is positive
    and not larger than the latter. *)
Theorem X10_spacing_between_conductor_and_bundle :
  forall (self : ConductorBundle.fields) (b : ConductorBundle.t) (g r : R),
    ConductorBundle.n self = 2%Z \/
    (ConductorBundle.n self = 3%Z /\
     ConductorBundle.layout self = "circular"%string) ->
    ConductorBundle.__post_init__ self = Ok b ->
    Conductor.gmr (ConductorBundle.conductor self) = Some g ->
    Conductor.radius (ConductorBundle.conductor self) = Some r ->
    0 < g <= ConductorBundle.spacing self ->
    0 < r <= ConductorBundle.spacing self ->
    exists sL sC : R,
      ConductorBundle.spacing_L b = PyFloat sL /\
      ConductorBundle.spacing_C b = PyFloat sC /\
      g <= sL <= ConductorBundle.spacing self /\
      r <= sC <= ConductorBundle.spacing self.
Proof.
  intros self b g r Hn Hb Hg Hr Hgs Hrs.
  assert (Hspos : 0 < ConductorBundle.spacing self) by lra.
  destruct (bundle_positive_shape self b g r Hb Hg Hr) as (_ & HL & HC & _);
    [lra | lra | exact Hspos |].
  assert (E : forall d,
             spacing_formula (ConductorBundle.n self) (ConductorBundle.layout self)
               d (ConductorBundle.spacing self)
             = spacing_formula (ConductorBundle.n self) "circular"
                 d (ConductorBundle.spacing self)).
  { intros d. destruct Hn as [Hn | [Hn Hlay]].
    - unfold spacing_formula. rewrite Hn. reflexivity.
    - rewrite Hlay. reflexivity. }
  assert (Hn' : ConductorBundle.n self = 2%Z \/ ConductorBundle.n self = 3%Z) by tauto.
  eexists _, _. split; [exact HL|]. split; [exact HC|].
  rewrite !E. split; apply spacing_formula_between; assumption.
Qed.

Lemma X10_spacing_between_conductor_and_bundle_witness :
  exists sL sC : R,
    ConductorBundle.spacing_L cardinal_bundle = PyFloat sL /\
    ConductorBundle.spacing_C cardinal_bundle = PyFloat sC /\
    12253 / 1000000 <= sL <= 4572 / 10000 /\
    1519 / 100000 <= sC <= 4572 / 10000.
Proof.
  apply (X10_spacing_between_conductor_and_bundle (cardinal_pair "circular")
           cardinal_bundle (12253 / 1000000) (1519 / 100000)
           (or_introl eq_refl) new_cardinal_bundle eq_refl eq_refl).
  - simpl. lra.
  - simpl. lra.
Defined.

(** The equivalent spacing of the table is a root: raised to the power of
    the count it gives the conductor distance times the spacing to the power
    of the count less one. *)
Lemma spacing_formula_is_root (n : Z) (d s : R) :
  n = 2%Z \/ n = 3%Z -> 0 < d -> 0 < s ->
  spacing_formula n "circular" d s ^ Z.to_nat n = d * s ^ Z.to_nat (n - 1).
Proof.
  intros Hn Hd Hs. unfold spacing_formula.
  destruct Hn as [-> | ->]; cbn [Z.eqb Pos.eqb String.eqb Ascii.eqb Bool.eqb].
  - change (Z.to_nat 2) with 2%nat. change (Z.to_nat (2 - 1)) with 1%nat.
    assert (Hds : 0 < d * s) by (apply Rmult_lt_0_compat; assumption).
    pose proof (Rpower_half_sq (d * s) Hds) as E. simpl. rewrite !Rmult_1_r. exact E.
  - change (Z.to_nat 3) with 3%nat. change (Z.to_nat (3 - 1)) with 2%nat.
    apply Rpower_third_cubed.
    apply Rmult_lt_0_compat; [exact Hd | apply pow_lt; exact Hs].
Qed.

(** X6.  What test_conductor_bundle computes, read as an equation between
    real numbers (floats idealised): in a bundle of two conductors, and in a
    circular bundle of three, constructed from a positive GMR, radius and
    spacing, [spacing_L] is the positive [n]-th root of
    [gmr * spacing ** (n - 1)], that is
    [spacing_L ** n = gmr * spacing ** (n - 1)], and [spacing_C] is the
    positive [n]-th root of [radius * spacing ** (n - 1)]. *)
Theorem X6_spacing_is_nth_root :
  forall (self : ConductorBundle.fields) (b : ConductorBundle.t) (g r : R),
    ConductorBundle.n self = 2%Z \/
    (ConductorBundle.n self = 3%Z /\
     ConductorBundle.layout self = "circular"%string) ->
    ConductorBundle.__post_init__ self = Ok b ->
    Conductor.gmr (ConductorBundle.conductor self) = Some g ->
    Conductor.radius (ConductorBundle.conductor self) = Some r ->
    0 < g -> 0 < r -> 0 < ConductorBundle.spacing self ->
    let n := Z.to_nat (ConductorBundle.n self) in
    let s := ConductorBundle.spacing self in
    exists sL sC : R,
      ConductorBundle.spacing_L b = PyFloat sL /\
      ConductorBundle.spacing_C b = PyFloat sC /\
      0 < sL /\ 0 < sC /\
      sL ^ n = g * s ^ (n - 1) /\
      sC ^ n = r * s ^ (n - 1).
Proof.
  intros self b g r Hn Hb Hg Hr Hgpos Hrpos Hspos n s. subst n s.
  destruct (bundle_positive_shape self b g r Hb Hg Hr Hgpos Hrpos Hspos)
    as (_ & HL & HC & _).
  assert (E : forall d,
             spacing_formula (ConductorBundle.n self) (ConductorBundle.layout self)
               d (ConductorBundle.spacing self)
             = spacing_formula (ConductorBundle.n self) "circular"
                 d (ConductorBundle.spacing self)).
  { intros d. destruct Hn as [Hn | [Hn Hlay]].
    - unfold spacing_formula. rewrite Hn. reflexivity.
    - rewrite Hlay. reflexivity. }
  assert (Hn' : ConductorBundle.n self = 2%Z \/ ConductorBundle.n self = 3%Z) by tauto.
  assert (Hpred : (Z.to_nat (ConductorBundle.n self) - 1)%nat
                  = Z.to_nat (ConductorBundle.n self - 1)).
  { destruct Hn' as [-> | ->]; reflexivity. }
  eexists _, _. split; [exact HL|]. split; [exact HC|].
  split; [apply spacing_formula_positive|]. split; [apply spacing_formula_positive|].
  rewrite !E, Hpred. split; apply spacing_formula_is_root; assumption.
Qed.

Lemma X6_spacing_is_nth_root_witness :
  exists sL sC : R,
    ConductorBundle.spacing_L cardinal_bundle = PyFloat sL /\
    ConductorBundle.spacing_C cardinal_bundle = PyFloat sC /\
    0 < sL /\ 0 < sC /\
    sL ^ 2 = 12253 / 1000000 * (4572 / 10000) ^ (2 - 1) /\
    sC ^ 2 = 1519 / 100000 * (4572 / 10000) ^ (2 - 1).
Proof.
  apply (X6_spacing_is_nth_root (cardinal_pair "circular") cardinal_bundle
           (12253 / 1000000) (1519 / 100000) (or_introl eq_refl)
           new_cardinal_bundle eq_refl eq_refl).
  - lra.
  - lra.
  - simpl. lra.
Defined.

(** X11.  The same bundle measured in another unit ([k] times the GMR, the
    radius and the spacing, [k] positive) is built as well, with the same
    resistance; its two equivalent spacings are [k] times the former ones,
    except for four conductors in a flat layout, where they are [sqrt k]
    times the former ones. *)
Theorem X11_spacings_under_change_of_unit :
  forall (self : ConductorBundle.fields) (b : ConductorBundle.t) (g r k : R),
    ConductorBundle.__post_init__ self = Ok b ->
    Conductor.gmr (ConductorBundle.conductor self) = Some g ->
    Conductor.radius (ConductorBundle.conductor self) = Some r ->
    0 < g -> 0 < r -> 0 < ConductorBundle.spacing self -> 0 < k ->
    exists (b' : ConductorBundle.t) (factor : R),
      ConductorBundle.__post_init__ (scale_fields k self) = Ok b' /\
      ConductorBundle.resistance_per_km b' = ConductorBundle.resistance_per_km b /\
      ConductorBundle.spacing_L b' = py_scale factor (ConductorBundle.spacing_L b) /\
      ConductorBundle.spacing_C b' = py_scale factor (ConductorBundle.spacing_C b) /\
      (ConductorBundle.n self = 4%Z /\ ConductorBundle.layout self = "flat"%string ->
       factor = sqrt k) /\
      (~ (ConductorBundle.n self = 4%Z /\ ConductorBundle.layout self = "flat"%string) ->
       factor = k).
Proof.
  intros self b g r k Hb Hg Hr Hgpos Hrpos Hspos Hk.
  destruct (bundle_positive_shape self b g r Hb Hg Hr Hgpos Hrpos Hspos)
    as (Hsup & HL & HC & res & Hres & Hq).
  assert (Hsup' : supported (scale_fields k self)) by exact Hsup.
  assert (Hg' : Conductor.gmr (ConductorBundle.conductor (scale_fields k self))
                = Some (k * g)) by (simpl; rewrite Hg; reflexivity).
  assert (Hr' : Conductor.radius (ConductorBundle.conductor (scale_fields k self))
                = Some (k * r)) by (simpl; rewrite Hr; reflexivity).
  assert (Hs' : 0 < ConductorBundle.spacing (scale_fields k self))
    by (simpl; apply Rmult_lt_0_compat; assumption).
  assert (Hkg : 0 < k * g) by (apply Rmult_lt_0_compat; assumption).
  assert (Hkr : 0 < k * r) by (apply Rmult_lt_0_compat; assumption).
  pose proof (bundle_built (scale_fields k self) res (k * g) (k * r)
                Hsup' Hres Hg' Hr' Hkg Hkr Hs') as Hb'.
  cbn [scale_fields ConductorBundle.n ConductorBundle.layout ConductorBundle.spacing]
    in Hb'.
  rewrite !spacing_formula_scaled in Hb' by assumption.
  eexists _, _. split; [exact Hb'|].
  cbn [ConductorBundle.resistance_per_km ConductorBundle.spacing_L
       ConductorBundle.spacing_C].
  rewrite HL, HC, Hq. cbn [py_scale].
  split; [reflexivity|]. split; [reflexivity|]. split; [reflexivity|].
  unfold supported in Hsup. split.
  - intros [-> ->]. reflexivity.
  - intros Hnot.
    destruct (Z.eqb_spec (ConductorBundle.n self) 2%Z) as [H2|H2]; [reflexivity|].
    destruct (String.eqb_spec (ConductorBundle.layout self) "circular") as [Hc|Hc];
      [reflexivity|].
    destruct (Z.eqb_spec (ConductorBundle.n self) 3%Z) as [H3|H3]; [reflexivity|].
    exfalso. apply Hnot. tauto.
Qed.

Lemma X11_spacings_under_change_of_unit_witness :
  exists (b' : ConductorBundle.t) (factor : R),
    ConductorBundle.__post_init__ (scale_fields 1000 (cardinal_pair "circular"))
    = Ok b' /\
    ConductorBundle.resistance_per_km b'
    = ConductorBundle.resistance_per_km cardinal_bundle /\
    ConductorBundle.spacing_L b'
    = py_scale factor (ConductorBundle.spacing_L cardinal_bundle) /\
    ConductorBundle.spacing_C b'
    = py_scale factor (ConductorBundle.spacing_C cardinal_bundle) /\
    (2%Z = 4%Z /\ "circular"%string = "flat"%string -> factor = sqrt 1000) /\
    (~ (2%Z = 4%Z /\ "circular"%string = "flat"%string) -> factor = 1000).
Proof.
  apply (X11_spacings_under_change_of_unit (cardinal_pair "circular")
           cardinal_bundle (12253 / 1000000) (1519 / 100000) 1000
           new_cardinal_bundle eq_refl eq_refl).
  - lra.
  - lra.
  - simpl. lra.
  - lra.
Defined.

(** * Further properties of Tower *)

Section TowerValues.
Variable K : const.t.

(** Everything a constructed tower tells about its inputs and holds. *)
Lemma tower_values (locations : PhaseLocations.t) (bundle : ConductorBundle.t)
    (circuits : Z) (freq : R) (t : Tower.t) :
  Tower.__post_init__ K locations bundle circuits freq = Ok t ->
  let a := PhaseLocations.a locations in
  let b := PhaseLocations.b locations in
  let c := PhaseLocations.c locations in
  let ed := geometric_mean (distance a b) (distance a c) (distance b c) in
  let er := geometric_mean (reflected a b) (reflected a c) (reflected b c) in
  let eh := geometric_mean (snd a) (snd b) (snd c) in
  exists sL sC : R,
    ConductorBundle.spacing_L bundle = PyFloat sL /\
    ConductorBundle.spacing_C bundle = PyFloat sC /\
    0 < sL /\ 0 < sC /\ circuits = 1%Z /\
    0 < distance a b * distance a c * distance b c /\
    0 < reflected a b * reflected a c * reflected b c /\
    0 < snd a * snd b * snd c /\
    ed / sC <> er / (2 * eh) /\
    Tower.inductance t = const.mu_0 K / (2 * PI) * ln (ed / sL) /\
    Tower.capacitance t
    = 2 * PI * const.epsilon_0 K / (ln (ed / sC) - ln (er / (2 * eh))) /\
    Tower.resistance t = ConductorBundle.resistance_per_km bundle.
Proof.
  intros Ht a b c ed er eh.
  destruct (tower_geometry K _ _ _ _ _ Ht) as (HP & HQ & HH & Hed & Her & Heh).
  destruct (tower_Ok K _ _ _ _ _ Ht) as (Hc & _ & Hres & Hind & Hcap & _).
  apply inductance_Ok in Hind.
  destruct Hind as (ed1 & sL & Hed1 & HsL & _ & Hq1 & Hind).
  apply capacitance_Ok in Hcap.
  destruct Hcap as (ed2 & sC & er2 & eh2 & Hed2 & HsC & Her2 & Heh2 & _ & _
                    & Hq2 & _ & Hden & Hcap).
  fold a b c in HP, HQ, HH, Hed, Her, Heh. fold ed in Hed. fold er in Her.
  fold eh in Heh.
  rewrite Hed in Hed1, Hed2. rewrite Her in Her2. rewrite Heh in Heh2.
  injection Hed1 as <-. injection Hed2 as <-. injection Her2 as <-.
  injection Heh2 as <-.
  assert (Hedpos : 0 < ed) by (unfold ed, geometric_mean, Rpower; apply exp_pos).
  exists sL, sC. repeat split; try assumption.
  - exact (positive_divisor ed sL Hedpos Hq1).
  - exact (positive_divisor ed sC Hedpos Hq2).
  - intros E. apply Hden. rewrite E. lra.
Qed.

(** A built tower, with its inductance and capacitance. *)
Lemma tower_built_values (locations : PhaseLocations.t)
    (bundle : ConductorBundle.t) (freq sL sC : R) :
  let a := PhaseLocations.a locations in
  let b := PhaseLocations.b locations in
  let c := PhaseLocations.c locations in
  let ed := geometric_mean (distance a b) (distance a c) (distance b c) in
  let er := geometric_mean (reflected a b) (reflected a c) (reflected b c) in
  let eh := geometric_mean (snd a) (snd b) (snd c) in
  ConductorBundle.spacing_L bundle = PyFloat sL ->
  ConductorBundle.spacing_C bundle = PyFloat sC ->
  0 < sL -> 0 < sC ->
  0 < distance a b * distance a c * distance b c ->
  0 < reflected a b * reflected a c * reflected b c ->
  0 < snd a * snd b * snd c ->
  ed / sC <> er / (2 * eh) ->
  exists t : Tower.t,
    Tower.__post_init__ K locations bundle 1 freq = Ok t /\
    Tower.inductance t = const.mu_0 K / (2 * PI) * ln (ed / sL) /\
    Tower.capacitance t
    = 2 * PI * const.epsilon_0 K / (ln (ed / sC) - ln (er / (2 * eh))).
Proof.
  intros a b c ed er eh HsL HsC HsLpos HsCpos HP HQ HH Hne.
  destruct (tower_built K locations bundle freq sL sC HsL HsC HsLpos HsCpos
              HP HQ HH Hne) as [t Ht].
  exists t. split; [exact Ht|].
  destruct (tower_values _ _ _ _ _ Ht)
    as (sL' & sC' & HsL' & HsC' & _ & _ & _ & _ & _ & _ & _ & Hind & Hcap & _).
  rewrite HsL in HsL'. injection HsL' as <-.
  rewrite HsC in HsC'. injection HsC' as <-.
  split; assumption.
Qed.

End TowerValues.

Section TowerOutcomes.
Variable K : const.t.

Lemma pow_third_zero : pow_third 0 = PyFloat 0.
Proof.
  unfold pow_third. destruct (Rlt_dec 0 0); [lra|].
  destruct (Req_EM_T 0 0); [reflexivity | contradiction].
Qed.

(** The cube root of a negative number is a complex number other than 0. *)
Lemma pow_third_negative (x : R) :
  x < 0 -> exists re im : R, pow_third x = PyComplex re im /\ re * re + im * im <> 0.
Proof.
  intros Hx. unfold pow_third.
  destruct (Rlt_dec 0 x); [lra|]. destruct (Req_EM_T x 0); [lra|].
  eexists _, _. split; [reflexivity|].
  set (m := Rpower (- x) (1 / 3)). set (u := PI * (1 / 3)).
  assert (Hm : 0 < m) by (unfold m, Rpower; apply exp_pos).
  pose proof (sin2_cos2 u) as E. unfold Rsqr in E.
  replace (m * cos u * (m * cos u) + m * sin u * (m * sin u))
    with (m * m * (sin u * sin u + cos u * cos u)) by ring.
  rewrite E. nra.
Qed.

Lemma math_log_of_zero (y : R) : math_log (PyFloat (0 / y)) = Raise ValueError.
Proof.
  simpl. destruct (Rlt_dec 0 (0 / y)) as [H|_]; [|reflexivity].
  unfold Rdiv in H. rewrite Rmult_0_l in H. lra.
Qed.

Variables (bundle : ConductorBundle.t) (sL sC : R).
Hypothesis spacing_L_float : ConductorBundle.spacing_L bundle = PyFloat sL.
Hypothesis spacing_C_float : ConductorBundle.spacing_C bundle = PyFloat sC.
Hypothesis spacing_L_positive : 0 < sL.
Hypothesis spacing_C_positive : 0 < sC.

Variable d : Tower.distances.
Variables P Q H : R.
Hypothesis equivalent_distance_d : Tower.equivalent_distance d = pow_third P.
Hypothesis equivalent_reflected_d :
  Tower.equivalent_reflected_distance d = pow_third Q.
Hypothesis equivalent_height_d : Tower.equivalent_height d = pow_third H.
Hypothesis P_nonneg : 0 <= P.
Hypothesis Q_nonneg : 0 <= Q.

Lemma inductance_of_coincident :
  P = 0 -> Tower.calculate_inductance_per_km K d bundle = Raise ValueError.
Proof.
  intros ->. unfold Tower.calculate_inductance_per_km.
  rewrite equivalent_distance_d, spacing_L_float, pow_third_zero.
  rewrite py_div_floats by lra. cbn [bind]. rewrite math_log_of_zero. reflexivity.
Qed.

Lemma inductance_of_distinct :
  0 < P ->
  Tower.calculate_inductance_per_km K d bundle
  = Ok (const.mu_0 K / (2 * PI) * ln (Rpower P (1 / 3) / sL)).
Proof.
  intros HP. unfold Tower.calculate_inductance_per_km.
  rewrite equivalent_distance_d, spacing_L_float, pow_third_positive by exact HP.
  rewrite py_div_floats by lra. cbn [bind].
  rewrite math_log_positive; [reflexivity|].
  apply Rdiv_lt_0_compat; [unfold Rpower; apply exp_pos | exact spacing_L_positive].
Qed.

(** The first quotient and logarithm of the capacitance, which succeed as
    those of the inductance do. *)
Lemma capacitance_after_first_log :
  0 < P ->
  Tower.calculate_shunt_capacitance_per_km K d bundle =
  let* q' := py_div (pow_third Q) (py_scale 2 (pow_third H)) in
  let* l2 := math_log q' in
  float_div (2 * PI * const.epsilon_0 K) (ln (Rpower P (1 / 3) / sC) - l2).
Proof.
  intros HP. unfold Tower.calculate_shunt_capacitance_per_km.
  rewrite equivalent_distance_d, equivalent_reflected_d, equivalent_height_d.
  rewrite spacing_C_float, pow_third_positive by exact HP.
  rewrite py_div_floats by lra. cbn [bind].
  rewrite math_log_positive; [reflexivity|].
  apply Rdiv_lt_0_compat; [unfold Rpower; apply exp_pos | exact spacing_C_positive].
Qed.

Lemma pow_third_of_nonneg : exists v : R, pow_third Q = PyFloat v.
Proof.
  unfold pow_third. destruct (Rlt_dec 0 Q); [eexists; reflexivity|].
  destruct (Req_EM_T Q 0); [eexists; reflexivity | lra].
Qed.

Lemma capacitance_on_the_ground :
  0 < P -> H = 0 ->
  Tower.calculate_shunt_capacitance_per_km K d bundle = Raise ZeroDivisionError.
Proof.
  intros HP HH. rewrite capacitance_after_first_log by exact HP.
  rewrite HH, pow_third_zero. destruct pow_third_of_nonneg as [v ->].
  cbn [py_scale py_div bind]. replace (2 * 0) with 0 by ring.
  rewrite float_div_zero. reflexivity.
Qed.

Lemma capacitance_below_ground :
  0 < P -> H < 0 ->
  Tower.calculate_shunt_capacitance_per_km K d bundle = Raise TypeError.
Proof.
  intros HP HH. rewrite capacitance_after_first_log by exact HP.
  destruct (pow_third_negative H HH) as (re & im & -> & Hne).
  destruct pow_third_of_nonneg as [v ->].
  cbn [py_scale py_div bind].
  destruct (Req_EM_T (2 * re * (2 * re) + 2 * im * (2 * im)) 0) as [E|_];
    [exfalso; apply Hne; nra|].
  reflexivity.
Qed.

Lemma capacitance_of_mirrored :
  0 < P -> 0 < H -> Q = 0 ->
  Tower.calculate_shunt_capacitance_per_km K d bundle = Raise ValueError.
Proof.
  intros HP HH HQ. rewrite capacitance_after_first_log by exact HP.
  rewrite HQ, pow_third_zero, pow_third_positive by exact HH.
  cbn [py_scale].
  assert (0 < Rpower H (1 / 3)) by (unfold Rpower; apply exp_pos).
  rewrite py_div_floats by lra. cbn [bind]. rewrite math_log_of_zero. reflexivity.
Qed.

Lemma capacitance_above_ground :
  0 < P -> 0 < H -> 0 < Q ->
  Tower.calculate_shunt_capacitance_per_km K d bundle =
  float_div (2 * PI * const.epsilon_0 K)
    (ln (Rpower P (1 / 3) / sC) - ln (Rpower Q (1 / 3) / (2 * Rpower H (1 / 3)))).
Proof.
  intros HP HH HQ. rewrite capacitance_after_first_log by exact HP.
  rewrite !pow_third_positive by assumption. cbn [py_scale].
  assert (0 < Rpower H (1 / 3)) by (unfold Rpower; apply exp_pos).
  assert (0 < Rpower Q (1 / 3)) by (unfold Rpower; apply exp_pos).
  rewrite py_div_floats by lra. cbn [bind].
  rewrite math_log_positive; [reflexivity|].
  apply Rdiv_lt_0_compat; lra.
Qed.

End TowerOutcomes.

(** X12.  The outcomes of constructing a tower over a bundle whose two
    equivalent spacings are positive floats, with floats idealised as real
    numbers (no overflow, no underflow, no rounding).  Write [P], [Q], [H]
    for the products of the three true distances, of the three reflected
    distances and of the three heights.  A built tower means [circuits = 1],
    three positive products and two different logarithms in the capacitance.
    A ValueError means that [circuits] is not 1, or [P = 0] (two phases
    coincide), or [P] and [H] are positive and [Q = 0]; a ZeroDivisionError
    means [H = 0] (a phase on the ground) or two equal logarithms; a
    TypeError means [H < 0]; NotImplementedError is never raised.  The
    conditions exclude one another and leave no case out, so over the real
    numbers each outcome occurs exactly under its condition. *)
Theorem X12_tower_outcomes :
  forall (K : const.t) (locations : PhaseLocations.t) (bundle : ConductorBundle.t)
         (circuits : Z) (freq sL sC : R),
    ConductorBundle.spacing_L bundle = PyFloat sL ->
    ConductorBundle.spacing_C bundle = PyFloat sC ->
    0 < sL -> 0 < sC ->
    let a := PhaseLocations.a locations in
    let b := PhaseLocations.b locations in
    let c := PhaseLocations.c locations in
    let P := distance a b * distance a c * distance b c in
    let Q := reflected a b * reflected a c * reflected b c in
    let H := snd a * snd b * snd c in
    let ed := geometric_mean (distance a b) (distance a c) (distance b c) in
    let er := geometric_mean (reflected a b) (reflected a c) (reflected b c) in
    let eh := geometric_mean (snd a) (snd b) (snd c) in
    match Tower.__post_init__ K locations bundle circuits freq with
    | Ok _ =>
        circuits = 1%Z /\ 0 < P /\ 0 < Q /\ 0 < H /\ ed / sC <> er / (2 * eh)
    | Raise ValueError =>
        circuits <> 1%Z \/
        (circuits = 1%Z /\ (P = 0 \/ (0 < P /\ 0 < H /\ Q = 0)))
    | Raise ZeroDivisionError =>
        circuits = 1%Z /\ 0 < P /\
        (H = 0 \/ (0 < H /\ 0 < Q /\ ed / sC = er / (2 * eh)))
    | Raise TypeError => circuits = 1%Z /\ 0 < P /\ H < 0
    | Raise NotImplementedError => False
    end.
Proof.
  intros K locations bundle circuits freq sL sC HsL HsC HsLpos HsCpos
         a b c P Q H ed er eh.
  assert (HP0 : 0 <= P).
  { unfold P. repeat apply Rmult_le_pos; apply distance_nonneg. }
  assert (HQ0 : 0 <= Q).
  { unfold Q. repeat apply Rmult_le_pos; apply reflected_nonneg. }
  unfold Tower.__post_init__.
  destruct (Z.eqb_spec circuits 1%Z) as [Hc|Hc]; cbn [negb]; [|left; exact Hc].
  fold a b c. rewrite calculate_distances_total. cbn [bind]. fold P Q H.
  match goal with
  | |- context [Tower.calculate_inductance_per_km K ?d _] => set (d0 := d)
  end.
  destruct (Req_EM_T P 0) as [HP|HP].
  { rewrite (inductance_of_coincident K bundle sL HsL HsLpos d0 P eq_refl HP0 HP).
    cbn [bind]. right. auto. }
  assert (HPpos : 0 < P) by lra.
  rewrite (inductance_of_distinct K bundle sL HsL HsLpos d0 P eq_refl HPpos).
  cbn [bind].
  destruct (Rlt_dec H 0) as [Hneg|Hnneg].
  { rewrite (capacitance_below_ground K bundle sC HsC HsCpos d0 P Q H
               eq_refl eq_refl eq_refl HQ0 HPpos Hneg).
    cbn [bind]. auto. }
  destruct (Req_EM_T H 0) as [HH|HH].
  { rewrite (capacitance_on_the_ground K bundle sC HsC HsCpos d0 P Q H
               eq_refl eq_refl eq_refl HQ0 HPpos HH).
    cbn [bind]. auto. }
  assert (HHpos : 0 < H) by lra.
  destruct (Req_EM_T Q 0) as [HQ|HQ].
  { rewrite (capacitance_of_mirrored K bundle sC HsC HsCpos d0 P Q H
               eq_refl eq_refl eq_refl HPpos HHpos HQ).
    cbn [bind]. right. auto. }
  assert (HQpos : 0 < Q) by lra.
  rewrite (capacitance_above_ground K bundle sC HsC HsCpos d0 P Q H
             eq_refl eq_refl eq_refl HPpos HHpos HQpos).
  change (Rpower P (1 / 3)) with ed.
  change (Rpower Q (1 / 3)) with er.
  change (Rpower H (1 / 3)) with eh.
  assert (Hed : 0 < ed) by (unfold ed, geometric_mean, Rpower; apply exp_pos).
  assert (Her : 0 < er) by (unfold er, geometric_mean, Rpower; apply exp_pos).
  assert (Heh : 0 < eh) by (unfold eh, geometric_mean, Rpower; apply exp_pos).
  assert (Hq1 : 0 < ed / sC) by (apply Rdiv_lt_0_compat; assumption).
  assert (Hq2 : 0 < er / (2 * eh)) by (apply Rdiv_lt_0_compat; lra).
  unfold float_div.
  destruct (Req_EM_T (ln (ed / sC) - ln (er / (2 * eh))) 0) as [E|E]; cbn [bind].
  - split; [exact Hc|]. split; [exact HPpos|]. right.
    repeat split; try assumption. apply ln_inv; [assumption | assumption | lra].
  - repeat split; try assumption. intros E'. apply E. rewrite E'. lra.
Qed.

Lemma X12_tower_outcomes_witness :
  let a := PhaseLocations.a row_of_phases in
  let b := PhaseLocations.b row_of_phases in
  let c := PhaseLocations.c row_of_phases in
  let P := distance a b * distance a c * distance b c in
  let Q := reflected a b * reflected a c * reflected b c in
  let H := snd a * snd b * snd c in
  let ed := geometric_mean (distance a b) (distance a c) (distance b c) in
  let er := geometric_mean (reflected a b) (reflected a c) (reflected b c) in
  let eh := geometric_mean (snd a) (snd b) (snd c) in
  match Tower.__post_init__ example_const row_of_phases cardinal_bundle 1 60 with
  | Ok _ =>
      1%Z = 1%Z /\ 0 < P /\ 0 < Q /\ 0 < H /\
      ed / sqrt (1519 / 100000 * (4572 / 10000)) <> er / (2 * eh)
  | Raise ValueError =>
      1%Z <> 1%Z \/ (1%Z = 1%Z /\ (P = 0 \/ (0 < P /\ 0 < H /\ Q = 0)))
  | Raise ZeroDivisionError =>
      1%Z = 1%Z /\ 0 < P /\
      (H = 0 \/
       (0 < H /\ 0 < Q /\
        ed / sqrt (1519 / 100000 * (4572 / 10000)) = er / (2 * eh)))
  | Raise TypeError => 1%Z = 1%Z /\ 0 < P /\ H < 0
  | Raise NotImplementedError => False
  end.
Proof.
  apply (X12_tower_outcomes example_const row_of_phases cardinal_bundle 1 60
           (sqrt (12253 / 1000000 * (4572 / 10000)))
           (sqrt (1519 / 100000 * (4572 / 10000))) eq_refl eq_refl).
  - apply sqrt_lt_R0. lra.
  - apply sqrt_lt_R0. lra.
Defined.

Lemma distance_to_itself (p : R * R) : distance p p = 0.
Proof.
  unfold distance.
  replace ((fst p - fst p) ^ 2 + (snd p - snd p) ^ 2) with 0 by ring.
  apply sqrt_0.
Qed.

(** X13.  Two phases at the same position: with [circuits = 1] and a
    [spacing_L] that is a float other than 0, construction raises ValueError
    (the logarithm of the inductance is taken of 0). *)
Theorem X13_coincident_phases_rejected :
  forall (K : const.t) (locations : PhaseLocations.t) (bundle : ConductorBundle.t)
         (freq sL : R),
    ConductorBundle.spacing_L bundle = PyFloat sL ->
    sL <> 0 ->
    PhaseLocations.a locations = PhaseLocations.b locations \/
    PhaseLocations.a locations = PhaseLocations.c locations \/
    PhaseLocations.b locations = PhaseLocations.c locations ->
    Tower.__post_init__ K locations bundle 1 freq = Raise ValueError.
Proof.
  intros K locations bundle freq sL HsL Hne Hsame.
  unfold Tower.__post_init__. cbn [Z.eqb Pos.eqb negb].
  rewrite calculate_distances_total. cbn [bind].
  unfold Tower.calculate_inductance_per_km. cbn [Tower.equivalent_distance].
  replace (distance (PhaseLocations.a locations) (PhaseLocations.b locations)
           * distance (PhaseLocations.a locations) (PhaseLocations.c locations)
           * distance (PhaseLocations.b locations) (PhaseLocations.c locations))
    with 0.
  - rewrite pow_third_zero, HsL, py_div_floats by exact Hne. cbn [bind].
    rewrite math_log_of_zero. reflexivity.
  - destruct Hsame as [E | [E | E]]; rewrite E, distance_to_itself; ring.
Qed.

Lemma X13_coincident_phases_rejected_witness :
  Tower.__post_init__ example_const
    {| PhaseLocations.a := (0, 27);
       PhaseLocations.b := (0, 27);
       PhaseLocations.c := (7, 27) |} cardinal_bundle 1 60 = Raise ValueError.
Proof.
  apply (X13_coincident_phases_rejected example_const _ cardinal_bundle 60
           (sqrt (12253 / 1000000 * (4572 / 10000))) eq_refl).
  - assert (0 < sqrt (12253 / 1000000 * (4572 / 10000))) by (apply sqrt_lt_R0; lra).
    lra.
  - left. reflexivity.
Defined.

Section TowerInvariance.
Variable K : const.t.

(** The inductance and the capacitance read the distances through the three
    equivalent values only. *)
Lemma same_equivalents_same_constants (locations locations' : PhaseLocations.t)
    (bundle : ConductorBundle.t) (circuits : Z) (freq : R) :
  let a := PhaseLocations.a locations in
  let b := PhaseLocations.b locations in
  let c := PhaseLocations.c locations in
  let a' := PhaseLocations.a locations' in
  let b' := PhaseLocations.b locations' in
  let c' := PhaseLocations.c locations' in
  distance a' b' * distance a' c' * distance b' c'
  = distance a b * distance a c * distance b c ->
  reflected a' b' * reflected a' c' * reflected b' c'
  = reflected a b * reflected a c * reflected b c ->
  snd a' * snd b' * snd c' = snd a * snd b * snd c ->
  same_line_constants
    (Tower.__post_init__ K locations bundle circuits freq)
    (Tower.__post_init__ K locations' bundle circuits freq).
Proof.
  intros a b c a' b' c' HP HQ HH.
  unfold Tower.__post_init__.
  destruct (negb (circuits =? 1)%Z); [reflexivity|].
  rewrite !calculate_distances_total. cbn [bind].
  fold a b c a' b' c'. rewrite HP, HQ, HH.
  unfold Tower.calculate_inductance_per_km, Tower.calculate_shunt_capacitance_per_km.
  cbn [Tower.equivalent_distance Tower.equivalent_reflected_distance
       Tower.equivalent_height].
  destruct (py_div (pow_third (distance a b * distance a c * distance b c))
              (ConductorBundle.spacing_L bundle)) as [q|e]; cbn [bind]; [|reflexivity].
  destruct (math_log q) as [l|e]; cbn [bind]; [|reflexivity].
  destruct (py_div (pow_third (distance a b * distance a c * distance b c))
              (ConductorBundle.spacing_C bundle)) as [q1|e]; cbn [bind]; [|reflexivity].
  destruct (math_log q1) as [l1|e]; cbn [bind]; [|reflexivity].
  destruct (py_div (pow_third (reflected a b * reflected a c * reflected b c))
              (py_scale 2 (pow_third (snd a * snd b * snd c)))) as [q2|e];
    cbn [bind]; [|reflexivity].
  destruct (math_log q2) as [l2|e]; cbn [bind]; [|reflexivity].
  destruct (float_div (2 * PI * const.epsilon_0 K) (l1 - l2)) as [cap|e];
    cbn [bind]; [|reflexivity].
  simpl. repeat split.
Qed.

Lemma distance_sym (p q : R * R) : distance q p = distance p q.
Proof. unfold distance. f_equal. ring. Qed.

Lemma reflected_sym (p q : R * R) : reflected q p = reflected p q.
Proof. unfold reflected. f_equal. ring. Qed.

End TowerInvariance.

(** X14.  Naming the phases otherwise changes nothing: with [a] and [b]
    exchanged, or [b] and [c] exchanged (and so under every permutation of
    the three), construction raises the same exception or builds a tower
    with the same equivalent distances, resistance, inductance and
    capacitance. *)
Theorem X14_phase_names_do_not_matter :
  forall (K : const.t) (locations : PhaseLocations.t) (bundle : ConductorBundle.t)
         (circuits : Z) (freq : R),
    same_line_constants
      (Tower.__post_init__ K locations bundle circuits freq)
      (Tower.__post_init__ K (exchange_ab locations) bundle circuits freq)
    /\ same_line_constants
         (Tower.__post_init__ K locations bundle circuits freq)
         (Tower.__post_init__ K (exchange_bc locations) bundle circuits freq).
Proof.
  intros K locations bundle circuits freq.
  split; apply same_equivalents_same_constants;
    cbn [exchange_ab exchange_bc PhaseLocations.a PhaseLocations.b PhaseLocations.c].
  - rewrite (distance_sym (PhaseLocations.a locations) (PhaseLocations.b locations)).
    ring.
  - rewrite (reflected_sym (PhaseLocations.a locations) (PhaseLocations.b locations)).
    ring.
  - ring.
  - rewrite (distance_sym (PhaseLocations.b locations) (PhaseLocations.c locations)).
    ring.
  - rewrite (reflected_sym (PhaseLocations.b locations) (PhaseLocations.c locations)).
    ring.
  - ring.
Qed.

(** X15.  Only the horizontal offsets between the phases matter: the tower
    moved sideways by any [dx], or seen from the other side (every [x]
    negated), raises the same exception or has the same equivalent
    distances, resistance, inductance and capacitance. *)
Theorem X15_horizontal_position_does_not_matter :
  forall (K : const.t) (locations : PhaseLocations.t) (bundle : ConductorBundle.t)
         (circuits : Z) (freq dx : R),
    same_line_constants
      (Tower.__post_init__ K locations bundle circuits freq)
      (Tower.__post_init__ K (map_locations (shift dx) locations) bundle circuits freq)
    /\ same_line_constants
         (Tower.__post_init__ K locations bundle circuits freq)
         (Tower.__post_init__ K (map_locations mirror locations) bundle circuits freq).
Proof.
  intros K locations bundle circuits freq dx.
  assert (Hd : forall p q, distance (shift dx p) (shift dx q) = distance p q).
  { intros p q. unfold distance, shift. cbn [fst snd]. f_equal. ring. }
  assert (Hr : forall p q, reflected (shift dx p) (shift dx q) = reflected p q).
  { intros p q. unfold reflected, shift. cbn [fst snd]. f_equal. ring. }
  assert (Hd' : forall p q, distance (mirror p) (mirror q) = distance p q).
  { intros p q. unfold distance, mirror. cbn [fst snd]. f_equal. ring. }
  assert (Hr' : forall p q, reflected (mirror p) (mirror q) = reflected p q).
  { intros p q. unfold reflected, mirror. cbn [fst snd]. f_equal. ring. }
  split; apply same_equivalents_same_constants;
    cbn [map_locations PhaseLocations.a PhaseLocations.b PhaseLocations.c];
    rewrite ?Hd, ?Hr, ?Hd', ?Hr'; reflexivity.
Qed.

Section TowerScaling.

Lemma distance_scaled (k : R) (p q : R * R) :
  0 <= k -> distance (scale_point k p) (scale_point k q) = k * distance p q.
Proof.
  intros Hk. unfold distance, scale_point. cbn [fst snd].
  replace ((k * fst p - k * fst q) ^ 2 + (k * snd p - k * snd q) ^ 2)
    with (k ^ 2 * ((fst p - fst q) ^ 2 + (snd p - snd q) ^ 2)) by ring.
  rewrite sqrt_mult.
  - rewrite sqrt_pow2 by exact Hk. reflexivity.
  - apply pow2_ge_0.
  - pose proof (pow2_ge_0 (fst p - fst q)). pose proof (pow2_ge_0 (snd p - snd q)). lra.
Qed.

Lemma reflected_scaled (k : R) (p q : R * R) :
  0 <= k -> reflected (scale_point k p) (scale_point k q) = k * reflected p q.
Proof.
  intros Hk. unfold reflected, scale_point. cbn [fst snd].
  replace ((k * fst p - k * fst q) ^ 2 + (k * snd p + k * snd q) ^ 2)
    with (k ^ 2 * ((fst p - fst q) ^ 2 + (snd p + snd q) ^ 2)) by ring.
  rewrite sqrt_mult.
  - rewrite sqrt_pow2 by exact Hk. reflexivity.
  - apply pow2_ge_0.
  - pose proof (pow2_ge_0 (fst p - fst q)). pose proof (pow2_ge_0 (snd p + snd q)). lra.
Qed.

Lemma geometric_mean_scaled (k x y z : R) :
  0 < k -> 0 < x * y * z ->
  geometric_mean (k * x) (k * y) (k * z) = k * geometric_mean x y z.
Proof.
  intros Hk Hxyz. unfold geometric_mean.
  replace (k * x * (k * y) * (k * z)) with (k ^ 3 * (x * y * z)) by ring.
  rewrite Rpower_scaled by assumption.
  replace (INR 3 * (1 / 3)) with 1 by (simpl; lra).
  rewrite Rpower_1 by exact Hk. reflexivity.
Qed.

End TowerScaling.

(** A built tower measured in another unit: with every coordinate and both
    equivalent spacings of the bundle multiplied by a positive [k], a tower
    is built as well, with the same inductance and the same capacitance. *)
Lemma tower_scaled :
  forall (K : const.t) (locations : PhaseLocations.t)
         (bundle bundle' : ConductorBundle.t) (circuits : Z) (freq k : R)
         (t : Tower.t),
    Tower.__post_init__ K locations bundle circuits freq = Ok t ->
    0 < k ->
    ConductorBundle.spacing_L bundle' = py_scale k (ConductorBundle.spacing_L bundle) ->
    ConductorBundle.spacing_C bundle' = py_scale k (ConductorBundle.spacing_C bundle) ->
    exists t' : Tower.t,
      Tower.__post_init__ K (map_locations (scale_point k) locations)
        bundle' circuits freq = Ok t' /\
      Tower.inductance t' = Tower.inductance t /\
      Tower.capacitance t' = Tower.capacitance t.
Proof.
  intros K locations bundle bundle' circuits freq k t Ht Hk HL' HC'.
  destruct (tower_values K _ _ _ _ _ Ht)
    as (sL & sC & HsL & HsC & HsLpos & HsCpos & -> & HP & HQ & HH & Hne
        & Hind & Hcap & _).
  rewrite HsL in HL'. rewrite HsC in HC'. cbn [py_scale] in HL', HC'.
  set (a := PhaseLocations.a locations) in *.
  set (b := PhaseLocations.b locations) in *.
  set (c := PhaseLocations.c locations) in *.
  assert (Hk0 : 0 <= k) by lra.
  assert (Hed : geometric_mean (distance (scale_point k a) (scale_point k b))
                  (distance (scale_point k a) (scale_point k c))
                  (distance (scale_point k b) (scale_point k c))
                = k * geometric_mean (distance a b) (distance a c) (distance b c)).
  { rewrite !distance_scaled by exact Hk0. apply geometric_mean_scaled; assumption. }
  assert (Her : geometric_mean (reflected (scale_point k a) (scale_point k b))
                  (reflected (scale_point k a) (scale_point k c))
                  (reflected (scale_point k b) (scale_point k c))
                = k * geometric_mean (reflected a b) (reflected a c) (reflected b c)).
  { rewrite !reflected_scaled by exact Hk0. apply geometric_mean_scaled; assumption. }
  assert (Heh : geometric_mean (snd (scale_point k a)) (snd (scale_point k b))
                  (snd (scale_point k c))
                = k * geometric_mean (snd a) (snd b) (snd c)).
  { cbn [scale_point snd]. apply geometric_mean_scaled; assumption. }
  set (ed := geometric_mean (distance a b) (distance a c) (distance b c)) in *.
  set (er := geometric_mean (reflected a b) (reflected a c) (reflected b c)) in *.
  set (eh := geometric_mean (snd a) (snd b) (snd c)) in *.
  assert (Hedpos : 0 < ed) by (unfold ed, geometric_mean, Rpower; apply exp_pos).
  assert (Herpos : 0 < er) by (unfold er, geometric_mean, Rpower; apply exp_pos).
  assert (Hehpos : 0 < eh) by (unfold eh, geometric_mean, Rpower; apply exp_pos).
  assert (E1 : k * ed / (k * sL) = ed / sL) by (field; lra).
  assert (E2 : k * ed / (k * sC) = ed / sC) by (field; lra).
  assert (E3 : k * er / (2 * (k * eh)) = er / (2 * eh)) by (field; lra).
  assert (Hk3 : 0 < k * k * k) by (repeat apply Rmult_lt_0_compat; exact Hk).
  destruct (tower_built_values K (map_locations (scale_point k) locations) bundle'
              freq (k * sL) (k * sC)) as (t' & Ht' & Hind' & Hcap').
  - exact HL'.
  - exact HC'.
  - apply Rmult_lt_0_compat; assumption.
  - apply Rmult_lt_0_compat; assumption.
  - cbn [map_locations PhaseLocations.a PhaseLocations.b PhaseLocations.c].
    fold a b c. rewrite !distance_scaled by exact Hk0.
    replace (k * distance a b * (k * distance a c) * (k * distance b c))
      with (k * k * k * (distance a b * distance a c * distance b c)) by ring.
    apply Rmult_lt_0_compat; assumption.
  - cbn [map_locations PhaseLocations.a PhaseLocations.b PhaseLocations.c].
    fold a b c. rewrite !reflected_scaled by exact Hk0.
    replace (k * reflected a b * (k * reflected a c) * (k * reflected b c))
      with (k * k * k * (reflected a b * reflected a c * reflected b c)) by ring.
    apply Rmult_lt_0_compat; assumption.
  - cbn [map_locations PhaseLocations.a PhaseLocations.b PhaseLocations.c
         scale_point snd].
    fold a b c.
    replace (k * snd a * (k * snd b) * (k * snd c))
      with (k * k * k * (snd a * snd b * snd c)) by ring.
    apply Rmult_lt_0_compat; assumption.
  - cbn [map_locations PhaseLocations.a PhaseLocations.b PhaseLocations.c].
    fold a b c. rewrite Hed, Her, Heh, E2, E3. exact Hne.
  - exists t'. split; [exact Ht'|].
    cbn [map_locations PhaseLocations.a PhaseLocations.b PhaseLocations.c]
      in Hind', Hcap'.
    fold a b c in Hind', Hcap'.
    rewrite Hed in Hind', Hcap'. rewrite Her, Heh in Hcap'.
    rewrite E1 in Hind'. rewrite E2, E3 in Hcap'.
    rewrite Hind, Hcap. split; assumption.
Qed.

(** X16.  A line measured in another unit.  Take a bundle constructed from
    a positive GMR, radius and spacing, other than four conductors in a flat
    layout, and a tower built over it.  With the GMR, the radius, the spacing
    and every coordinate multiplied by a positive [k], the bundle and the
    tower are built as well, and the tower has the same resistance,
    inductance and capacitance per kilometre. *)
Theorem X16_line_constants_under_change_of_unit :
  forall (K : const.t) (self : ConductorBundle.fields) (bundle : ConductorBundle.t)
         (locations : PhaseLocations.t) (circuits : Z) (freq g r k : R)
         (t : Tower.t),
    ConductorBundle.__post_init__ self = Ok bundle ->
    Conductor.gmr (ConductorBundle.conductor self) = Some g ->
    Conductor.radius (ConductorBundle.conductor self) = Some r ->
    0 < g -> 0 < r -> 0 < ConductorBundle.spacing self ->
    ~ (ConductorBundle.n self = 4%Z /\ ConductorBundle.layout self = "flat"%string) ->
    Tower.__post_init__ K locations bundle circuits freq = Ok t ->
    0 < k ->
    exists (bundle' : ConductorBundle.t) (t' : Tower.t),
      ConductorBundle.__post_init__ (scale_fields k self) = Ok bundle' /\
      Tower.__post_init__ K (map_locations (scale_point k) locations)
        bundle' circuits freq = Ok t' /\
      Tower.resistance t' = Tower.resistance t /\
      Tower.inductance t' = Tower.inductance t /\
      Tower.capacitance t' = Tower.capacitance t.
Proof.
  intros K self bundle locations circuits freq g r k t
         Hb Hg Hr Hgpos Hrpos Hspos Hnot Ht Hk.
  destruct (bundle_positive_shape self bundle g r Hb Hg Hr Hgpos Hrpos Hspos)
    as (Hsup & HL & HC & res & Hres & Hq).
  assert (Hg' : Conductor.gmr (ConductorBundle.conductor (scale_fields k self))
                = Some (k * g)) by (simpl; rewrite Hg; reflexivity).
  assert (Hr' : Conductor.radius (ConductorBundle.conductor (scale_fields k self))
                = Some (k * r)) by (simpl; rewrite Hr; reflexivity).
  assert (Hs' : 0 < ConductorBundle.spacing (scale_fields k self))
    by (simpl; apply Rmult_lt_0_compat; assumption).
  assert (Hkg : 0 < k * g) by (apply Rmult_lt_0_compat; assumption).
  assert (Hkr : 0 < k * r) by (apply Rmult_lt_0_compat; assumption).
  pose proof (bundle_built (scale_fields k self) res (k * g) (k * r)
                Hsup Hres Hg' Hr' Hkg Hkr Hs') as Hb'.
  cbn [scale_fields ConductorBundle.n ConductorBundle.layout ConductorBundle.spacing]
    in Hb'.
  rewrite !spacing_formula_scaled in Hb' by assumption.
  assert (Hfactor : (if (ConductorBundle.n self =? 2)%Z then k
                     else if String.eqb (ConductorBundle.layout self) "circular" then k
                     else if (ConductorBundle.n self =? 3)%Z then k else sqrt k) = k).
  { unfold supported in Hsup.
    destruct (Z.eqb_spec (ConductorBundle.n self) 2%Z) as [H2|H2]; [reflexivity|].
    destruct (String.eqb_spec (ConductorBundle.layout self) "circular") as [Hc|Hc];
      [reflexivity|].
    destruct (Z.eqb_spec (ConductorBundle.n self) 3%Z) as [H3|H3]; [reflexivity|].
    exfalso. apply Hnot. tauto. }
  rewrite Hfactor in Hb'.
  match type of Hb' with _ = Ok ?b => set (bundle' := b) in * end.
  destruct (tower_scaled K locations bundle bundle' circuits freq k t Ht Hk)
    as (t' & Ht' & Hind & Hcap).
  - rewrite HL. reflexivity.
  - rewrite HC. reflexivity.
  - exists bundle', t'. split; [exact Hb'|]. split; [exact Ht'|].
    split; [|split; assumption].
    destruct (tower_Ok K _ _ _ _ _ Ht) as (_ & _ & Hres_t & _).
    destruct (tower_Ok K _ _ _ _ _ Ht') as (_ & _ & Hres_t' & _).
    rewrite Hres_t, Hres_t', Hq. reflexivity.
Qed.

Lemma X16_line_constants_under_change_of_unit_witness :
  exists (t : Tower.t) (bundle' : ConductorBundle.t) (t' : Tower.t),
    Tower.__post_init__ example_const row_of_phases cardinal_bundle 1 60 = Ok t /\
    ConductorBundle.__post_init__ (scale_fields 1000 (cardinal_pair "circular"))
    = Ok bundle' /\
    Tower.__post_init__ example_const (map_locations (scale_point 1000) row_of_phases)
      bundle' 1 60 = Ok t' /\
    Tower.resistance t' = Tower.resistance t /\
    Tower.inductance t' = Tower.inductance t /\
    Tower.capacitance t' = Tower.capacitance t.
Proof.
  destruct (row_tower_built 60) as [t Ht].
  destruct (X16_line_constants_under_change_of_unit example_const
              (cardinal_pair "circular") cardinal_bundle row_of_phases 1 60
              (12253 / 1000000) (1519 / 100000) 1000 t
              new_cardinal_bundle eq_refl eq_refl)
    as (bundle' & t' & Hb' & Ht' & Hrest).
  - lra.
  - lra.
  - simpl. lra.
  - simpl. intros [H _]. discriminate.
  - exact Ht.
  - lra.
  - exists t, bundle', t'. auto.
Defined.

Section ImageTerm.

Lemma reflected_at_least_heights (p q : R * R) :
  0 <= snd p + snd q -> snd p + snd q <= reflected p q.
Proof.
  intros Hh. unfold reflected.
  rewrite <- (sqrt_pow2 (snd p + snd q) Hh) at 1.
  apply sqrt_le_1_alt. pose proof (pow2_ge_0 (fst p - fst q)). lra.
Qed.

Lemma sums_against_product (x y z : R) :
  0 < x -> 0 < y -> 0 < z -> 8 * (x * y * z) <= (x + y) * (x + z) * (y + z).
Proof.
  intros Hx Hy Hz.
  assert (H1 : 0 <= x * (y - z) ^ 2) by (apply Rmult_le_pos; [lra | apply pow2_ge_0]).
  assert (H2 : 0 <= y * (x - z) ^ 2) by (apply Rmult_le_pos; [lra | apply pow2_ge_0]).
  assert (H3 : 0 <= z * (x - y) ^ 2) by (apply Rmult_le_pos; [lra | apply pow2_ge_0]).
  replace ((x + y) * (x + z) * (y + z))
    with (8 * (x * y * z) + (x * (y - z) ^ 2 + y * (x - z) ^ 2 + z * (x - y) ^ 2))
    by ring.
  lra.
Qed.

Lemma product_le (x y z x' y' z' : R) :
  0 <= x <= x' -> 0 <= y <= y' -> 0 <= z <= z' -> x * y * z <= x' * y' * z'.
Proof.
  intros Hx Hy Hz.
  apply Rmult_le_compat; [|lra|apply Rmult_le_compat; lra|lra].
  apply Rmult_le_pos; lra.
Qed.

(** Above the ground the mean reflected distance is at least twice the mean
    height. *)
Lemma reflected_mean_against_height (a b c : R * R) :
  0 < snd a -> 0 < snd b -> 0 < snd c ->
  2 * geometric_mean (snd a) (snd b) (snd c)
  <= geometric_mean (reflected a b) (reflected a c) (reflected b c).
Proof.
  intros Ha Hb Hc. unfold geometric_mean.
  assert (HH : 0 < snd a * snd b * snd c) by (repeat apply Rmult_lt_0_compat; assumption).
  assert (Hab := reflected_at_least_heights a b ltac:(lra)).
  assert (Hac := reflected_at_least_heights a c ltac:(lra)).
  assert (Hbc := reflected_at_least_heights b c ltac:(lra)).
  assert (HQ : 8 * (snd a * snd b * snd c)
               <= reflected a b * reflected a c * reflected b c).
  { apply Rle_trans with ((snd a + snd b) * (snd a + snd c) * (snd b + snd c)).
    - apply sums_against_product; assumption.
    - apply product_le; lra. }
  replace (2 * Rpower (snd a * snd b * snd c) (1 / 3))
    with (Rpower (2 ^ 3 * (snd a * snd b * snd c)) (1 / 3)).
  - apply Rle_Rpower_l; [lra|]. split; [lra|]. lra.
  - rewrite Rpower_scaled by lra.
    replace (INR 3 * (1 / 3)) with 1 by (simpl; lra).
    rewrite Rpower_1 by lra. reflexivity.
Qed.

Lemma ln_nonneg (x : R) : 1 <= x -> 0 <= ln x.
Proof.
  intros [Hlt | <-].
  - rewrite <- ln_1. left. apply ln_increasing; lra.
  - rewrite ln_1. lra.
Qed.

End ImageTerm.

(** X17.  Phases above the ground.  In a constructed tower whose three
    heights are positive, the equivalent reflected distance is at least
    twice the equivalent height, so the image term
    [ln(equivalent_reflected_distance / (2 * equivalent_height))] is not
    negative; and when [epsilon_0] and the capacitance are positive, the
    capacitance is at least [2 pi epsilon_0 / ln(equivalent_distance /
    spacing_C)], what it would be without the image term. *)
Theorem X17_image_term_raises_capacitance :
  forall (K : const.t) (locations : PhaseLocations.t) (bundle : ConductorBundle.t)
         (circuits : Z) (freq : R) (t : Tower.t),
    Tower.__post_init__ K locations bundle circuits freq = Ok t ->
    let a := PhaseLocations.a locations in
    let b := PhaseLocations.b locations in
    let c := PhaseLocations.c locations in
    let ed := geometric_mean (distance a b) (distance a c) (distance b c) in
    let er := geometric_mean (reflected a b) (reflected a c) (reflected b c) in
    let eh := geometric_mean (snd a) (snd b) (snd c) in
    0 < snd a -> 0 < snd b -> 0 < snd c ->
    2 * eh <= er /\ 0 <= ln (er / (2 * eh)) /\
    exists sC : R,
      ConductorBundle.spacing_C bundle = PyFloat sC /\
      (0 < const.epsilon_0 K -> 0 < Tower.capacitance t ->
       0 < ln (ed / sC) /\
       2 * PI * const.epsilon_0 K / ln (ed / sC) <= Tower.capacitance t).
Proof.
  intros K locations bundle circuits freq t Ht a b c ed er eh Ha Hb Hc.
  destruct (tower_values K _ _ _ _ _ Ht)
    as (sL & sC & _ & HsC & _ & HsCpos & _ & _ & _ & _ & _ & _ & Hcap & _).
  fold a b c in Hcap. fold ed er eh in Hcap.
  assert (Hmean : 2 * eh <= er) by (apply reflected_mean_against_height; assumption).
  assert (Heh : 0 < eh) by (unfold eh, geometric_mean, Rpower; apply exp_pos).
  assert (Himage : 0 <= ln (er / (2 * eh))).
  { apply ln_nonneg. apply Rmult_le_reg_r with (2 * eh); [lra|].
    unfold Rdiv. rewrite Rmult_assoc, Rinv_l by lra. lra. }
  split; [exact Hmean|]. split; [exact Himage|].
  exists sC. split; [exact HsC|]. intros Heps Hpos.
  set (N := 2 * PI * const.epsilon_0 K) in *.
  set (l1 := ln (ed / sC)) in *. set (l2 := ln (er / (2 * eh))) in *.
  assert (HN : 0 < N) by (unfold N; pose proof PI_RGT_0; nra).
  assert (HD : 0 < l1 - l2).
  { destruct (Rlt_dec 0 (l1 - l2)) as [H|H]; [exact H|]. exfalso.
    rewrite Hcap in Hpos. unfold Rdiv in Hpos.
    destruct (Req_EM_T (l1 - l2) 0) as [E|E].
    - rewrite E, Rinv_0, Rmult_0_r in Hpos. lra.
    - assert (/ (l1 - l2) < 0) by (apply Rinv_lt_0_compat; lra). nra. }
  split; [lra|]. rewrite Hcap. unfold Rdiv.
  apply Rmult_le_compat_l; [lra|]. apply Rinv_le_contravar; lra.
Qed.

(** X18.  The sign of the inductance: in a constructed tower, with a
    positive [mu_0], the inductance is positive exactly when the equivalent
    distance between the phases exceeds [spacing_L], and zero exactly when
    the two are equal. *)
Theorem X18_sign_of_inductance :
  forall (K : const.t) (locations : PhaseLocations.t) (bundle : ConductorBundle.t)
         (circuits : Z) (freq : R) (t : Tower.t),
    Tower.__post_init__ K locations bundle circuits freq = Ok t ->
    0 < const.mu_0 K ->
    let a := PhaseLocations.a locations in
    let b := PhaseLocations.b locations in
    let c := PhaseLocations.c locations in
    let ed := geometric_mean (distance a b) (distance a c) (distance b c) in
    exists sL : R,
      ConductorBundle.spacing_L bundle = PyFloat sL /\
      (0 < Tower.inductance t <-> sL < ed) /\
      (Tower.inductance t = 0 <-> sL = ed).
Proof.
  intros K locations bundle circuits freq t Ht Hmu a b c ed.
  destruct (tower_values K _ _ _ _ _ Ht)
    as (sL & sC & HsL & _ & HsLpos & _ & _ & _ & _ & _ & _ & Hind & _).
  fold a b c in Hind. fold ed in Hind.
  assert (Hed : 0 < ed) by (unfold ed, geometric_mean, Rpower; apply exp_pos).
  assert (Hq : 0 < ed / sL) by (apply Rdiv_lt_0_compat; assumption).
  assert (Hc : 0 < const.mu_0 K / (2 * PI)).
  { apply Rdiv_lt_0_compat; [exact Hmu | pose proof PI_RGT_0; lra]. }
  assert (Hone : forall x, 0 < x -> (1 < x / sL <-> sL < x)).
  { intros x Hx. split; intros H.
    - apply Rmult_lt_compat_r with (r := sL) in H; [|exact HsLpos].
      unfold Rdiv in H. rewrite Rmult_assoc, Rinv_l, Rmult_1_r in H by lra. lra.
    - apply Rmult_lt_reg_r with sL; [exact HsLpos|].
      unfold Rdiv. rewrite Rmult_assoc, Rinv_l, Rmult_1_r by lra. lra. }
  exists sL. split; [exact HsL|]. rewrite Hind. split.
  - rewrite <- (Hone ed Hed). split.
    + intros Hpos. assert (Hln : 0 < ln (ed / sL)) by nra.
      rewrite <- ln_1 in Hln. apply ln_lt_inv in Hln; lra.
    + intros H1. assert (Hln : 0 < ln (ed / sL)).
      { rewrite <- ln_1. apply ln_increasing; lra. }
      nra.
  - split.
    + intros Hz. assert (Hln : ln (ed / sL) = 0) by nra.
      rewrite <- ln_1 in Hln. apply ln_inv in Hln; [|exact Hq|lra].
      apply Rmult_eq_compat_r with (r := sL) in Hln.
      unfold Rdiv in Hln. rewrite Rmult_assoc, Rinv_l, Rmult_1_r in Hln by lra. lra.
    + intros ->. unfold Rdiv. rewrite Rinv_r by lra. rewrite ln_1. ring.
Qed.

Lemma X17_image_term_raises_capacitance_witness :
  exists t : Tower.t,
    Tower.__post_init__ example_const row_of_phases cardinal_bundle 1 60 = Ok t /\
    let a := PhaseLocations.a row_of_phases in
    let b := PhaseLocations.b row_of_phases in
    let c := PhaseLocations.c row_of_phases in
    let ed := geometric_mean (distance a b) (distance a c) (distance b c) in
    let er := geometric_mean (reflected a b) (reflected a c) (reflected b c) in
    let eh := geometric_mean (snd a) (snd b) (snd c) in
    2 * eh <= er /\ 0 <= ln (er / (2 * eh)) /\
    exists sC : R,
      ConductorBundle.spacing_C cardinal_bundle = PyFloat sC /\
      (0 < const.epsilon_0 example_const -> 0 < Tower.capacitance t ->
       0 < ln (ed / sC) /\
       2 * PI * const.epsilon_0 example_const / ln (ed / sC) <= Tower.capacitance t).
Proof.
  destruct (row_tower_built 60) as [t Ht].
  exists t. split; [exact Ht|].
  apply (X17_image_term_raises_capacitance example_const row_of_phases
           cardinal_bundle 1 60 t Ht); simpl; lra.
Defined.

Lemma X18_sign_of_inductance_witness :
  exists t : Tower.t,
    Tower.__post_init__ example_const row_of_phases cardinal_bundle 1 60 = Ok t /\
    let a := PhaseLocations.a row_of_phases in
    let b := PhaseLocations.b row_of_phases in
    let c := PhaseLocations.c row_of_phases in
    let ed := geometric_mean (distance a b) (distance a c) (distance b c) in
    exists sL : R,
      ConductorBundle.spacing_L cardinal_bundle = PyFloat sL /\
      (0 < Tower.inductance t <-> sL < ed) /\
      (Tower.inductance t = 0 <-> sL = ed).
Proof.
  destruct (row_tower_built 60) as [t Ht].
  exists t. split; [exact Ht|].
  apply (X18_sign_of_inductance example_const row_of_phases cardinal_bundle 1 60 t Ht).
  simpl. pose proof PI_RGT_0. apply Rdiv_lt_0_compat; lra.
Defined.
